(** * Songkick integration: response classification and HTML extraction

    A shallow embedding of [src/songkick_integrations.py] and
    [src/models/models.py].

    - Python [str] values are [string]s (byte sequences of their UTF-8
      encoding; substring search on UTF-8 bytes agrees with substring search
      on code points, and whitespace is recognised by the encodings of the
      whitespace characters).
    - A call that may raise is a computation in the [result] monad; [Raise e]
      is a propagating Python exception, [try_except] is [try/except
      Exception].
    - The network is an explicit [Session] argument: what [session.get] and
      [session.post] answer (or raise) is an input of every operation.
    - Documents are the trees BeautifulSoup builds; the parser itself
      ([BeautifulSoup(text, "html.parser")]) is a parameter of the
      development: a partial function, since html.parser rejects some
      markup and the constructor then raises. What the integration uses of
      BeautifulSoup ([find],
      [find_all], [select], [select_one], [text], [get_text], item access)
      and of requests ([raise_for_status]) follows the behaviour of those
      libraries.
    - Calls of [logger.debug] are left out: they format strings and have no
      part in what an operation returns or raises. *)

From stdpp Require Import base option list strings gmap pretty.

Set Warnings "-register-all".

Local Open Scope Z_scope.

(** ** Python string operations *)

Module PyStr.

(** [s.startswith(p)] *)
Fixpoint startswith (p s : string) : bool :=
  match p, s with
  | EmptyString, _ => true
  | String a p', String b s' => if decide (a = b) then startswith p' s' else false
  | String _ _, EmptyString => false
  end.

(** [sub in s] *)
Fixpoint contains (sub s : string) : bool :=
  startswith sub s ||
  match s with
  | EmptyString => false
  | String _ s' => contains sub s'
  end.

Fixpoint drop (n : nat) (s : string) : string :=
  match n, s with
  | O, _ => s
  | S n', String _ s' => drop n' s'
  | S _, EmptyString => EmptyString
  end.

(** [s.partition(sep)] when [sep] occurs: the text before and the text
    after the first occurrence of [sep]. *)
Fixpoint cut (sep s : string) : option (string * string) :=
  if startswith sep s then Some (EmptyString, drop (String.length sep) s)
  else match s with
       | EmptyString => None
       | String c s' =>
           match cut sep s' with
           | Some (a, b) => Some (String c a, b)
           | None => None
           end
       end.

(** [s.split(sep)] for a non-empty [sep]; [fuel] bounds the number of
    separators consumed. *)
Fixpoint split_fuel (fuel : nat) (sep s : string) : list string :=
  match fuel with
  | O => [s]
  | S fuel' =>
      match cut sep s with
      | None => [s]
      | Some (a, b) => a :: split_fuel fuel' sep b
      end
  end.

Definition split (sep s : string) : list string :=
  split_fuel (String.length s) sep s.

(** [s.replace(old, new)] for a non-empty [old]: every non-overlapping
    occurrence, left to right. [skip] counts the characters of a matched
    occurrence still to be dropped. *)
Fixpoint replace_from (skip : nat) (old new s : string) : string :=
  match s with
  | EmptyString => EmptyString
  | String c s' =>
      match skip with
      | S k => replace_from k old new s'
      | O =>
          if startswith old s
          then new +:+ replace_from (Nat.pred (String.length old)) old new s'
          else String c (replace_from O old new s')
      end
  end.

Definition replace (old new s : string) : string := replace_from O old new s.

(** The string of the bytes [l]. *)
Definition of_bytes (l : list nat) : string :=
  fold_right (λ n s, String (Ascii.ascii_of_nat n) s) EmptyString l.

(** The characters for which [str.isspace()] holds, in UTF-8: U+0009 to
    U+000D, U+001C to U+0020, U+0085, U+00A0, U+1680, U+2000 to U+200A,
    U+2028, U+2029, U+202F, U+205F and U+3000. *)
Definition whitespace : list string :=
  map of_bytes
    ([ [9]; [10]; [11]; [12]; [13]; [28]; [29]; [30]; [31]; [32];
      [194; 133]; [194; 160]; [225; 154; 128];
      [226; 128; 128]; [226; 128; 129]; [226; 128; 130]; [226; 128; 131];
      [226; 128; 132]; [226; 128; 133]; [226; 128; 134]; [226; 128; 135];
      [226; 128; 136]; [226; 128; 137]; [226; 128; 138];
      [226; 128; 168]; [226; 128; 169]; [226; 128; 175]; [226; 129; 159];
      [227; 128; 128] ])%nat.

(** The whitespace character [s] begins with, if it begins with one. *)
Definition leading_space (s : string) : option string :=
  List.find (λ w, startswith w s) whitespace.

(** [s.lstrip()]: [skip] counts the bytes of a whitespace character still to
    be dropped. *)
Fixpoint lstrip_from (skip : nat) (s : string) : string :=
  match s with
  | EmptyString => EmptyString
  | String c s' =>
      match skip with
      | S k => lstrip_from k s'
      | O =>
          match leading_space (String c s') with
          | Some w => lstrip_from (Nat.pred (String.length w)) s'
          | None => String c s'
          end
      end
  end.

Definition lstrip (s : string) : string := lstrip_from O s.

(** [s] holds whitespace characters only. *)
Definition blank (s : string) : bool :=
  match lstrip s with EmptyString => true | _ => false end.

(** [s.rstrip()]: cut where the rest of the string is blank. *)
Fixpoint rstrip (s : string) : string :=
  match s with
  | EmptyString => EmptyString
  | String c s' => if blank (String c s') then EmptyString else String c (rstrip s')
  end.

(** [s.strip()] *)
Definition strip (s : string) : string := rstrip (lstrip s).

(** [sep.join(l)] *)
Fixpoint join (sep : string) (l : list string) : string :=
  match l with
  | [] => EmptyString
  | [x] => x
  | x :: l' => x +:+ sep +:+ join sep l'
  end.

(** Truthiness of a string: non-empty. *)
Definition truthy (s : string) : bool :=
  match s with EmptyString => false | _ => true end.

(** The maximal runs of non-whitespace characters of [s], as the regular
    expression [\S+] finds them; [skip] as in [lstrip_from]. *)
Fixpoint words_from (skip : nat) (cur s : string) : list string :=
  match s with
  | EmptyString => if truthy cur then [cur] else []
  | String c s' =>
      match skip with
      | S k => words_from k cur s'
      | O =>
          match leading_space (String c s') with
          | Some w =>
              (if truthy cur then [cur] else [])
                ++ words_from (Nat.pred (String.length w)) EmptyString s'
          | None => words_from O (cur +:+ String c EmptyString) s'
          end
      end
  end.

Definition words (s : string) : list string := words_from O EmptyString s.

(** The double-quote character. *)
Definition dquote : string := String (Ascii.ascii_of_nat 34) EmptyString.

End PyStr.

(** ** Python values

    The values the operations build and return, and the values
    [response.json()] decodes: [None], booleans, integers, strings, lists and
    dictionaries with string keys. Numbers with a fraction are left out: no
    operation computes with a number. *)

Inductive pyval : Type :=
| PNone
| PBool (b : bool)
| PInt (z : Z)
| PStr (s : string)
| PList (l : list pyval)
| PDict (m : gmap string pyval).

(** ** Exceptions

    Modelled from the spec: [IntegrationAuthError] and [IntegrationAPIError]
    come from [submodule_integrations.utils.errors], which is not part of the
    repository; they are taken as records of the arguments the classifier
    gives their constructors (message, status and downstream code, and for
    the API error the integration name first). The other exceptions are
    those of FastAPI ([HTTPException]), requests ([HTTPError],
    [ConnectionError], [JSONDecodeError]), BeautifulSoup
    ([ParserRejectedMarkup]: what constructing a document raises when
    html.parser rejects the markup, an [AssertionError] in the releases that
    do not wrap it) and Python itself. *)

Inductive exn : Type :=
| IntegrationAuthError (message : string) (status : Z) (code : pyval)
| IntegrationAPIError (integration : string) (message : string) (status : Z) (code : pyval)
| HTTPException (status_code : Z) (detail : string)
| HTTPError (status_code : Z)
| ConnectionError
| JSONDecodeError
| AttributeError
| TypeError
| KeyError (key : string)
| IndexError
| ParserRejectedMarkup.

Inductive result (A : Type) : Type :=
| Return (a : A)
| Raise (e : exn).
Arguments Return {A} a.
Arguments Raise {A} e.

#[global] Instance result_ret : MRet result := λ A a, Return a.

#[global] Instance result_bind : MBind result := λ A B k m,
  match m with
  | Return a => k a
  | Raise e => Raise e
  end.

#[global] Instance result_fmap : FMap result := λ A B f m,
  match m with
  | Return a => Return (f a)
  | Raise e => Raise e
  end.

(** [try: body except Exception as exc: handler] *)
Definition try_except {A} (body : result A) (handler : exn → result A) : result A :=
  match body with
  | Return a => Return a
  | Raise e => handler e
  end.


(** ** Documents: the tree BeautifulSoup builds

    Attribute values are kept as the strings of the page; the multi-valued
    [class] attribute is split into its whitespace-separated members where
    it is matched, which is the only way the integration looks at it.

    A string of a tree has a class: [NavigableString] (or [CData], which is
    read alike), or one of the special classes: comments, declarations,
    doctypes and processing instructions, and the strings the parser puts
    directly inside a script, style, template, rt or rp element. [text] and
    [get_text] collect the strings of the classes the element they are
    called on is interested in. *)

Module Bs4.

Inductive string_class : Type :=
| Comment
| Declaration
| Doctype
| ProcessingInstruction
| Script
| Stylesheet
| TemplateString
| RubyTextString
| RubyParenthesisString.

#[global] Instance string_class_eq_dec : EqDecision string_class.
Proof. solve_decision. Defined.

Inductive node : Type :=
| NavigableString (s : string)
| SpecialString (cls : string_class) (s : string)
| Tag (name : string) (attrs : gmap string string) (contents : list node).

(** [tag.descendants]: every node below [n], in document order. *)
Fixpoint descendants (n : node) : list node :=
  match n with
  | NavigableString _ | SpecialString _ _ => []
  | Tag _ _ cs => flat_map (λ c, c :: descendants c) cs
  end.

(** [tag.get(key)] *)
Definition get (key : string) (n : node) : option string :=
  match n with
  | Tag _ attrs _ => attrs !! key
  | NavigableString _ | SpecialString _ _ => None
  end.

(** What a search may ask of an attribute: a string, or [True]. *)
Inductive matcher : Type :=
| MatchStr (s : string)
| MatchTrue.

(** The value of attribute [key] as a search sees it. *)
Inductive markup : Type :=
| MarkupNone
| MarkupStr (s : string)
| MarkupList (l : list string).

Definition markup_of (key : string) (n : node) : markup :=
  match get key n with
  | None => MarkupNone
  | Some v => if decide (key = "class") then MarkupList (PyStr.words v) else MarkupStr v
  end.

(** [SoupStrainer._matches] *)
Definition matches (mk : markup) (against : matcher) : bool :=
  match mk, against with
  | MarkupList l, MatchStr s =>
      bool_decide (s ∈ l) || bool_decide (PyStr.join " " l = s)
  | MarkupList _, MatchTrue => true
  | MarkupStr _, MatchTrue => true
  | MarkupNone, MatchTrue => false
  | MarkupNone, MatchStr s => negb (PyStr.truthy s)
  | MarkupStr v, MatchStr s => bool_decide (v = s)
  end.

Definition tag_matches (name : string) (attrs : list (string * matcher)) (n : node) : bool :=
  match n with
  | Tag nm _ _ =>
      bool_decide (nm = name)
      && forallb (λ ka, matches (markup_of ka.1 n) ka.2) attrs
  | NavigableString _ | SpecialString _ _ => false
  end.

(** [tag.find_all(name, attrs)] *)
Definition find_all (name : string) (attrs : list (string * matcher)) (n : node) : list node :=
  List.filter (tag_matches name attrs) (descendants n).

(** [tag.find(name, attrs)] *)
Definition find (name : string) (attrs : list (string * matcher)) (n : node) : option node :=
  head (find_all name attrs n).

(** [class_=c] *)
Definition class_ (c : string) : list (string * matcher) := [("class", MatchStr c)].

(** [builder.string_containers]: the special class an element of that name
    is interested in; any other element is interested in [NavigableString]
    and [CData]. *)
Definition string_container (name : string) : option string_class :=
  if decide (name = "script") then Some Script
  else if decide (name = "style") then Some Stylesheet
  else if decide (name = "template") then Some TemplateString
  else if decide (name = "rt") then Some RubyTextString
  else if decide (name = "rp") then Some RubyParenthesisString
  else None.

(** The strings at or below [n] whose class is the one asked for, in
    document order. *)
Fixpoint strings_of (types : option string_class) (n : node) : list string :=
  match n with
  | NavigableString s => match types with None => [s] | Some _ => [] end
  | SpecialString cls s => if decide (types = Some cls) then [s] else []
  | Tag _ _ cs => flat_map (strings_of types) cs
  end.

(** [tag._all_strings()]: the strings below an element that are of the
    classes it is interested in; on a string, the string (the integration
    reads the text of elements only). *)
Definition all_strings (n : node) : list string :=
  match n with
  | Tag name _ cs => flat_map (strings_of (string_container name)) cs
  | NavigableString s | SpecialString _ s => [s]
  end.

(** [tag.text] *)
Definition text (n : node) : string := PyStr.join EmptyString (all_strings n).

(** [tag.get_text(sep, strip=True)] *)
Definition get_text_strip (sep : string) (n : node) : string :=
  PyStr.join sep (List.filter PyStr.truthy (map PyStr.strip (all_strings n))).

(** CSS selectors as the integration writes them: compound selectors that
    are one type or one class selector, joined by descendant combinators. *)
Inductive simple : Type :=
| SelType (name : string)
| SelClass (cls : string).

Definition simple_matches (c : simple) (n : node) : bool :=
  match n, c with
  | Tag nm _ _, SelType name => bool_decide (nm = name)
  | Tag _ _ _, SelClass cls =>
      match get "class" n with
      | Some v => bool_decide (cls ∈ PyStr.words v)
      | None => false
      end
  | NavigableString _, _ | SpecialString _ _, _ => false
  end.

(** Elements at or below [n] selected by [sel :: rest], where the
    compounds before [sel] are already matched by ancestors of [n]. *)
Fixpoint select_in (sel : simple) (rest : list simple) (n : node) {struct n} : list node :=
  match n with
  | NavigableString _ | SpecialString _ _ => []
  | Tag _ _ cs =>
      match rest with
      | [] =>
          (if simple_matches sel n then [n] else [])
            ++ flat_map (select_in sel []) cs
      | r :: rest' =>
          if simple_matches sel n
          then flat_map (select_in r rest') cs
          else flat_map (select_in sel rest) cs
      end
  end.

(** [tag.select(selector)] *)
Definition select (selector : list simple) (n : node) : list node :=
  match selector, n with
  | sel :: rest, Tag _ _ cs => flat_map (select_in sel rest) cs
  | _, _ => []
  end.

(** [tag.select_one(selector)] *)
Definition select_one (selector : list simple) (n : node) : option node :=
  head (select selector n).

End Bs4.

(** ** HTTP clients *)

(** [aiohttp.ClientResponse]: the status and what [await response.json()]
    does. *)
Module Aiohttp.
Record ClientResponse : Type := {
  status : Z;
  json : result pyval;
}.
End Aiohttp.

(** [requests.Response] and [requests.Session]. *)
Module Requests.
Record Response : Type := {
  status_code : Z;
  text : string;
  json : result pyval;
}.

(** [Response.raise_for_status()]: an [HTTPError] for 4xx and 5xx. *)
Definition raise_for_status (r : Response) : result unit :=
  if (400 <=? status_code r) && (status_code r <? 600)
  then Raise (HTTPError (status_code r))
  else Return tt.

Record Session : Type := {
  get : string → gmap string string → result Response;
  post : string → gmap string string → gmap string string → result Response;
}.
End Requests.

(** ** Python idioms used by the extractors *)

Inductive flow (S R : Type) : Type :=
| Next (s : S)
| Returned (r : R).
Arguments Next {S R} s.
Arguments Returned {S R} r.

(** [for x in items: body], where the body may [return]. *)
Fixpoint for_each {A S R} (items : list A) (body : A → S → result (flow S R)) (s : S)
  : result (flow S R) :=
  match items with
  | [] => Return (Next s)
  | x :: items' =>
      st ← body x s;
      match st with
      | Next s' => for_each items' body s'
      | Returned r => Return (Returned r)
      end
  end.

(** [d.get(key, dflt)]: only dictionaries have a [get]. *)
Definition dict_get (d : pyval) (key : string) (dflt : pyval) : result pyval :=
  match d with
  | PDict m => Return (default dflt (m !! key))
  | _ => Raise AttributeError
  end.

(** [v == s] for a string literal [s]. *)
Definition eq_str (v : pyval) (s : string) : bool :=
  match v with
  | PStr s' => bool_decide (s' = s)
  | _ => false
  end.

(** [t.find(name, attrs)] where [t] may be [None]. *)
Definition find_on (t : option Bs4.node) (name : string) (attrs : list (string * Bs4.matcher))
  : result (option Bs4.node) :=
  match t with
  | Some n => Return (Bs4.find name attrs n)
  | None => Raise AttributeError
  end.

(** [t.text] where [t] may be [None]. *)
Definition text_of (t : option Bs4.node) : result string :=
  match t with
  | Some n => Return (Bs4.text n)
  | None => Raise AttributeError
  end.

(** [t[key]] where [t] may be [None]. *)
Definition getitem (t : option Bs4.node) (key : string) : result string :=
  match t with
  | Some n =>
      match Bs4.get key n with
      | Some v => Return v
      | None => Raise (KeyError key)
      end
  | None => Raise TypeError
  end.

(** [l[i]] *)
Definition index {A} (l : list A) (i : nat) : result A :=
  match l !! i with
  | Some x => Return x
  | None => Raise IndexError
  end.

(** An optional string as a Python value. *)
Definition opt_str (o : option string) : pyval :=
  match o with
  | Some s => PStr s
  | None => PNone
  end.

(** [f"{prefix}{s}" if s else None] *)
Definition prefixed_if (prefix : string) (o : option string) : pyval :=
  match o with
  | Some s => if PyStr.truthy s then PStr (prefix +:+ s) else PNone
  | None => PNone
  end.

(** [f"{o}"] for an optional string. *)
Definition format_opt (o : option string) : string :=
  match o with
  | Some s => s
  | None => "None"
  end.

(** ** models/models.py *)

Module Models.
Record TrackUntrackLocationRequest : Type := {
  authenticity_token : string;
  relationship_type : string;
  subject_id : string;
  subject_type : string;
  success_url : string;
  untrack : option bool;
}.
End Models.

(** ** The integration

    [integration_name] is set by the constructor of the base class
    [Integration] (not part of the repository) from the name
    [SongkickIntegration.__init__] passes to it. *)

Record SongkickIntegration : Type := {
  integration_name : string;
  user_agent : string;
  url : string;
  session : Requests.Session;
  cookies : string;
}.

Definition status_ok : pyval := PDict {[ "status" := PStr "ok" ]}.
Definition status_failed : pyval := PDict {[ "status" := PStr "failed" ]}.

Definition no_results_marker : string := "Sorry, we found no results for".

Definition tracked_banner : string :=
  "All upcoming concerts from the artists youâ€™re tracking.".

Definition status_ok_fragment : string :=
  PyStr.dquote +:+ "status" +:+ PyStr.dquote +:+ ":" +:+ PyStr.dquote +:+ "ok" +:+ PyStr.dquote.

Section Integration.

(** html.parser, as BeautifulSoup drives it: the document it builds from a
    text, or [None] for a text it rejects. *)
Variable html_parser : string → option Bs4.node.

(** [repr] of a list or a dictionary. *)
Variable py_repr : pyval → string.

(** [str(v)], as an f-string formats [v]. *)
Definition py_str (v : pyval) : string :=
  match v with
  | PStr s => s
  | PNone => "None"
  | PBool true => "True"
  | PBool false => "False"
  | PInt z => pretty z
  | PList _ | PDict _ => py_repr v
  end.

Definition _handle_response (self : SongkickIntegration) (response : Aiohttp.ClientResponse)
  : result pyval :=
  let status := Aiohttp.status response in
  response_json ←
    try_except (Aiohttp.json response)
      (λ _, Return (PDict {[ "error" :=
               PDict {[ "message" := PStr "Unknown error";
                        "code" := PStr (pretty status) ]} ]}));
  if (200 <=? status) && (status <? 204) then Return response_json else
  error ← dict_get response_json "error" (PDict ∅);
  error_message ← dict_get error "message" (PStr "Unknown error");
  error' ← dict_get response_json "error" (PDict ∅);
  error_code ← dict_get error' "code" (PStr (pretty status));
  if status =? 401 then
    Raise (IntegrationAuthError
             (integration_name self +:+ ": " +:+ py_str error_message) status error_code)
  else if status =? 400 then
    if eq_str error_message "Resource not found." then
      Raise (IntegrationAPIError (integration_name self) "Resource not found." status error_code)
    else
      Raise (IntegrationAPIError (integration_name self)
               ("Bad request: " +:+ py_str error_message) status error_code)
  else if status =? 500 then
    Raise (IntegrationAPIError (integration_name self)
             ("Downstream server error (translated to HTTP 501): " +:+ py_str error_message)
             501 error_code)
  else
    Raise (IntegrationAPIError (integration_name self)
             (py_str error_message +:+ " (HTTP " +:+ pretty status +:+ ")")
             status error_code).

(** [BeautifulSoup(text, "html.parser")] *)
Definition BeautifulSoup (text : string) : result Bs4.node :=
  match html_parser text with
  | Some soup => Return soup
  | None => Raise ParserRejectedMarkup
  end.

(** *** search_location *)

Definition site : string := "https://www.songkick.com".

Definition get_locations_url (location_name : string) : string :=
  "https://www.songkick.com/search?utf8=%E2%9C%93&type=locations&query="
  +:+ PyStr.replace " " "+" location_name +:+ "&commit=Search".

(** The five values read from a tracking form, or five [None]s. *)
Record track_fields : Type := {
  track_url : pyval;
  tf_authenticity_token : pyval;
  tf_relationship_type : pyval;
  tf_subject_type : pyval;
  tf_success_url : pyval;
}.

Definition input_value (track_form : option Bs4.node) (name : string) : result pyval :=
  input ← find_on track_form "input" [("name", Bs4.MatchStr name)];
  PStr <$> getitem input "value".

Definition read_track_form (li : Bs4.node) : result track_fields :=
  let track_form :=
    Bs4.find "form" [("data-analytics-category", Bs4.MatchStr "track_metro_area_button")] li in
  match track_form with
  | Some _ =>
      action ← getitem track_form "action";
      authenticity_token ← input_value track_form "authenticity_token";
      relationship_type ← input_value track_form "relationship_type";
      subject_type ← input_value track_form "subject_type";
      success_url ← input_value track_form "success_url";
      Return {| track_url := PStr (site +:+ action);
                tf_authenticity_token := authenticity_token;
                tf_relationship_type := relationship_type;
                tf_subject_type := subject_type;
                tf_success_url := success_url |}
  | None =>
      Return {| track_url := PNone;
                tf_authenticity_token := PNone;
                tf_relationship_type := PNone;
                tf_subject_type := PNone;
                tf_success_url := PNone |}
  end.

(** The dictionary appended for one list item. *)
Definition location_record (li : Bs4.node) : result pyval :=
  let link := Bs4.find "a" (Bs4.class_ "search-link") li in
  let summary := Bs4.find "p" (Bs4.class_ "summary") li in
  summary_link ← find_on summary "a" (Bs4.class_ "search-link");
  summary_text ← text_of summary_link;
  let name := PyStr.strip summary_text in
  metro_id ← getitem link "data-id";
  href ← getitem link "href";
  let url := site +:+ href in
  tf ← read_track_form li;
  Return (PDict {[ "name" := PStr name;
                   "subject_id" := PStr metro_id;
                   "url" := PStr url;
                   "track_url" := track_url tf;
                   "authenticity_token" := tf_authenticity_token tf;
                   "relationship_type" := tf_relationship_type tf;
                   "subject_type" := tf_subject_type tf;
                   "success_url" := tf_success_url tf ]}).

(** The body of the loop over the list items: append the item's record,
    then [return] the dictionary of results. *)
Definition search_location_body (li : Bs4.node) (search_results : list pyval)
  : result (flow (list pyval) pyval) :=
  record ← location_record li;
  let search_results := search_results ++ [record] in
  Return (Returned (PDict {[ "locations" := PList search_results ]})).

Definition search_location (self : SongkickIntegration) (location_name : string)
  : result pyval :=
  locations_response ←
    Requests.get (session self) (get_locations_url location_name)
      {[ "Cookie" := cookies self ]};
  Requests.raise_for_status locations_response;;
  if PyStr.contains no_results_marker (Requests.text locations_response) then
    Raise (HTTPException 404 ("No results found for " +:+ location_name))
  else
    soup ← BeautifulSoup (Requests.text locations_response);
    st ← for_each (Bs4.find_all "li" (Bs4.class_ "small-city") soup)
           search_location_body [];
    match st with
    | Returned v => Return v
    | Next _ => Return PNone
    end.

(** *** track_untrack_location *)

Definition trackings_url (request : Models.TrackUntrackLocationRequest) : string :=
  let trackings_url := "https://www.songkick.com/trackings" in
  match Models.untrack request with
  | Some true => trackings_url +:+ "/untrack"
  | _ => trackings_url
  end.

Definition trackings_form (request : Models.TrackUntrackLocationRequest) : gmap string string :=
  {[ "utf8" := "%E2%9C%93";
     "authenticity_token" := Models.authenticity_token request;
     "relationship_type" := Models.relationship_type request;
     "subject_id" := Models.subject_id request;
     "subject_type" := Models.subject_type request;
     "success_url" := Models.success_url request ]}.

Definition track_untrack_location (self : SongkickIntegration)
    (request : Models.TrackUntrackLocationRequest) : result pyval :=
  trackings_response ←
    Requests.post (session self) (trackings_url request) (trackings_form request)
      {[ "Cookie" := cookies self ]};
  try_except
    (Requests.raise_for_status trackings_response;;
     if (Requests.status_code trackings_response =? 200)
        && negb (PyStr.contains status_ok_fragment (Requests.text trackings_response))
     then Return status_ok
     else if negb (Requests.status_code trackings_response =? 200)
     then Return status_failed
     else
       trackings_response_json ← Requests.json trackings_response;
       Return trackings_response_json)
    (λ exc, Return status_failed).

(** *** get_events *)

Definition get_tracked_artists_url : string :=
  "https://www.songkick.com/calendar?filter=tracked_artist".

(** [event.find(name, attrs)[key] if event.find(name, attrs) else None] *)
Definition attr_if_found (event : Bs4.node) (name : string)
    (attrs : list (string * Bs4.matcher)) (key : string) : result (option string) :=
  match Bs4.find name attrs event with
  | Some t => Some <$> getitem (Some t) key
  | None => Return None
  end.

(** The dictionary appended for one event row. *)
Definition event_record (event : Bs4.node) : result pyval :=
  date_time ← attr_if_found event "time" [] "datetime";
  let artist_tag := Bs4.find "p" (Bs4.class_ "artists summary") event in
  artist_name ←
    match artist_tag with
    | Some _ =>
        strong ← find_on artist_tag "strong" [];
        PStr <$> text_of strong
    | None => Return PNone
    end;
  let venue_tag := Bs4.find "p" (Bs4.class_ "location") event in
  venue_name ←
    match venue_tag with
    | Some _ =>
        span ← find_on venue_tag "span" (Bs4.class_ "venue-name");
        t ← text_of span;
        Return (PStr (PyStr.strip t))
    | None => Return PNone
    end;
  city_state ←
    match venue_tag with
    | Some v =>
        span ← index (Bs4.find_all "span" [] v) 1;
        Return (PStr (PyStr.strip (Bs4.text span)))
    | None => Return PNone
    end;
  let street_address :=
    match venue_tag with
    | Some v =>
        match Bs4.find "span" (Bs4.class_ "street-address") v with
        | Some span => PStr (PyStr.strip (Bs4.text span))
        | None => PNone
        end
    | None => PNone
    end in
  event_url ← attr_if_found event "a" [] "href";
  image_url ← attr_if_found event "img" [] "src";
  ticket_url ← attr_if_found event "a" (Bs4.class_ "button buy-tickets") "href";
  Return (PDict {[ "date_time" := opt_str date_time;
                   "artist" := artist_name;
                   "venue" := venue_name;
                   "location" := city_state;
                   "street_address" := street_address;
                   "event_url" := prefixed_if site event_url;
                   "image_url" := prefixed_if "https:" image_url;
                   "ticket_url" := prefixed_if site ticket_url ]}).

Definition get_events_body (event : Bs4.node) (events : list pyval)
  : result (flow (list pyval) pyval) :=
  record ← event_record event;
  Return (Next (events ++ [record])).

(** The part of [get_events] after the failure check: parse the page. *)
Definition parse_events (page : string) : result pyval :=
  soup ← BeautifulSoup page;
  let event_listings := Bs4.find_all "li" [("title", Bs4.MatchTrue)] soup in
  st ← for_each event_listings get_events_body [];
  match st with
  | Next events => Return (PDict {[ "events" := PList events ]})
  | Returned v => Return v
  end.

Definition get_events (self : SongkickIntegration) : result pyval :=
  get_tracked_artists_response ←
    Requests.get (session self) get_tracked_artists_url {[ "Cookie" := cookies self ]};
  Requests.raise_for_status get_tracked_artists_response;;
  if negb (Requests.status_code get_tracked_artists_response =? 200)
     && negb (PyStr.contains tracked_banner (Requests.text get_tracked_artists_response))
  then
    Raise (HTTPException (Requests.status_code get_tracked_artists_response)
             "Failed to fetch concert events")
  else parse_events (Requests.text get_tracked_artists_response).

(** *** get_event_details *)

(** [soup.select_one(sel).text.strip() if soup.select_one(sel) else None] *)
Definition stripped_text_if_selected (sel : list Bs4.simple) (soup : Bs4.node) : pyval :=
  match Bs4.select_one sel soup with
  | Some t => PStr (PyStr.strip (Bs4.text t))
  | None => PNone
  end.

Definition ticket_record (ticket : Bs4.node) : pyval :=
  let vendor :=
    match Bs4.select_one [Bs4.SelClass "vendor"] ticket with
    | Some v => PyStr.strip (Bs4.text v)
    | None => "Unknown Vendor"
    end in
  let link := Bs4.get "href" ticket in
  PDict {[ "vendor" := PStr vendor;
           "link" := PStr (site +:+ format_opt link) ]}.

(** The [price] and [doors_open] entries of [additional_details]. *)
Definition read_additional_details (soup : Bs4.node) : result (pyval * pyval) :=
  let additional_container :=
    Bs4.select_one [Bs4.SelClass "additional-details-container"] soup in
  match additional_container with
  | Some c =>
      let details_text := Bs4.get_text_strip " " c in
      price ←
        (if PyStr.contains "Price:" details_text then
           after ← index (PyStr.split "Price: " details_text) 1;
           first ← index (PyStr.split " " after) 0;
           Return (PStr first)
         else Return PNone);
      doors_open ←
        (if PyStr.contains "Doors open:" details_text then
           PStr <$> index (PyStr.split "Doors open: " details_text) 1
         else Return PNone);
      Return (price, doors_open)
  | None => Return (PNone, PNone)
  end.

(** The [image_url] entry of the returned record. *)
Definition event_image_url (image_url : option string) : pyval :=
  match image_url with
  | Some s =>
      if PyStr.truthy s
      then PStr ("https:" +:+ PyStr.replace "medium_avatar" "huge_avatar" s)
      else PNone
  | None => PNone
  end.

Definition get_event_details (self : SongkickIntegration) (event_url : string)
  : result pyval :=
  get_event_response ←
    Requests.get (session self) event_url {[ "Cookie" := cookies self ]};
  Requests.raise_for_status get_event_response;;
  soup ← BeautifulSoup (Requests.text get_event_response);
  let date_time :=
    stripped_text_if_selected [Bs4.SelClass "date-and-name"; Bs4.SelType "p"] soup in
  let name := stripped_text_if_selected [Bs4.SelClass "summary"; Bs4.SelType "a"] soup in
  let location :=
    match Bs4.select_one [Bs4.SelClass "location"; Bs4.SelClass "name"; Bs4.SelType "a"] soup,
          Bs4.select_one [Bs4.SelClass "location"; Bs4.SelType "span"; Bs4.SelType "a"] soup with
    | Some venue, Some city =>
        PStr (PyStr.strip (Bs4.text venue) +:+ ", " +:+ PyStr.strip (Bs4.text city))
    | _, _ => PNone
    end in
  let image_url :=
    match Bs4.select_one [Bs4.SelClass "profile-picture-wrapper"; Bs4.SelType "img"] soup with
    | Some img => Bs4.get "src" img
    | None => None
    end in
  let tickets := map ticket_record (Bs4.select [Bs4.SelClass "buy-ticket-link"] soup) in
  let venue_name :=
    stripped_text_if_selected [Bs4.SelClass "venue-info-details"; Bs4.SelType "a"] soup in
  let venue_address :=
    stripped_text_if_selected [Bs4.SelClass "venue-hcard"; Bs4.SelType "span"] soup in
  additional_details ← read_additional_details soup;
  let event_return :=
    PDict {[ "event_date_time" := date_time;
             "name" := name;
             "location" := location;
             "image_url" := event_image_url image_url;
             "ticketing_information" := PList tickets;
             "venue_information" :=
               PDict {[ "name" := venue_name; "address" := venue_address ]};
             "additional_details" :=
               PDict {[ "price" := additional_details.1;
                        "doors_open" := additional_details.2 ]} ]} in
  Return (PDict {[ "event_details" := event_return ]}).

End Integration.

(** ** Sample pages, responses and sessions *)

Module Samples.

Definition elem (name : string) (attrs : list (string * string)) (contents : list Bs4.node)
  : Bs4.node :=
  Bs4.Tag name (list_to_map attrs) contents.

Definition document (contents : list Bs4.node) : Bs4.node :=
  Bs4.Tag "[document]" ∅ contents.

(** A parser known by its answers on a few pages; any other text is an
    empty document. *)
Definition parser_of (pages : list (string * option Bs4.node)) (text : string)
  : option Bs4.node :=
  match List.find (λ p, bool_decide (p.1 = text)) pages with
  | Some p => p.2
  | None => Some (document [])
  end.

Definition repr_of (v : pyval) : string :=
  match v with
  | PList [] => "[]"
  | PDict _ => "{...}"
  | _ => "[...]"
  end.

Definition page (status_code : Z) (text : string) : Requests.Response :=
  {| Requests.status_code := status_code;
     Requests.text := text;
     Requests.json := Raise JSONDecodeError |}.

(** A session that answers every request with [r]. *)
Definition serving (r : Requests.Response) : Requests.Session :=
  {| Requests.get := λ _ _, Return r;
     Requests.post := λ _ _ _, Return r |}.

(** A session without a network: every request raises. *)
Definition offline : Requests.Session :=
  {| Requests.get := λ _ _, Raise ConnectionError;
     Requests.post := λ _ _ _, Raise ConnectionError |}.

Definition integration (s : Requests.Session) : SongkickIntegration :=
  {| integration_name := "songkick";
     user_agent := "Mozilla/5.0";
     url := "https://www.songkick.com";
     session := s;
     cookies := "session=abc" |}.

Definition request : Models.TrackUntrackLocationRequest :=
  {| Models.authenticity_token := "tok";
     Models.relationship_type := "tracking";
     Models.subject_id := "24426";
     Models.subject_type := "MetroArea";
     Models.success_url := "/";
     Models.untrack := Some false |}.

(** *** JSON responses *)

Definition json_response (status : Z) (body : result pyval) : Aiohttp.ClientResponse :=
  {| Aiohttp.status := status; Aiohttp.json := body |}.

(** [{"error": "Unauthorized"}] *)
Definition error_is_string : pyval := PDict {[ "error" := PStr "Unauthorized" ]}.

(** [{"error": {"message": "Resource not found.", "code": 7}}] *)
Definition not_found_body : pyval :=
  PDict {[ "error" := PDict {[ "message" := PStr "Resource not found."; "code" := PInt 7 ]} ]}.

(** *** Track/untrack responses *)

(** Status 200, a body that holds the fragment and is not JSON. *)
Definition ack_not_json : Requests.Response :=
  {| Requests.status_code := 200;
     Requests.text := "<p>" +:+ status_ok_fragment +:+ "</p>";
     Requests.json := Raise JSONDecodeError |}.

(** Status 200, the body [{"status":"ok"}]. *)
Definition ack_json_ok : Requests.Response :=
  {| Requests.status_code := 200;
     Requests.text := "{" +:+ status_ok_fragment +:+ "}";
     Requests.json := Return status_ok |}.

(** Status 200, an HTML acknowledgement without the fragment. *)
Definition ack_html : Requests.Response := page 200 "<html>tracked</html>".

(** *** Search pages *)

Definition no_results_text : string :=
  "<p>Sorry, we found no results for Atlantis</p>".

Definition city_item (id name : string) : Bs4.node :=
  elem "li" [("class", "small-city")]
    [ elem "a" [("class", "search-link"); ("data-id", id); ("href", "/metro-areas/" +:+ id)] [];
      elem "p" [("class", "summary")]
        [ elem "a" [("class", "search-link")] [Bs4.NavigableString name] ] ].

Definition two_cities_text : string :=
  "<ul><li class='small-city'><a class='search-link' data-id='24426' href='/metro-areas/24426'></a><p class='summary'><a class='search-link'>London, UK</a></p></li><li class='small-city'><a class='search-link' data-id='27837' href='/metro-areas/27837'></a><p class='summary'><a class='search-link'>London, Canada</a></p></li></ul>".

Definition two_cities : Bs4.node :=
  document [ elem "ul" [] [ city_item "24426" "London, UK"; city_item "27837" "London, Canada" ] ].

(** A result item that has no summary paragraph. *)
Definition bare_item_text : string := "<ul><li class='small-city'></li></ul>".

Definition bare_item : Bs4.node :=
  document [ elem "ul" [] [ elem "li" [("class", "small-city")] [] ] ].

Definition empty_results_text : string := "<ul></ul>".

Definition empty_results : Bs4.node := document [ elem "ul" [] [] ].

(** *** Calendar pages *)

Definition calendar_text : string :=
  "<p>" +:+ tracked_banner +:+ "</p><ul><li title='Friday'></li></ul>".

Definition calendar : Bs4.node :=
  document [ elem "p" [] [Bs4.NavigableString tracked_banner];
             elem "ul" [] [ elem "li" [("title", "Friday")] [] ] ].

(** *** Event pages *)

Definition event_text : string :=
  "<div class='profile-picture-wrapper'><img src='//example.com/medium_avatar/x.jpg'></div>".

Definition event_page : Bs4.node :=
  document [ elem "div" [("class", "profile-picture-wrapper")]
               [ elem "img" [("src", "//example.com/medium_avatar/x.jpg")] [] ] ].

Definition plain_event_text : string := "<h1>Concert</h1>".

Definition plain_event : Bs4.node :=
  document [ elem "h1" [] [Bs4.NavigableString "Concert"] ].

(** An event page whose price label is not followed by a space. *)
Definition price_text : string :=
  "<div class='additional-details-container'>Price:10</div>".

Definition price_page : Bs4.node :=
  document [ elem "div" [("class", "additional-details-container")]
               [Bs4.NavigableString "Price:10"] ].

(** A marked section with an unknown keyword, which html.parser rejects. *)
Definition rejected_text : string := "<![foo]>".

Definition parser : string → option Bs4.node :=
  parser_of [ (two_cities_text, Some two_cities);
              (bare_item_text, Some bare_item);
              (empty_results_text, Some empty_results);
              (calendar_text, Some calendar);
              (event_text, Some event_page);
              (plain_event_text, Some plain_event);
              (price_text, Some price_page);
              (rejected_text, None) ].

End Samples.

(** ** Notions used in the statements *)

(** The body the classifier works on when decoding fails. *)
Definition synthesized (status : Z) : pyval :=
  PDict {[ "error" := PDict {[ "message" := PStr "Unknown error";
                               "code" := PStr (pretty status) ]} ]}.

(** [readable body message code]: [body] is a decoded object whose [error]
    member, when present, is an object; [message] is the error message the
    classifier reads from it and [code] the member's own code, if any. *)
Inductive readable : pyval → pyval → option pyval → Prop :=
| readable_no_error m :
    m !! "error" = None →
    readable (PDict m) (PStr "Unknown error") None
| readable_error m e :
    m !! "error" = Some (PDict e) →
    readable (PDict m) (default (PStr "Unknown error") (e !! "message")) (e !! "code").

(** The exceptions Python raises when an element, an attribute or a list
    position that the code reads is not there. *)
Definition extraction_error (e : exn) : Prop :=
  match e with
  | AttributeError | TypeError | KeyError _ | IndexError => True
  | _ => False
  end.

(** The exceptions of reading an element or an attribute that is not
    there. *)
Definition lookup_error (e : exn) : Prop :=
  match e with
  | AttributeError | TypeError | KeyError _ => True
  | _ => False
  end.

(** What reading a page can raise: the parser's rejection of the markup, or
    an extraction error. *)
Definition page_error (e : exn) : Prop :=
  e = ParserRejectedMarkup ∨ extraction_error e.

(** [raises_only P m]: whatever [m] raises satisfies [P]. *)
Definition raises_only {A} (P : exn → Prop) (m : result A) : Prop :=
  ∀ e, m = Raise e → P e.

(** [returns m]: the computation ends without raising. *)
Definition returns {A} (m : result A) : Prop := ∃ a, m = Return a.

Definition has_attr (key : string) (t : Bs4.node) : Prop := is_Some (Bs4.get key t).

(** A tracking form carries everything [read_track_form] reads from it. *)
Definition form_complete (form : Bs4.node) : Prop :=
  has_attr "action" form
  ∧ ∀ name,
      name ∈ ["authenticity_token"; "relationship_type"; "subject_type"; "success_url"] →
      ∃ input, Bs4.find "input" [("name", Bs4.MatchStr name)] form = Some input
               ∧ has_attr "value" input.

(** A result item carries everything [location_record] reads without a
    probe; the tracking form may be missing. *)
Definition item_complete (li : Bs4.node) : Prop :=
  (∃ summary summary_link,
      Bs4.find "p" (Bs4.class_ "summary") li = Some summary
      ∧ Bs4.find "a" (Bs4.class_ "search-link") summary = Some summary_link)
  ∧ (∃ link, Bs4.find "a" (Bs4.class_ "search-link") li = Some link
             ∧ has_attr "data-id" link ∧ has_attr "href" link)
  ∧ (∀ form,
       Bs4.find "form" [("data-analytics-category", Bs4.MatchStr "track_metro_area_button")] li
       = Some form →
       form_complete form).

(** Each element an event row does contain carries what [event_record]
    reads from it; every one of the elements may be missing. *)
Definition row_complete (event : Bs4.node) : Prop :=
  (∀ t, Bs4.find "time" [] event = Some t → has_attr "datetime" t)
  ∧ (∀ p, Bs4.find "p" (Bs4.class_ "artists summary") event = Some p →
          is_Some (Bs4.find "strong" [] p))
  ∧ (∀ v, Bs4.find "p" (Bs4.class_ "location") event = Some v →
          is_Some (Bs4.find "span" (Bs4.class_ "venue-name") v))
  ∧ (∀ v, Bs4.find "p" (Bs4.class_ "location") event = Some v →
          (2 ≤ length (Bs4.find_all "span" [] v))%nat)
  ∧ (∀ a, Bs4.find "a" [] event = Some a → has_attr "href" a)
  ∧ (∀ i, Bs4.find "img" [] event = Some i → has_attr "src" i)
  ∧ (∀ a, Bs4.find "a" (Bs4.class_ "button buy-tickets") event = Some a → has_attr "href" a).

(** The answers of the session to the requests the four operations send. *)
Definition locations_answer (self : SongkickIntegration) (location_name : string)
  : result Requests.Response :=
  Requests.get (session self) (get_locations_url location_name) {[ "Cookie" := cookies self ]}.

Definition trackings_answer (self : SongkickIntegration)
    (request : Models.TrackUntrackLocationRequest) : result Requests.Response :=
  Requests.post (session self) (trackings_url request) (trackings_form request)
    {[ "Cookie" := cookies self ]}.

Definition calendar_answer (self : SongkickIntegration) : result Requests.Response :=
  Requests.get (session self) get_tracked_artists_url {[ "Cookie" := cookies self ]}.

Definition event_answer (self : SongkickIntegration) (event_url : string)
  : result Requests.Response :=
  Requests.get (session self) event_url {[ "Cookie" := cookies self ]}.

(** The list items [search_location] loops over: those of the document the
    parser builds from the page, when it builds one. *)
Definition small_city_items (html_parser : string → option Bs4.node)
    (response : Requests.Response) : option (list Bs4.node) :=
  Bs4.find_all "li" (Bs4.class_ "small-city") <$> html_parser (Requests.text response).

(** The event rows [get_events] loops over, likewise. *)
Definition event_rows (html_parser : string → option Bs4.node) (page : string)
  : option (list Bs4.node) :=
  Bs4.find_all "li" [("title", Bs4.MatchTrue)] <$> html_parser page.

(** The profile image element of an event page, if any. *)
Definition profile_image (soup : Bs4.node) : option Bs4.node :=
  Bs4.select_one [Bs4.SelClass "profile-picture-wrapper"; Bs4.SelType "img"] soup.

(** The text of the additional-details block, when the page has one. *)
Definition details_text (soup : Bs4.node) : option string :=
  Bs4.get_text_strip " " <$> Bs4.select_one [Bs4.SelClass "additional-details-container"] soup.

(** A text names a label, but not followed by a space. *)
Definition label_without_space (label text : string) : Prop :=
  PyStr.contains label text = true ∧ PyStr.contains (label +:+ " ") text = false.

(** In the additional-details block, if the page has one, each of the two
    labels is absent or somewhere followed by a space. *)
Definition labels_spaced (soup : Bs4.node) : Prop :=
  ∀ t, details_text soup = Some t →
       ¬ label_without_space "Price:" t ∧ ¬ label_without_space "Doors open:" t.

(** ** The JSON call path

    [create], [_setup_headers], [_make_request] and [generic_make_request].
    The attribute [network_requester] is read by [_make_request] alone; it is
    kept beside the attributes the other operations read. The requester is
    opaque to the integration: the type [R] of its answers is its own. *)

(** [network_requester.request(method, url, **kwargs)] *)
Record Requester (R : Type) : Type := {
  request : string → string → gmap string pyval → result R;
}.
Arguments request {R} _ _ _ _.

(** [aiohttp.ClientSession().request(method, url, **kwargs)]: the answer of
    the network, or the exception of the client. *)
Definition AiohttpClient : Type :=
  string → string → gmap string pyval → result Aiohttp.ClientResponse.

(** An instance as [create] leaves it. *)
Record Created (R : Type) : Type := {
  instance : SongkickIntegration;
  network_requester : option (Requester R);
}.
Arguments instance {R} _.
Arguments network_requester {R} _.

(** [SongkickIntegration.create(cookies, network_requester)]. The default
    user agent is drawn once, when the class is defined; [new_session] is
    the [requests.Session()] the constructor opens. *)
Definition create {R} (default_user_agent : string) (new_session : Requests.Session)
    (cookies : string) (network_requester : option (Requester R)) : Created R :=
  {| instance :=
       {| integration_name := "songkick";
          user_agent := default_user_agent;
          url := "https://www.songkick.com";
          session := new_session;
          cookies := cookies |};
     network_requester := network_requester |}.

(** What [_make_request] hands back: the requester's own answer, or the
    payload the classifier returned. *)
Inductive reply (R : Type) : Type :=
| Unclassified (r : R)
| Payload (v : pyval).
Arguments Unclassified {R} r.
Arguments Payload {R} v.

Definition _setup_headers (self : SongkickIntegration) : pyval :=
  PDict {[ "User-Agent" := PStr (user_agent self); "Cookie" := PStr (cookies self) ]}.

Definition _make_request {R} (py_repr : pyval → string) (client : AiohttpClient)
    (self : Created R) (method url : string) (kwargs : gmap string pyval)
  : result (reply R) :=
  match network_requester self with
  | Some requester =>
      response ← request requester method url kwargs;
      Return (Unclassified response)
  | None =>
      response ← client method url kwargs;
      Payload <$> _handle_response py_repr (instance self) response
  end.

Definition generic_make_request {R} (py_repr : pyval → string) (client : AiohttpClient)
    (self : Created R) (method url response_key : string)
  : result (gmap string (reply R)) :=
  let headers := _setup_headers (instance self) in
  response ← _make_request py_repr client self method url {[ "headers" := headers ]};
  Return {[ response_key := response ]}.

(** ** Further notions used in the statements *)

Definition in_success_range (status : Z) : Prop := 200 ≤ status < 204.

(** The two typed errors of the classifier. *)
Definition typed_error (e : exn) : Prop :=
  match e with
  | IntegrationAuthError _ _ _ | IntegrationAPIError _ _ _ _ => True
  | _ => False
  end.

(** [s] with every space turned into a plus sign, and nothing else changed. *)
Fixpoint plus_for_space (s : string) : string :=
  match s with
  | EmptyString => EmptyString
  | String c s' =>
      String (if decide (c = Ascii.ascii_of_nat 32) then Ascii.ascii_of_nat 43 else c)
        (plus_for_space s')
  end.

(** The tracking form of a result item, as [read_track_form] finds it. *)
Definition tracking_form (li : Bs4.node) : option Bs4.node :=
  Bs4.find "form" [("data-analytics-category", Bs4.MatchStr "track_metro_area_button")] li.

(** [s] begins, or ends, with a whitespace character. *)
Definition starts_with_space (s : string) : Prop :=
  ∃ w rest, w ∈ PyStr.whitespace ∧ s = w +:+ rest.

Definition ends_with_space (s : string) : Prop :=
  ∃ before w, w ∈ PyStr.whitespace ∧ s = before +:+ w.

(** The elements of an event row whose attribute becomes a URL of its
    record, each with the attribute read from it. *)
Definition url_sources (event : Bs4.node) : list (option Bs4.node * string) :=
  [ (Bs4.find "a" [] event, "href");
    (Bs4.find "img" [] event, "src");
    (Bs4.find "a" (Bs4.class_ "button buy-tickets") event, "href") ].

(** The entry built for an element's attribute by
    [f"{prefix}{value}" if value else None]: [None] when the element was not
    found; when it was found, the attribute is there, and the entry is the
    prefixed value, or [None] for an empty value. *)
Definition url_entry (prefix : string) (found : option Bs4.node) (key : string)
    (entry : option pyval) : Prop :=
  match found with
  | None => entry = Some PNone
  | Some t =>
      ∃ value, Bs4.get key t = Some value
               ∧ entry = Some (if PyStr.truthy value then PStr (prefix +:+ value) else PNone)
  end.

(** ** Further samples *)

Module MoreSamples.


(** A client that answers every request with [r]. *)
Definition answering (r : Aiohttp.ClientResponse) : AiohttpClient := λ _ _ _, Return r.

Definition created (requester : option (Requester Z)) : Created Z :=
  create "Mozilla/5.0" Samples.offline "session=abc" requester.

(** [{"error": {"message": "Token expired"}}] *)
Definition expired_body : pyval :=
  PDict {[ "error" := PDict {[ "message" := PStr "Token expired" ]} ]}.

(** A result item with a complete tracking form. *)
Definition trackable_item : Bs4.node :=
  Samples.elem "li" [("class", "small-city")]
    [ Samples.elem "a" [("class", "search-link"); ("data-id", "24426");
                        ("href", "/metro-areas/24426")] [];
      Samples.elem "p" [("class", "summary")]
        [ Samples.elem "a" [("class", "search-link")] [Bs4.NavigableString " London, UK "] ];
      Samples.elem "form" [("data-analytics-category", "track_metro_area_button");
                           ("action", "/trackings")]
        [ Samples.elem "input" [("name", "authenticity_token"); ("value", "tok")] [];
          Samples.elem "input" [("name", "relationship_type"); ("value", "tracking")] [];
          Samples.elem "input" [("name", "subject_type"); ("value", "MetroArea")] [];
          Samples.elem "input" [("name", "success_url"); ("value", "/search")] [] ] ].

Definition trackable_record : pyval :=
  PDict {[ "name" := PStr "London, UK";
           "subject_id" := PStr "24426";
           "url" := PStr "https://www.songkick.com/metro-areas/24426";
           "track_url" := PStr "https://www.songkick.com/trackings";
           "authenticity_token" := PStr "tok";
           "relationship_type" := PStr "tracking";
           "subject_type" := PStr "MetroArea";
           "success_url" := PStr "/search" ]}.

(** An event row with a link whose [href] is empty and an image. *)
Definition row_with_empty_href : Bs4.node :=
  Samples.elem "li" [("title", "Saturday")]
    [ Samples.elem "a" [("href", EmptyString)] [];
      Samples.elem "img" [("src", "//images.sk-static.com/x.jpg")] [] ].

Definition two_rows_text : string :=
  "<ul><li title='Friday'></li><li title='Saturday'><a href=''></a><img src='//images.sk-static.com/x.jpg'></li></ul>".

Definition two_rows : Bs4.node :=
  Samples.document
    [ Samples.elem "ul" []
        [ Samples.elem "li" [("title", "Friday")] []; row_with_empty_href ] ].

(** An event page with an additional-details block and two ticket links,
    the second without vendor and without [href]. *)
Definition full_event_text : string :=
  "<div class='additional-details-container'><p> Price: $10 adv </p><p>Doors open: 19:00</p></div><a class='buy-ticket-link' href='/tickets/1'><span class='vendor'> Ticketmaster </span></a><a class='buy-ticket-link'></a>".

Definition full_event : Bs4.node :=
  Samples.document
    [ Samples.elem "div" [("class", "additional-details-container")]
        [ Samples.elem "p" [] [Bs4.NavigableString " Price: $10 adv "];
          Samples.elem "p" [] [Bs4.NavigableString "Doors open: 19:00"] ];
      Samples.elem "a" [("class", "buy-ticket-link"); ("href", "/tickets/1")]
        [ Samples.elem "span" [("class", "vendor")] [Bs4.NavigableString " Ticketmaster "] ];
      Samples.elem "a" [("class", "buy-ticket-link")] [] ].

(** An event row whose link has no [href]. *)
Definition row_without_href : Bs4.node :=
  Samples.elem "li" [("title", "Sunday")] [ Samples.elem "a" [] [] ].

(** An event page with the profile image and a price label that is not
    followed by a space. *)
Definition priced_image_text : string :=
  "<div class='profile-picture-wrapper'><img src='//example.com/medium_avatar/x.jpg'></div><div class='additional-details-container'>Price:10</div>".

Definition priced_image_page : Bs4.node :=
  Samples.document
    [ Samples.elem "div" [("class", "profile-picture-wrapper")]
        [ Samples.elem "img" [("src", "//example.com/medium_avatar/x.jpg")] [] ];
      Samples.elem "div" [("class", "additional-details-container")]
        [Bs4.NavigableString "Price:10"] ].

(** U+00A0, the no-break space. *)
Definition nbsp : string := PyStr.of_bytes [194; 160]%nat.

(** A result item whose summary text is wrapped in no-break spaces. *)
Definition padded_item : Bs4.node :=
  Samples.elem "li" [("class", "small-city")]
    [ Samples.elem "a" [("class", "search-link"); ("data-id", "24426");
                        ("href", "/metro-areas/24426")] [];
      Samples.elem "p" [("class", "summary")]
        [ Samples.elem "a" [("class", "search-link")]
            [Bs4.NavigableString (nbsp +:+ " London, UK" +:+ nbsp +:+ " ")] ] ].

(** An event page whose doors-open label is followed by a space and a
    no-break space only. *)
Definition doors_nbsp_text : string :=
  "<div class='additional-details-container'>Doors open: &nbsp;</div>".

Definition doors_nbsp_page : Bs4.node :=
  Samples.document
    [ Samples.elem "div" [("class", "additional-details-container")]
        [Bs4.NavigableString ("Doors open: " +:+ nbsp)] ].

(** An event page whose doors-open label is spread over two elements with
    a no-break space between them. *)
Definition split_label_text : string :=
  "<div class='additional-details-container'><b>Doors</b>&nbsp;<b>open:</b></div>".

Definition split_label_page : Bs4.node :=
  Samples.document
    [ Samples.elem "div" [("class", "additional-details-container")]
        [ Samples.elem "b" [] [Bs4.NavigableString "Doors"];
          Bs4.NavigableString nbsp;
          Samples.elem "b" [] [Bs4.NavigableString "open:"] ] ].

(** A summary link that holds a comment beside its text. *)
Definition commented_item : Bs4.node :=
  Samples.elem "li" [("class", "small-city")]
    [ Samples.elem "a" [("class", "search-link"); ("data-id", "24426");
                        ("href", "/metro-areas/24426")] [];
      Samples.elem "p" [("class", "summary")]
        [ Samples.elem "a" [("class", "search-link")]
            [Bs4.SpecialString Bs4.Comment " first result "; Bs4.NavigableString "London, UK"] ] ].

Definition parser : string → option Bs4.node :=
  Samples.parser_of [ (two_rows_text, Some two_rows);
                      (full_event_text, Some full_event);
                      (priced_image_text, Some priced_image_page);
                      (doors_nbsp_text, Some doors_nbsp_page);
                      (split_label_text, Some split_label_page);
                      (Samples.rejected_text, None) ].

End MoreSamples.

(** * Properties *)

(** ** Python strings *)

Lemma startswith_spec p s : PyStr.startswith p s = true ↔ ∃ b, s = p +:+ b.
Proof.
  revert s. induction p as [|a p IH]; intros s; simpl.
  - split; [intros _; exists s; reflexivity | reflexivity].
  - destruct s as [|c s].
    + split; [discriminate | intros [b Hb]; discriminate].
    + case_decide as Hac.
      * subst c. rewrite IH. split; intros [b Hb]; exists b; [rewrite Hb; reflexivity |].
        injection Hb as ->. reflexivity.
      * split; [discriminate | intros [b Hb]; injection Hb as -> _; contradiction].
Qed.

(** [contains] is the substring test. *)
Lemma contains_spec sub s : PyStr.contains sub s = true ↔ ∃ a b, s = a +:+ sub +:+ b.
Proof.
  induction s as [|c s IH]; simpl.
  - rewrite orb_false_r, startswith_spec. split.
    + intros [b Hb]. exists EmptyString, b. exact Hb.
    + intros (a & b & H). destruct a as [|c a]; [exists b; exact H | discriminate].
  - rewrite orb_true_iff, startswith_spec, IH. split.
    + intros [[b Hb] | (a & b & ->)];
        [exists EmptyString, b; exact Hb | exists (String c a), b; reflexivity].
    + intros (a & b & H). destruct a as [|c' a]; simpl in H.
      * left. exists b. exact H.
      * right. injection H as -> ->. exists a, b. reflexivity.
Qed.

(** A label followed by a space is in particular a label. *)
Lemma contains_prefix_of_sub sub extra s :
  PyStr.contains (sub +:+ extra) s = true → PyStr.contains sub s = true.
Proof.
  rewrite !contains_spec. intros (a & b & ->). exists a, (extra +:+ b).
  f_equal. induction sub as [|c sub IH]; [reflexivity |].
  change (String c ((sub +:+ extra) +:+ b) = String c (sub +:+ extra +:+ b)).
  congruence.
Qed.

Example ex_replace :
  PyStr.replace "medium_avatar" "huge_avatar" "//example.com/medium_avatar/x.jpg"
  = "//example.com/huge_avatar/x.jpg".
Proof. reflexivity. Qed.

Example ex_replace_all :
  PyStr.replace " " "+" "New York City" = "New+York+City".
Proof. reflexivity. Qed.

Example ex_split :
  PyStr.split "Price: " "Doors Price: $10 adv Price: 3" = ["Doors "; "$10 adv "; "3"].
Proof. reflexivity. Qed.

Example ex_strip : PyStr.strip "  London, UK  " = "London, UK".
Proof. reflexivity. Qed.

(** The em space, the no-break space and the line feed are stripped; the
    zero-width space, for which [isspace] does not hold, is kept. *)
Example ex_strip_unicode :
  PyStr.strip (PyStr.of_bytes [226; 128; 131]%nat +:+ "a b"
               +:+ PyStr.of_bytes [194; 160; 10]%nat)
  = "a b"
  ∧ PyStr.strip (PyStr.of_bytes [226; 128; 139]%nat +:+ " ")
    = PyStr.of_bytes [226; 128; 139]%nat.
Proof. split; vm_compute; reflexivity. Qed.

Example ex_words : PyStr.words " artists  summary " = ["artists"; "summary"].
Proof. reflexivity. Qed.

(** ** The result monad *)

Lemma bind_Return {A B} (a : A) (k : A → result B) : (Return a ≫= k) = k a.
Proof. reflexivity. Qed.

Lemma bind_Raise {A B} (e : exn) (k : A → result B) : (Raise e ≫= k) = Raise e.
Proof. reflexivity. Qed.

Lemma bind_Return_inv {A B} (m : result A) (k : A → result B) (b : B) :
  (m ≫= k) = Return b → ∃ a, m = Return a ∧ k a = Return b.
Proof. destruct m as [a|e]; [eauto | discriminate]. Qed.

Lemma try_except_total {A} (body : result A) (handler : exn → result A) :
  (∀ e, ∃ a, handler e = Return a) → ∃ a, try_except body handler = Return a.
Proof.
  intros Hh. destruct body as [a|e]; simpl; [eauto | apply Hh].
Qed.

Lemma returns_Return {A} (a : A) : returns (Return a).
Proof. exists a. reflexivity. Qed.

Lemma returns_Raise {A} e : ¬ returns (Raise e : result A).
Proof. intros [a Ha]. discriminate. Qed.

Lemma returns_bind {A B} (m : result A) (k : A → result B) :
  returns (m ≫= k) ↔ ∃ a, m = Return a ∧ returns (k a).
Proof.
  split.
  - intros [b Hb]. apply bind_Return_inv in Hb as (a & Ha & Hk).
    exists a. split; [exact Ha | exists b; exact Hk].
  - intros (a & -> & Hk). exact Hk.
Qed.

Lemma returns_fmap {A B} (f : A → B) (m : result A) : returns (f <$> m) ↔ returns m.
Proof.
  destruct m as [a|e]; simpl; split; intros [x Hx]; try discriminate;
    eexists; reflexivity.
Qed.

(** A step whose successor returns or not whatever the step's value is. *)
Lemma returns_step {A B} (m : result A) (k : A → result B) (P Q : Prop) :
  (returns m ↔ P) → (∀ a, returns (k a) ↔ Q) → returns (m ≫= k) ↔ P ∧ Q.
Proof.
  intros Hm Hk. rewrite returns_bind, <- Hm. split.
  - intros (a & Ha & Hka). split; [exists a; exact Ha | apply (Hk a), Hka].
  - intros ([a Ha] & HQ). exists a. split; [exact Ha | apply Hk, HQ].
Qed.

(** The last step before the value is built. *)
Lemma returns_last {A B} (m : result A) (f : A → B) (P : Prop) :
  (returns m ↔ P) → returns (m ≫= λ a, Return (f a)) ↔ P.
Proof.
  intros Hm. rewrite returns_bind, <- Hm. split.
  - intros (a & Ha & _). exists a. exact Ha.
  - intros [a Ha]. exists a. split; [exact Ha | apply returns_Return].
Qed.

(** ** Cutting and splitting strings *)

Lemma append_nil_l t : EmptyString +:+ t = t.
Proof. reflexivity. Qed.

Lemma append_cons c s t : String c s +:+ t = String c (s +:+ t).
Proof. reflexivity. Qed.

Lemma append_assoc s t u : (s +:+ t) +:+ u = s +:+ t +:+ u.
Proof.
  induction s as [|c s IH]; [reflexivity |].
  rewrite !append_cons, IH. reflexivity.
Qed.

Lemma length_append s t : String.length (s +:+ t) = (String.length s + String.length t)%nat.
Proof.
  induction s as [|c s IH]; [reflexivity |].
  rewrite append_cons. simpl. rewrite IH. reflexivity.
Qed.

Lemma startswith_append p t : PyStr.startswith p (p +:+ t) = true.
Proof. apply startswith_spec. exists t. reflexivity. Qed.

Lemma startswith_longer p s t :
  PyStr.startswith p s = true → PyStr.startswith p (s +:+ t) = true.
Proof.
  rewrite !startswith_spec. intros [b ->]. exists (b +:+ t). apply append_assoc.
Qed.

Lemma startswith_drop p s :
  PyStr.startswith p s = true → s = p +:+ PyStr.drop (String.length p) s.
Proof.
  revert s. induction p as [|a p IH]; intros s; [reflexivity |].
  destruct s as [|c s]; simpl; [discriminate |].
  case_decide as Hac; [| discriminate]. subst c.
  intros Hp. rewrite append_cons, <- (IH s Hp). reflexivity.
Qed.

Lemma cut_unfold sep s :
  PyStr.cut sep s
  = if PyStr.startswith sep s then Some (EmptyString, PyStr.drop (String.length sep) s)
    else match s with
         | EmptyString => None
         | String c s' =>
             match PyStr.cut sep s' with
             | Some (a, b) => Some (String c a, b)
             | None => None
             end
         end.
Proof. destruct s; reflexivity. Qed.

Lemma contains_unfold sub s :
  PyStr.contains sub s
  = PyStr.startswith sub s
    || match s with
       | EmptyString => false
       | String _ s' => PyStr.contains sub s'
       end.
Proof. destruct s; reflexivity. Qed.

(** [cut] finds an occurrence exactly when there is one. *)
Lemma cut_contains sep s : is_Some (PyStr.cut sep s) ↔ PyStr.contains sep s = true.
Proof.
  induction s as [|c s IH]; rewrite cut_unfold, contains_unfold;
    destruct (PyStr.startswith sep _); simpl.
  - split; [reflexivity | eauto].
  - split; [intros [x Hx]; discriminate | discriminate].
  - split; [reflexivity | eauto].
  - rewrite <- IH. destruct (PyStr.cut sep s) as [[a b]|]; split; eauto;
      intros [x Hx]; discriminate.
Qed.

Lemma cut_None sep s : PyStr.cut sep s = None ↔ PyStr.contains sep s = false.
Proof.
  pose proof (cut_contains sep s) as [H1 H2].
  destruct (PyStr.cut sep s) as [p|], (PyStr.contains sep s); split; intros Hx;
    try reflexivity; try discriminate.
  - assert (false = true) by eauto. discriminate.
  - destruct (H2 eq_refl) as [x Hx']. discriminate.
Qed.

(** The two parts [cut] gives surround an occurrence of the separator. *)
Lemma cut_spec sep s a b : PyStr.cut sep s = Some (a, b) → s = a +:+ sep +:+ b.
Proof.
  revert a. induction s as [|c s IH]; intros a; rewrite cut_unfold;
    destruct (PyStr.startswith sep _) eqn:Hp.
  - intros [= <- <-]. apply (startswith_drop _ _ Hp).
  - discriminate.
  - intros [= <- <-]. apply (startswith_drop _ _ Hp).
  - destruct (PyStr.cut sep s) as [[a' b']|]; [| discriminate].
    intros [= <- <-]. rewrite append_cons, <- (IH a' eq_refl). reflexivity.
Qed.

(** The occurrence [cut] finds is the first one. *)
Lemma cut_first sep s a b :
  sep ≠ EmptyString → PyStr.cut sep s = Some (a, b) → PyStr.contains sep a = false.
Proof.
  intros Hsep. revert a. induction s as [|c s IH]; intros a; rewrite cut_unfold;
    destruct (PyStr.startswith sep _) eqn:Hp.
  - intros [= <- <-]. destruct sep; [contradiction | reflexivity].
  - discriminate.
  - intros [= <- <-]. destruct sep; [contradiction | reflexivity].
  - destruct (PyStr.cut sep s) as [[a' b']|] eqn:Hcut; [| discriminate].
    intros [= <- <-]. rewrite contains_unfold, (IH a' eq_refl), orb_false_r.
    destruct (PyStr.startswith sep (String c a')) eqn:Hp'; [| reflexivity].
    apply (startswith_longer _ _ (sep +:+ b')) in Hp'.
    rewrite append_cons, <- (cut_spec _ _ _ _ Hcut) in Hp'. congruence.
Qed.

(** The first piece of a split: the text up to the first separator, or all
    of it. *)
Lemma split_fuel_head fuel sep s :
  sep ≠ EmptyString →
  (String.length s ≤ fuel)%nat →
  ∃ h tl rest,
    PyStr.split_fuel fuel sep s = h :: tl
    ∧ s = h +:+ rest
    ∧ PyStr.contains sep h = false
    ∧ (rest = EmptyString ∨ PyStr.startswith sep rest = true).
Proof.
  intros Hsep Hfuel. destruct fuel as [|fuel]; simpl.
  - destruct s; [| simpl in Hfuel; lia].
    exists EmptyString, [], EmptyString. repeat split; [| auto].
    destruct sep; [contradiction | reflexivity].
  - destruct (PyStr.cut sep s) as [[a b]|] eqn:Hcut.
    + exists a, (PyStr.split_fuel fuel sep b), (sep +:+ b).
      split; [reflexivity |]. split; [apply cut_spec, Hcut |].
      split; [apply (cut_first _ _ _ _ Hsep Hcut) | right; apply startswith_append].
    + exists s, [], EmptyString. split; [reflexivity |].
      split; [| split; [apply cut_None, Hcut | auto]].
      clear. induction s as [|c s IH]; [reflexivity |].
      rewrite append_cons, <- IH. reflexivity.
Qed.

(** The second piece of a split exists exactly when the separator occurs; it
    is the text between the first occurrence and the next. *)
Lemma split_second sep s :
  sep ≠ EmptyString →
  match PyStr.cut sep s with
  | None => PyStr.split sep s = [s]
  | Some (a, b) =>
      ∃ after tl rest,
        PyStr.split sep s = a :: after :: tl
        ∧ b = after +:+ rest
        ∧ PyStr.contains sep after = false
        ∧ (rest = EmptyString ∨ PyStr.startswith sep rest = true)
  end.
Proof.
  intros Hsep. unfold PyStr.split.
  destruct (PyStr.cut sep s) as [[a b]|] eqn:Hcut.
  - pose proof (cut_spec _ _ _ _ Hcut) as Hs.
    assert (String.length s = (String.length a + (String.length sep + String.length b))%nat)
      as Hlen by (rewrite Hs at 1; rewrite !length_append; reflexivity).
    assert (0 < String.length sep)%nat as Hpos
      by (destruct sep; [contradiction | simpl; lia]).
    destruct (String.length s) as [|fuel] eqn:Hfuel; [lia |].
    simpl. rewrite Hcut.
    destruct (split_fuel_head fuel sep b Hsep) as (h & tl & rest & -> & Hb & Hh & Hrest);
      [lia |].
    exists h, tl, rest. auto.
  - destruct (String.length s); simpl; [| rewrite Hcut]; reflexivity.
Qed.

Lemma index_split_0 sep s : sep ≠ EmptyString → returns (index (PyStr.split sep s) 0).
Proof.
  intros Hsep. unfold PyStr.split.
  destruct (split_fuel_head (String.length s) sep s Hsep) as (h & tl & rest & -> & _);
    [lia |].
  apply returns_Return.
Qed.

Lemma index_split_1 sep s :
  sep ≠ EmptyString →
  returns (index (PyStr.split sep s) 1) ↔ PyStr.contains sep s = true.
Proof.
  intros Hsep. rewrite <- cut_contains. pose proof (split_second sep s Hsep) as H.
  destruct (PyStr.cut sep s) as [[a b]|].
  - destruct H as (after & tl & rest & -> & _). split; [eauto | intros _; apply returns_Return].
  - rewrite H. split; [intros [x Hx]; discriminate | intros [x Hx]; discriminate].
Qed.

Lemma second_piece sep t after :
  sep ≠ EmptyString →
  index (PyStr.split sep t) 1 = Return after →
  ∃ before rest,
    t = before +:+ sep +:+ after +:+ rest
    ∧ PyStr.contains sep before = false
    ∧ PyStr.contains sep after = false
    ∧ (rest = EmptyString ∨ PyStr.startswith sep rest = true).
Proof.
  intros Hsep Hidx. pose proof (split_second sep t Hsep) as H.
  destruct (PyStr.cut sep t) as [[a b]|] eqn:Hcut.
  - destruct H as (after' & tl & rest & Hsplit & Hb & Hafter & Hrest).
    rewrite Hsplit in Hidx. injection Hidx as <-.
    exists a, rest. split; [| split; [apply (cut_first _ _ _ _ Hsep Hcut) | auto]].
    rewrite (cut_spec _ _ _ _ Hcut), Hb. reflexivity.
  - rewrite H in Hidx. discriminate.
Qed.

Lemma first_piece sep s h :
  sep ≠ EmptyString →
  index (PyStr.split sep s) 0 = Return h →
  ∃ rest, s = h +:+ rest
          ∧ PyStr.contains sep h = false
          ∧ (rest = EmptyString ∨ PyStr.startswith sep rest = true).
Proof.
  intros Hsep Hidx. unfold PyStr.split in Hidx.
  destruct (split_fuel_head (String.length s) sep s Hsep) as (h' & tl & rest & Hs & Hrest);
    [lia |].
  rewrite Hs in Hidx. injection Hidx as <-. eauto.
Qed.

(** ** The response classifier *)

Section Classifier.

Variable py_repr : pyval → string.
Variable self : SongkickIntegration.

Lemma success_returns_body status body :
  200 ≤ status < 204 →
  _handle_response py_repr self (Samples.json_response status (Return body)) = Return body.
Proof.
  intros [Hlo Hhi]. unfold _handle_response; simpl.
  rewrite (proj2 (Z.leb_le _ _) Hlo), (proj2 (Z.ltb_lt _ _) Hhi). reflexivity.
Qed.

Lemma undecodable_is_synthesized status e :
  _handle_response py_repr self (Samples.json_response status (Raise e))
  = _handle_response py_repr self (Samples.json_response status (Return (synthesized status))).
Proof. reflexivity. Qed.

Lemma readable_401 body msg code :
  readable body msg code →
  _handle_response py_repr self (Samples.json_response 401 (Return body))
  = Raise (IntegrationAuthError (integration_name self +:+ ": " +:+ py_str py_repr msg)
             401 (default (PStr "401") code)).
Proof.
  intros [m Hm | m e Hm]; unfold _handle_response; simpl; rewrite Hm; simpl;
    [| destruct (e !! "code")]; reflexivity.
Qed.

Lemma readable_400_not_found body code :
  readable body (PStr "Resource not found.") code →
  _handle_response py_repr self (Samples.json_response 400 (Return body))
  = Raise (IntegrationAPIError (integration_name self) "Resource not found." 400
             (default (PStr "400") code)).
Proof.
  intros H. remember (PStr "Resource not found.") as msg eqn:Hmsg.
  destruct H as [m Hm | m e Hm]; [discriminate |].
  unfold _handle_response; simpl. rewrite Hm; simpl. rewrite Hmsg.
  destruct (e !! "code"); reflexivity.
Qed.

Lemma readable_500 body msg code :
  readable body msg code →
  _handle_response py_repr self (Samples.json_response 500 (Return body))
  = Raise (IntegrationAPIError (integration_name self)
             ("Downstream server error (translated to HTTP 501): " +:+ py_str py_repr msg)
             501 (default (PStr "500") code)).
Proof.
  intros [m Hm | m e Hm]; unfold _handle_response; simpl; rewrite Hm; simpl;
    [| destruct (e !! "code")]; reflexivity.
Qed.

(** On a body it can read, the classifier returns the body or raises one of
    its two typed errors. *)
Lemma readable_body_is_classified status body msg code :
  readable body msg code →
  match _handle_response py_repr self (Samples.json_response status (Return body)) with
  | Return v => v = body ∧ 200 ≤ status < 204
  | Raise (IntegrationAuthError _ reported _) => status = 401 ∧ reported = 401
  | Raise (IntegrationAPIError _ _ reported _) =>
      status ≠ 401 ∧ reported = (if decide (status = 500) then 501 else status)
  | Raise _ => False
  end.
Proof.
  intros Hbody. unfold _handle_response; simpl.
  destruct (200 <=? status) eqn:Hlo; [apply Z.leb_le in Hlo | apply Z.leb_gt in Hlo];
    (destruct (status <? 204) eqn:Hhi; [apply Z.ltb_lt in Hhi | apply Z.ltb_ge in Hhi]);
    simpl; [split; [reflexivity | lia] | | |].
  all: destruct Hbody as [m Hm | m e Hm]; simpl; rewrite Hm; simpl.
  all: destruct (status =? 401) eqn:H401;
    [apply Z.eqb_eq in H401; split; [exact H401 | exact H401] | apply Z.eqb_neq in H401].
  all: destruct (status =? 400) eqn:H400; [apply Z.eqb_eq in H400 | apply Z.eqb_neq in H400].
  all: try match goal with |- context [eq_str ?v ?s] => destruct (eq_str v s) end.
  all: try (split; [exact H401 | case_decide; lia]).
  all: destruct (status =? 500) eqn:H500;
    [apply Z.eqb_eq in H500 | apply Z.eqb_neq in H500];
    (split; [exact H401 | case_decide; lia]).
Qed.

(** A decoded body that is not an object cannot be read: outside
    [200, 204) the first lookup raises. *)
Lemma not_an_object_raises status body :
  ¬ (200 ≤ status < 204) →
  (∀ m, body ≠ PDict m) →
  _handle_response py_repr self (Samples.json_response status (Return body))
  = Raise AttributeError.
Proof.
  intros Hstatus Hbody. unfold _handle_response; simpl.
  destruct (200 <=? status) eqn:Hlo; [apply Z.leb_le in Hlo | apply Z.leb_gt in Hlo];
    (destruct (status <? 204) eqn:Hhi; [apply Z.ltb_lt in Hhi | apply Z.ltb_ge in Hhi]);
    simpl; try lia;
    destruct body; try reflexivity; destruct (Hbody _ eq_refl).
Qed.

Lemma synthesized_readable status :
  readable (synthesized status) (PStr "Unknown error") (Some (PStr (pretty status))).
Proof.
  set (e := ({[ "message" := PStr "Unknown error"; "code" := PStr (pretty status) ]}
               : gmap string pyval)).
  exact (readable_error {[ "error" := PDict e ]} e eq_refl).
Qed.

(** C2: at status 401 with the decoded body [{"error": "Unauthorized"}] the
    classifier raises [AttributeError], not an authentication error: the
    [error] member is a string and has no [get]. *)
Theorem C2_string_error_member_raises_attribute_error :
  _handle_response py_repr self
    (Samples.json_response 401 (Return Samples.error_is_string))
  = Raise AttributeError.
Proof. reflexivity. Qed.

(** C5: with a decoded body that is a JSON array and a status outside
    [200, 204) the classifier raises [AttributeError], which is neither of
    its two typed errors. *)
Theorem C5_array_body_raises_attribute_error (items : list pyval) :
  _handle_response py_repr self (Samples.json_response 404 (Return (PList items)))
  = Raise AttributeError.
Proof. reflexivity. Qed.

End Classifier.

(** ** Track / untrack *)

Section Tracking.

Variable self : SongkickIntegration.
Variable request : Models.TrackUntrackLocationRequest.

(** The request is sent before the [try] block is entered: what the POST
    raises reaches the caller. *)
Lemma post_exception_propagates e :
  trackings_answer self request = Raise e → track_untrack_location self request = Raise e.
Proof. unfold track_untrack_location, trackings_answer. intros ->. reflexivity. Qed.

(** Once the POST has answered, nothing is raised: every exception of the
    response handling becomes the failure record. *)
Lemma response_handling_never_raises response :
  trackings_answer self request = Return response →
  ∃ v, track_untrack_location self request = Return v.
Proof.
  unfold track_untrack_location, trackings_answer. intros ->. simpl.
  apply try_except_total. eauto.
Qed.

Lemma raise_for_status_raises_failed response :
  trackings_answer self request = Return response →
  Requests.raise_for_status response ≠ Return tt →
  track_untrack_location self request = Return status_failed.
Proof.
  unfold track_untrack_location, trackings_answer. intros -> Hrs. simpl.
  destruct (Requests.raise_for_status response) as [[]|e]; [congruence | reflexivity].
Qed.

(** C9 (amended): for a response that passes [raise_for_status], the result
    is [{status: ok}] when the status is 200 and the text lacks the
    fragment ["status":"ok"]; when the status is 200 and the text holds the
    fragment it is the decoded JSON body if decoding succeeds and
    [{status: failed}] if decoding raises; for any other status it is
    [{status: failed}]. *)
Theorem C9_track_untrack_by_cases response :
  trackings_answer self request = Return response →
  Requests.raise_for_status response = Return tt →
  (Requests.status_code response = 200 →
   PyStr.contains status_ok_fragment (Requests.text response) = false →
   track_untrack_location self request = Return status_ok)
  ∧ (Requests.status_code response = 200 →
     PyStr.contains status_ok_fragment (Requests.text response) = true →
     ∀ body, Requests.json response = Return body →
             track_untrack_location self request = Return body)
  ∧ (Requests.status_code response = 200 →
     PyStr.contains status_ok_fragment (Requests.text response) = true →
     ∀ e, Requests.json response = Raise e →
          track_untrack_location self request = Return status_failed)
  ∧ (Requests.status_code response ≠ 200 →
     track_untrack_location self request = Return status_failed).
Proof.
  unfold track_untrack_location, trackings_answer. intros -> Hrs. simpl. rewrite Hrs. simpl.
  repeat split.
  - intros -> ->. reflexivity.
  - intros -> -> body ->. reflexivity.
  - intros -> -> e ->. reflexivity.
  - intros Hne. apply Z.eqb_neq in Hne. rewrite Hne. reflexivity.
Qed.

End Tracking.

(** C1: when the POST itself raises (here: no network), the exception
    reaches the caller of [track_untrack_location]; no failure record is
    returned. *)
Theorem C1_post_failure_reaches_caller (request : Models.TrackUntrackLocationRequest) :
  track_untrack_location (Samples.integration Samples.offline) request
  = Raise ConnectionError.
Proof. reflexivity. Qed.

Lemma C9_track_untrack_by_cases_witness :
  track_untrack_location (Samples.integration (Samples.serving Samples.ack_html)) Samples.request
  = Return status_ok
  ∧ track_untrack_location (Samples.integration (Samples.serving Samples.ack_json_ok))
      Samples.request
    = Return status_ok
  ∧ track_untrack_location (Samples.integration (Samples.serving (Samples.page 204 EmptyString)))
      Samples.request
    = Return status_failed.
Proof.
  split; [| split].
  - destruct (C9_track_untrack_by_cases
                (Samples.integration (Samples.serving Samples.ack_html)) Samples.request
                Samples.ack_html eq_refl eq_refl) as (Hok & _).
    exact (Hok eq_refl eq_refl).
  - destruct (C9_track_untrack_by_cases
                (Samples.integration (Samples.serving Samples.ack_json_ok)) Samples.request
                Samples.ack_json_ok eq_refl eq_refl) as (_ & Hbody & _).
    exact (Hbody eq_refl eq_refl status_ok eq_refl).
  - destruct (C9_track_untrack_by_cases
                (Samples.integration (Samples.serving (Samples.page 204 EmptyString)))
                Samples.request (Samples.page 204 EmptyString) eq_refl eq_refl)
      as (_ & _ & _ & Hother).
    apply Hother. discriminate.
Defined.

(** C9 as stated fails twice. A body that holds the fragment and is not JSON
    gives the failure record, not a decoded body; and the body
    [{"status":"ok"}] holds the fragment, yet the value returned is
    [{status: ok}]. *)
Lemma C9_counterexample :
  ¬ (∀ self request response,
       Requests.post (session self) (trackings_url request) (trackings_form request)
         {[ "Cookie" := cookies self ]} = Return response →
       Requests.raise_for_status response = Return tt →
       (track_untrack_location self request = Return status_ok
        ↔ Requests.status_code response = 200
          ∧ PyStr.contains status_ok_fragment (Requests.text response) = false)
       ∧ (Requests.status_code response = 200 →
          PyStr.contains status_ok_fragment (Requests.text response) = true →
          track_untrack_location self request = Requests.json response)
       ∧ (Requests.status_code response ≠ 200 →
          track_untrack_location self request = Return status_failed)).
Proof.
  intros H.
  destruct (H (Samples.integration (Samples.serving Samples.ack_not_json)) Samples.request
              Samples.ack_not_json eq_refl eq_refl) as (_ & Hbody & _).
  specialize (Hbody eq_refl eq_refl). discriminate Hbody.
Qed.

Lemma decoded_body_may_be_ok :
  PyStr.contains status_ok_fragment (Requests.text Samples.ack_json_ok) = true
  ∧ track_untrack_location (Samples.integration (Samples.serving Samples.ack_json_ok))
      Samples.request = Return status_ok.
Proof. split; reflexivity. Qed.

(** ** Location search *)

Section LocationSearch.

Variable html_parser : string → option Bs4.node.
Variable self : SongkickIntegration.
Variable location_name : string.

(** What [search_location] does with a page that was fetched and passed
    [raise_for_status]. *)
Lemma search_location_after_fetch response :
  locations_answer self location_name = Return response →
  Requests.raise_for_status response = Return tt →
  search_location html_parser self location_name
  = if PyStr.contains no_results_marker (Requests.text response)
    then Raise (HTTPException 404 ("No results found for " +:+ location_name))
    else
      soup ← BeautifulSoup html_parser (Requests.text response);
      st ← for_each (Bs4.find_all "li" (Bs4.class_ "small-city") soup)
             search_location_body [];
      match st with
      | Returned v => Return v
      | Next _ => Return PNone
      end.
Proof.
  unfold search_location, locations_answer. intros -> Hrs. simpl.
  rewrite Hrs. reflexivity.
Qed.

(** The extraction proper, on a page without the marker that the parser
    accepts. *)
Lemma search_location_extracts response items :
  locations_answer self location_name = Return response →
  Requests.raise_for_status response = Return tt →
  PyStr.contains no_results_marker (Requests.text response) = false →
  small_city_items html_parser response = Some items →
  search_location html_parser self location_name
  = (st ← for_each items search_location_body [];
     match st with
     | Returned v => Return v
     | Next _ => Return PNone
     end).
Proof.
  intros Hget Hrs Hmark Hitems.
  rewrite (search_location_after_fetch response Hget Hrs), Hmark.
  unfold small_city_items in Hitems. unfold BeautifulSoup.
  destruct (html_parser (Requests.text response)) as [soup|]; [| discriminate].
  injection Hitems as <-. reflexivity.
Qed.

(** A page without the marker that the parser rejects. *)
Lemma search_location_rejected response :
  locations_answer self location_name = Return response →
  Requests.raise_for_status response = Return tt →
  PyStr.contains no_results_marker (Requests.text response) = false →
  html_parser (Requests.text response) = None →
  search_location html_parser self location_name = Raise ParserRejectedMarkup.
Proof.
  intros Hget Hrs Hmark Hparse.
  rewrite (search_location_after_fetch response Hget Hrs), Hmark.
  unfold BeautifulSoup. rewrite Hparse. reflexivity.
Qed.

(** C7: a page whose text holds the no-results marker makes
    [search_location] raise the not-found exception with status 404; no
    list item is looked at and nothing is returned. *)
Theorem C7_no_results_marker_raises_404 response :
  locations_answer self location_name = Return response →
  Requests.raise_for_status response = Return tt →
  PyStr.contains no_results_marker (Requests.text response) = true →
  search_location html_parser self location_name
  = Raise (HTTPException 404 ("No results found for " +:+ location_name)).
Proof.
  unfold search_location, locations_answer. intros -> Hrs Hmark. simpl.
  rewrite Hrs. simpl. rewrite Hmark. reflexivity.
Qed.

(** C10: a page with neither the marker nor a small-city item makes the
    loop body run zero times; [search_location] falls off its end and
    returns [None], not a dictionary with an empty list. *)
Theorem C10_no_items_returns_None response :
  locations_answer self location_name = Return response →
  Requests.raise_for_status response = Return tt →
  PyStr.contains no_results_marker (Requests.text response) = false →
  small_city_items html_parser response = Some [] →
  search_location html_parser self location_name = Return PNone.
Proof.
  intros Hget Hrs Hmark Hitems.
  rewrite (search_location_extracts response [] Hget Hrs Hmark Hitems). reflexivity.
Qed.

End LocationSearch.

Lemma C7_no_results_marker_raises_404_witness :
  search_location Samples.parser
    (Samples.integration (Samples.serving (Samples.page 200 Samples.no_results_text)))
    "Atlantis"
  = Raise (HTTPException 404 "No results found for Atlantis").
Proof.
  apply (C7_no_results_marker_raises_404 Samples.parser
           (Samples.integration (Samples.serving (Samples.page 200 Samples.no_results_text)))
           "Atlantis" (Samples.page 200 Samples.no_results_text)
           eq_refl eq_refl eq_refl).
Defined.

Lemma C10_no_items_returns_None_witness :
  search_location Samples.parser
    (Samples.integration (Samples.serving (Samples.page 200 Samples.empty_results_text)))
    "Nowhere"
  = Return PNone.
Proof.
  apply (C10_no_items_returns_None Samples.parser
           (Samples.integration (Samples.serving (Samples.page 200 Samples.empty_results_text)))
           "Nowhere" (Samples.page 200 Samples.empty_results_text)
           eq_refl eq_refl eq_refl eq_refl).
Defined.

(** ** What the extraction steps can raise *)

Lemma raises_only_Return {A} P (a : A) : raises_only P (Return a).
Proof. intros e He. discriminate. Qed.

Lemma raises_only_Raise {A} (P : exn → Prop) e : P e → raises_only P (Raise e : result A).
Proof. intros HP e' He. congruence. Qed.

Lemma raises_only_bind {A B} P (m : result A) (k : A → result B) :
  raises_only P m → (∀ a, raises_only P (k a)) → raises_only P (m ≫= k).
Proof.
  intros Hm Hk e. destruct m as [a|e']; simpl.
  - apply Hk.
  - intros [= <-]. apply Hm. reflexivity.
Qed.

Lemma raises_only_fmap {A B} P (f : A → B) (m : result A) :
  raises_only P m → raises_only P (f <$> m).
Proof.
  intros Hm e. destruct m as [a|e']; simpl; [discriminate |].
  intros [= <-]. apply Hm. reflexivity.
Qed.

Lemma find_on_raises t name attrs : raises_only extraction_error (find_on t name attrs).
Proof. destruct t; intros e [= <-]; exact I. Qed.

Lemma text_of_raises t : raises_only extraction_error (text_of t).
Proof. destruct t; intros e [= <-]; exact I. Qed.

Lemma getitem_raises t key : raises_only extraction_error (getitem t key).
Proof.
  destruct t as [n|]; unfold getitem; [destruct (Bs4.get key n) |]; intros e [= <-]; exact I.
Qed.

Lemma index_raises {A} (l : list A) i : raises_only extraction_error (index l i).
Proof. unfold index. destruct (l !! i); intros e [= <-]; exact I. Qed.

Lemma for_each_raises {A S R} P (items : list A) (body : A → S → result (flow S R)) s :
  (∀ x s', raises_only P (body x s')) → raises_only P (for_each items body s).
Proof.
  intros Hbody. revert s. induction items as [|x items IH]; intros s; simpl.
  - apply raises_only_Return.
  - apply raises_only_bind; [apply Hbody |].
    intros [s'|r]; [apply IH | apply raises_only_Return].
Qed.

Create HintDb raises.
#[export] Hint Resolve raises_only_Return find_on_raises text_of_raises getitem_raises
  index_raises : raises.

(** Split a computation into its steps and settle each. *)
Ltac raises_steps :=
  repeat first
    [ progress eauto with raises
    | apply raises_only_bind; [| intros ?]
    | apply raises_only_fmap
    | match goal with
      | |- raises_only _ (match ?x with _ => _ end) => destruct x
      | |- raises_only _ (if ?b then _ else _) => destruct b
      end ].

Lemma attr_if_found_raises event name attrs key :
  raises_only extraction_error (attr_if_found event name attrs key).
Proof. unfold attr_if_found. raises_steps. Qed.

#[export] Hint Resolve attr_if_found_raises : raises.

Lemma event_record_raises event : raises_only extraction_error (event_record event).
Proof. unfold event_record. raises_steps. Qed.

Lemma location_record_raises li : raises_only extraction_error (location_record li).
Proof. unfold location_record, read_track_form, input_value. raises_steps. Qed.

Lemma find_on_raises_lookup t name attrs : raises_only lookup_error (find_on t name attrs).
Proof. destruct t; intros e [= <-]; exact I. Qed.

Lemma text_of_raises_lookup t : raises_only lookup_error (text_of t).
Proof. destruct t; intros e [= <-]; exact I. Qed.

Lemma getitem_raises_lookup t key : raises_only lookup_error (getitem t key).
Proof.
  destruct t as [n|]; unfold getitem; [destruct (Bs4.get key n) |]; intros e [= <-]; exact I.
Qed.

#[export] Hint Resolve find_on_raises_lookup text_of_raises_lookup getitem_raises_lookup
  : raises.

(** Reading a result item indexes no list. *)
Lemma location_record_raises_lookup li : raises_only lookup_error (location_record li).
Proof. unfold location_record, read_track_form, input_value. raises_steps. Qed.

Lemma read_additional_details_raises soup :
  raises_only extraction_error (read_additional_details soup).
Proof. unfold read_additional_details. raises_steps. Qed.

Lemma raises_only_weaken {A} (P Q : exn → Prop) (m : result A) :
  (∀ e, P e → Q e) → raises_only P m → raises_only Q m.
Proof. intros HPQ Hm e He. apply HPQ, Hm, He. Qed.

Lemma BeautifulSoup_raises html_parser text :
  raises_only (λ e, e = ParserRejectedMarkup) (BeautifulSoup html_parser text).
Proof.
  unfold BeautifulSoup. destruct (html_parser text); intros e [= <-]. reflexivity.
Qed.

Lemma BeautifulSoup_returns html_parser text soup :
  BeautifulSoup html_parser text = Return soup ↔ html_parser text = Some soup.
Proof.
  unfold BeautifulSoup. destruct (html_parser text); split; intros [= ->]; reflexivity.
Qed.

Lemma parse_events_raises html_parser page :
  raises_only page_error (parse_events html_parser page).
Proof.
  unfold parse_events. apply raises_only_bind.
  - eapply raises_only_weaken; [| apply BeautifulSoup_raises]. intros e ->. left. reflexivity.
  - intros soup. apply raises_only_bind.
    + apply for_each_raises. intros event events. unfold get_events_body.
      apply raises_only_bind; [| intros ?; apply raises_only_Return].
      eapply raises_only_weaken; [| apply event_record_raises]. intros e He. right. exact He.
    + intros [events|v]; apply raises_only_Return.
Qed.

Lemma page_error_not_http status detail : ¬ page_error (HTTPException status detail).
Proof. intros [H|H]; [discriminate H | exact H]. Qed.

(** ** Tracked events *)

Lemma raise_for_status_passes response :
  Requests.raise_for_status response = Return tt
  ↔ ¬ (400 ≤ Requests.status_code response < 600).
Proof.
  unfold Requests.raise_for_status.
  destruct (400 <=? Requests.status_code response) eqn:Hlo;
    destruct (Requests.status_code response <? 600) eqn:Hhi; simpl;
    try apply Z.leb_le in Hlo; try apply Z.leb_gt in Hlo;
    try apply Z.ltb_lt in Hhi; try apply Z.ltb_ge in Hhi;
    split; intros H; try reflexivity; try discriminate; try lia.
Qed.

Section Events.

Variable html_parser : string → option Bs4.node.
Variable self : SongkickIntegration.

(** What [get_events] does with a page that was fetched and passed
    [raise_for_status]. *)
Lemma get_events_after_fetch response :
  calendar_answer self = Return response →
  Requests.raise_for_status response = Return tt →
  get_events html_parser self
  = if negb (Requests.status_code response =? 200)
       && negb (PyStr.contains tracked_banner (Requests.text response))
    then Raise (HTTPException (Requests.status_code response)
                  "Failed to fetch concert events")
    else parse_events html_parser (Requests.text response).
Proof.
  unfold get_events, calendar_answer. intros -> Hrs. simpl. rewrite Hrs. reflexivity.
Qed.

(** C3 (amended): a 4xx or 5xx status makes [raise_for_status] raise the
    HTTP client's error before the body is looked at. For any other
    status, [get_events] raises [HTTPException] with the original status
    exactly when the status is not 200 and the banner is absent from the
    text; in every other case (status 200, or banner present) it goes on to
    parse the page. *)
Theorem C3_get_events_failure_policy response :
  calendar_answer self = Return response →
  (400 ≤ Requests.status_code response < 600 →
   get_events html_parser self = Raise (HTTPError (Requests.status_code response)))
  ∧ (¬ (400 ≤ Requests.status_code response < 600) →
     (Requests.status_code response ≠ 200 →
      PyStr.contains tracked_banner (Requests.text response) = false →
      get_events html_parser self
      = Raise (HTTPException (Requests.status_code response)
                 "Failed to fetch concert events"))
     ∧ (Requests.status_code response = 200
        ∨ PyStr.contains tracked_banner (Requests.text response) = true →
        get_events html_parser self = parse_events html_parser (Requests.text response))
     ∧ (∀ status detail,
          get_events html_parser self = Raise (HTTPException status detail) →
          Requests.status_code response ≠ 200
          ∧ PyStr.contains tracked_banner (Requests.text response) = false)).
Proof.
  unfold calendar_answer. intros Hget. split.
  - intros [Hlo Hhi]. unfold get_events. rewrite Hget. simpl.
    unfold Requests.raise_for_status.
    rewrite (proj2 (Z.leb_le _ _) Hlo), (proj2 (Z.ltb_lt _ _) Hhi). reflexivity.
  - intros Hpass. apply raise_for_status_passes in Hpass.
    rewrite (get_events_after_fetch response Hget Hpass).
    destruct (Requests.status_code response =? 200) eqn:Hst;
      [apply Z.eqb_eq in Hst | apply Z.eqb_neq in Hst];
      destruct (PyStr.contains tracked_banner (Requests.text response)) eqn:Hb; simpl;
      (split; [| split];
       [ intros; first [reflexivity | congruence]
       | intros [|]; first [reflexivity | congruence]
       | intros status detail Hraise ]);
      try solve [apply parse_events_raises, page_error_not_http in Hraise; destruct Hraise];
      split; [exact Hst | reflexivity].
Qed.

End Events.

Lemma C3_get_events_failure_policy_witness :
  get_events Samples.parser
    (Samples.integration (Samples.serving (Samples.page 201 Samples.calendar_text)))
  = parse_events Samples.parser Samples.calendar_text
  ∧ get_events Samples.parser
      (Samples.integration (Samples.serving (Samples.page 204 Samples.empty_results_text)))
    = Raise (HTTPException 204 "Failed to fetch concert events")
  ∧ get_events Samples.parser
      (Samples.integration (Samples.serving (Samples.page 503 Samples.calendar_text)))
    = Raise (HTTPError 503).
Proof.
  split; [| split].
  - destruct (C3_get_events_failure_policy Samples.parser
                (Samples.integration (Samples.serving (Samples.page 201 Samples.calendar_text)))
                (Samples.page 201 Samples.calendar_text) eq_refl) as (_ & Hpass).
    destruct Hpass as (_ & Hparse & _); [simpl; lia |].
    apply Hparse. right. reflexivity.
  - destruct (C3_get_events_failure_policy Samples.parser
                (Samples.integration
                   (Samples.serving (Samples.page 204 Samples.empty_results_text)))
                (Samples.page 204 Samples.empty_results_text) eq_refl) as (_ & Hpass).
    destruct Hpass as (Hfail & _); [simpl; lia |].
    apply Hfail; [discriminate | reflexivity].
  - destruct (C3_get_events_failure_policy Samples.parser
                (Samples.integration (Samples.serving (Samples.page 503 Samples.calendar_text)))
                (Samples.page 503 Samples.calendar_text) eq_refl) as (Hclient & _).
    apply Hclient. simpl. lia.
Defined.

(** C3 as stated fails: a 404 answer whose body holds the banner is not
    parsed; [raise_for_status] raises the HTTP client's error first. *)
Lemma C3_counterexample :
  ¬ (∀ html_parser self response,
       Requests.get (session self) get_tracked_artists_url {[ "Cookie" := cookies self ]}
       = Return response →
       ((∃ detail,
           get_events html_parser self
           = Raise (HTTPException (Requests.status_code response) detail)) →
        Requests.status_code response ≠ 200
        ∧ PyStr.contains tracked_banner (Requests.text response) = false)
       ∧ (PyStr.contains tracked_banner (Requests.text response) = true →
          get_events html_parser self = parse_events html_parser (Requests.text response))).
Proof.
  intros H.
  destruct (H Samples.parser
              (Samples.integration (Samples.serving (Samples.page 404 Samples.calendar_text)))
              (Samples.page 404 Samples.calendar_text) eq_refl) as (_ & Hparse).
  specialize (Hparse eq_refl). vm_compute in Hparse. discriminate Hparse.
Qed.

Example calendar_page_is_parsed :
  get_events Samples.parser
    (Samples.integration (Samples.serving (Samples.page 200 Samples.calendar_text)))
  = Return (PDict {[ "events" := PList [
      PDict {[ "date_time" := PNone; "artist" := PNone; "venue" := PNone;
               "location" := PNone; "street_address" := PNone; "event_url" := PNone;
               "image_url" := PNone; "ticket_url" := PNone ]} ] ]}).
Proof. vm_compute. reflexivity. Qed.

Example banner_answer_404 :
  get_events Samples.parser
    (Samples.integration (Samples.serving (Samples.page 404 Samples.calendar_text)))
  = Raise (HTTPError 404).
Proof. reflexivity. Qed.

(** ** The additional details of an event page *)

Lemma price_step_returns t :
  returns (if PyStr.contains "Price:" t then
             after ← index (PyStr.split "Price: " t) 1;
             first ← index (PyStr.split " " after) 0;
             Return (PStr first)
           else Return PNone)
  ↔ ¬ label_without_space "Price:" t.
Proof.
  unfold label_without_space. change ("Price:" +:+ " ") with "Price: ".
  destruct (PyStr.contains "Price:" t).
  - rewrite returns_bind. split.
    + intros (after & Hafter & _) [_ Hno].
      assert (returns (index (PyStr.split "Price: " t) 1)) as Hret by (exists after; exact Hafter).
      apply index_split_1 in Hret; [congruence | discriminate].
    + intros Hlabel.
      destruct (PyStr.contains "Price: " t) eqn:Hsp; [| destruct Hlabel; auto].
      apply index_split_1 in Hsp as [after Hafter]; [| discriminate].
      exists after. split; [exact Hafter |].
      apply returns_last with (P := True); [| exact I].
      split; [auto | intros _; apply index_split_0; discriminate].
  - split; [intros _ [H _]; discriminate | intros _; apply returns_Return].
Qed.

Lemma doors_step_returns t :
  returns (if PyStr.contains "Doors open:" t then
             PStr <$> index (PyStr.split "Doors open: " t) 1
           else Return PNone)
  ↔ ¬ label_without_space "Doors open:" t.
Proof.
  unfold label_without_space. change ("Doors open:" +:+ " ") with "Doors open: ".
  destruct (PyStr.contains "Doors open:" t).
  - rewrite returns_fmap, index_split_1 by discriminate.
    destruct (PyStr.contains "Doors open: " t); split;
      first [ tauto | discriminate | intros _ [_ H]; discriminate
            | intros H; destruct H; auto ].
  - split; [intros _ [H _]; discriminate | intros _; apply returns_Return].
Qed.

Lemma read_additional_details_returns_iff soup :
  returns (read_additional_details soup) ↔ labels_spaced soup.
Proof.
  unfold read_additional_details, labels_spaced, details_text.
  destruct (Bs4.select_one _ soup) as [c|]; simpl.
  - transitivity (¬ label_without_space "Price:" (Bs4.get_text_strip " " c)
                  ∧ ¬ label_without_space "Doors open:" (Bs4.get_text_strip " " c)).
    + apply returns_step; [apply price_step_returns | intros price].
      apply returns_last, doors_step_returns.
    + split; [intros H t [= <-]; exact H | intros H; apply H; reflexivity].
  - split; [intros _ t [=] | intros _; apply returns_Return].
Qed.

Lemma index_raises_IndexError {A} (l : list A) i :
  raises_only (λ e, e = IndexError) (index l i).
Proof. unfold index. destruct (l !! i); intros e [= <-]; reflexivity. Qed.

Lemma read_additional_details_raises_IndexError soup :
  raises_only (λ e, e = IndexError) (read_additional_details soup).
Proof.
  unfold read_additional_details.
  destruct (Bs4.select_one _ soup) as [c|]; [| apply raises_only_Return].
  apply raises_only_bind.
  - destruct (PyStr.contains "Price:" _); [| apply raises_only_Return].
    apply raises_only_bind; [apply index_raises_IndexError | intros after].
    apply raises_only_bind; [apply index_raises_IndexError | intros first].
    apply raises_only_Return.
  - intros price. apply raises_only_bind; [| intros doors; apply raises_only_Return].
    destruct (PyStr.contains "Doors open:" _); [| apply raises_only_Return].
    apply raises_only_fmap, index_raises_IndexError.
Qed.

(** ** Event details *)

Section Details.

Variable html_parser : string → option Bs4.node.
Variable self : SongkickIntegration.
Variable event_url : string.

(** A page that was fetched and passed [raise_for_status] is handed to the
    parser; a page the parser rejects ends the call there. *)
Lemma get_event_details_rejected response :
  event_answer self event_url = Return response →
  Requests.raise_for_status response = Return tt →
  html_parser (Requests.text response) = None →
  get_event_details html_parser self event_url = Raise ParserRejectedMarkup.
Proof.
  unfold get_event_details, event_answer, BeautifulSoup. intros -> Hrs Hparse. simpl.
  rewrite Hrs. simpl. rewrite Hparse. reflexivity.
Qed.

(** On a page the parser accepts, [get_event_details] returns, or raises,
    with the reading of the additional details: no other step can raise. *)
Lemma get_event_details_returns response soup :
  event_answer self event_url = Return response →
  Requests.raise_for_status response = Return tt →
  html_parser (Requests.text response) = Some soup →
  returns (get_event_details html_parser self event_url)
  ↔ returns (read_additional_details soup).
Proof.
  unfold get_event_details, event_answer, BeautifulSoup. intros -> Hrs Hparse. simpl.
  rewrite Hrs. simpl. rewrite Hparse. simpl.
  destruct (read_additional_details soup) as [ad|e]; simpl;
    split; intros H; first [apply returns_Return | destruct (returns_Raise _ H)].
Qed.

Lemma get_event_details_raise response soup e :
  event_answer self event_url = Return response →
  Requests.raise_for_status response = Return tt →
  html_parser (Requests.text response) = Some soup →
  read_additional_details soup = Raise e →
  get_event_details html_parser self event_url = Raise e.
Proof.
  unfold get_event_details, event_answer, BeautifulSoup. intros -> Hrs Hparse Had. simpl.
  rewrite Hrs. simpl. rewrite Hparse. simpl. rewrite Had. reflexivity.
Qed.

Lemma get_event_details_raises response :
  event_answer self event_url = Return response →
  Requests.raise_for_status response = Return tt →
  raises_only (λ e, e = ParserRejectedMarkup ∨ e = IndexError)
    (get_event_details html_parser self event_url).
Proof.
  unfold get_event_details, event_answer. intros -> Hrs. simpl. rewrite Hrs. simpl.
  apply raises_only_bind.
  - eapply raises_only_weaken; [| apply BeautifulSoup_raises]. intros e ->. left. reflexivity.
  - intros soup. apply raises_only_bind; [| intros ad; apply raises_only_Return].
    eapply raises_only_weaken; [| apply read_additional_details_raises_IndexError].
    intros e ->. right. reflexivity.
Qed.

(** When the parser accepts the page, the call returns exactly when the
    labels of the additional details are spaced, and raises [IndexError]
    otherwise. *)
Lemma get_event_details_outcome response soup :
  event_answer self event_url = Return response →
  Requests.raise_for_status response = Return tt →
  html_parser (Requests.text response) = Some soup →
  (labels_spaced soup → returns (get_event_details html_parser self event_url))
  ∧ (¬ labels_spaced soup → get_event_details html_parser self event_url = Raise IndexError).
Proof.
  intros Hget Hrs Hparse. split.
  - intros Hlabels. apply (get_event_details_returns response soup Hget Hrs Hparse).
    apply read_additional_details_returns_iff, Hlabels.
  - intros Hlabels. destruct (read_additional_details soup) as [ad|e] eqn:Had.
    + destruct Hlabels. apply read_additional_details_returns_iff. exists ad. exact Had.
    + rewrite (get_event_details_raise response soup e Hget Hrs Hparse Had).
      rewrite (read_additional_details_raises_IndexError soup e Had). reflexivity.
Qed.

(** The record returned for a page whose additional details are read
    without an exception, and its [image_url] entry. *)
Lemma event_details_image_url response soup :
  event_answer self event_url = Return response →
  Requests.raise_for_status response = Return tt →
  html_parser (Requests.text response) = Some soup →
  returns (read_additional_details soup) →
  ∃ details,
    get_event_details html_parser self event_url
    = Return (PDict {[ "event_details" := PDict details ]})
    ∧ details !! "image_url"
      = Some (event_image_url (profile_image soup ≫= Bs4.get "src")).
Proof.
  unfold get_event_details, event_answer, profile_image, BeautifulSoup.
  intros -> Hrs Hparse [ad Had]. simpl.
  rewrite Hrs. simpl. rewrite Hparse. simpl. rewrite Had. simpl.
  eexists. split; [reflexivity |].
  destruct (Bs4.select_one _ _); reflexivity.
Qed.

(** C8 (amended): on an event page that was fetched, passed
    [raise_for_status] and is accepted by the parser, [get_event_details]
    returns a record exactly when each label of the additional-details block
    is absent or followed by a space. The record then has the [image_url]
    [https://example.com/huge_avatar/x.jpg] when the profile image has the
    source [//example.com/medium_avatar/x.jpg], and [None] when the page has
    no profile image element. On any other such page the call raises
    [IndexError] and no record, hence no [image_url], is returned. *)
Theorem C8_profile_image_url response soup :
  event_answer self event_url = Return response →
  Requests.raise_for_status response = Return tt →
  html_parser (Requests.text response) = Some soup →
  (labels_spaced soup →
   ∃ details,
     get_event_details html_parser self event_url
     = Return (PDict {[ "event_details" := PDict details ]})
     ∧ (∀ img,
          profile_image soup = Some img →
          Bs4.get "src" img = Some "//example.com/medium_avatar/x.jpg" →
          details !! "image_url" = Some (PStr "https://example.com/huge_avatar/x.jpg"))
     ∧ (profile_image soup = None → details !! "image_url" = Some PNone))
  ∧ (¬ labels_spaced soup →
     get_event_details html_parser self event_url = Raise IndexError).
Proof.
  intros Hget Hrs Hparse. split.
  - intros Hlabels. apply read_additional_details_returns_iff in Hlabels.
    destruct (event_details_image_url response soup Hget Hrs Hparse Hlabels)
      as (details & Hret & Himg).
    exists details. split; [exact Hret |]. split.
    + intros img Hsel Hsrc. rewrite Himg, Hsel. simpl. rewrite Hsrc. reflexivity.
    + intros Hsel. rewrite Himg, Hsel. reflexivity.
  - apply (get_event_details_outcome response soup Hget Hrs Hparse).
Qed.

End Details.

Lemma plain_pages_have_no_labels soup :
  Bs4.select_one [Bs4.SelClass "additional-details-container"] soup = None →
  labels_spaced soup.
Proof. unfold labels_spaced, details_text. intros -> t [=]. Qed.

Lemma C8_profile_image_url_witness :
  (∃ details,
     get_event_details Samples.parser
       (Samples.integration (Samples.serving (Samples.page 200 Samples.event_text)))
       "https://www.songkick.com/concerts/1"
     = Return (PDict {[ "event_details" := PDict details ]})
     ∧ details !! "image_url" = Some (PStr "https://example.com/huge_avatar/x.jpg"))
  ∧ (∃ details,
       get_event_details Samples.parser
         (Samples.integration (Samples.serving (Samples.page 200 Samples.plain_event_text)))
         "https://www.songkick.com/concerts/2"
       = Return (PDict {[ "event_details" := PDict details ]})
       ∧ details !! "image_url" = Some PNone).
Proof.
  split.
  - destruct (C8_profile_image_url Samples.parser
                (Samples.integration (Samples.serving (Samples.page 200 Samples.event_text)))
                "https://www.songkick.com/concerts/1"
                (Samples.page 200 Samples.event_text) Samples.event_page
                eq_refl eq_refl eq_refl) as (Hret & _).
    destruct (Hret (plain_pages_have_no_labels Samples.event_page eq_refl))
      as (details & Hdetails & Himg & _).
    exists details. split; [exact Hdetails |].
    exact (Himg (Samples.elem "img" [("src", "//example.com/medium_avatar/x.jpg")] [])
             eq_refl eq_refl).
  - destruct (C8_profile_image_url Samples.parser
                (Samples.integration (Samples.serving (Samples.page 200 Samples.plain_event_text)))
                "https://www.songkick.com/concerts/2"
                (Samples.page 200 Samples.plain_event_text) Samples.plain_event
                eq_refl eq_refl eq_refl) as (Hret & _).
    destruct (Hret (plain_pages_have_no_labels Samples.plain_event eq_refl))
      as (details & Hdetails & _ & Hnone).
    exists details. split; [exact Hdetails |]. exact (Hnone eq_refl).
Defined.

(** C8 as stated fails: a page whose profile image has the claimed source
    and whose additional details hold [Price:10] makes [get_event_details]
    raise [IndexError]; no record and no [image_url] is returned. *)
Lemma C8_counterexample :
  ¬ (∀ html_parser self event_url response soup img,
       event_answer self event_url = Return response →
       Requests.raise_for_status response = Return tt →
       html_parser (Requests.text response) = Some soup →
       profile_image soup = Some img →
       Bs4.get "src" img = Some "//example.com/medium_avatar/x.jpg" →
       ∃ details,
         get_event_details html_parser self event_url
         = Return (PDict {[ "event_details" := PDict details ]})
         ∧ details !! "image_url" = Some (PStr "https://example.com/huge_avatar/x.jpg")).
Proof.
  intros H.
  destruct (H MoreSamples.parser
              (Samples.integration
                 (Samples.serving (Samples.page 200 MoreSamples.priced_image_text)))
              "https://www.songkick.com/concerts/5"
              (Samples.page 200 MoreSamples.priced_image_text) MoreSamples.priced_image_page
              (Samples.elem "img" [("src", "//example.com/medium_avatar/x.jpg")] [])
              eq_refl eq_refl eq_refl eq_refl eq_refl) as (details & Hret & _).
  assert (get_event_details MoreSamples.parser
            (Samples.integration
               (Samples.serving (Samples.page 200 MoreSamples.priced_image_text)))
            "https://www.songkick.com/concerts/5" = Raise IndexError) as Hraise
    by (vm_compute; reflexivity).
  rewrite Hraise in Hret. discriminate Hret.
Qed.

Example priced_image_page_raises :
  get_event_details MoreSamples.parser
    (Samples.integration (Samples.serving (Samples.page 200 MoreSamples.priced_image_text)))
    "https://www.songkick.com/concerts/5"
  = Raise IndexError.
Proof. vm_compute. reflexivity. Qed.

(** A no-break space after the label is stripped with the rest of the
    surrounding whitespace, so the label ends the text and the split has no
    second piece. *)
Example doors_nbsp_page_raises :
  details_text MoreSamples.doors_nbsp_page = Some "Doors open:"
  ∧ get_event_details MoreSamples.parser
      (Samples.integration (Samples.serving (Samples.page 200 MoreSamples.doors_nbsp_text)))
      "https://www.songkick.com/concerts/6"
    = Raise IndexError.
Proof. split; vm_compute; reflexivity. Qed.

(** A string that holds whitespace only is left out of the joined text: the
    two halves of the label meet with one space between them. *)
Example split_label_page_raises :
  details_text MoreSamples.split_label_page = Some "Doors open:"
  ∧ get_event_details MoreSamples.parser
      (Samples.integration (Samples.serving (Samples.page 200 MoreSamples.split_label_text)))
      "https://www.songkick.com/concerts/8"
    = Raise IndexError.
Proof. split; vm_compute; reflexivity. Qed.

Example rejected_markup_raises :
  get_event_details Samples.parser
    (Samples.integration (Samples.serving (Samples.page 200 Samples.rejected_text)))
    "https://www.songkick.com/concerts/7"
  = Raise ParserRejectedMarkup.
Proof. vm_compute. reflexivity. Qed.

(** ** When the extraction steps return *)

Lemma getitem_returns t key : returns (getitem (Some t) key) ↔ has_attr key t.
Proof.
  unfold getitem, has_attr. destruct (Bs4.get key t) as [v|]; split.
  - intros _. eexists; reflexivity.
  - intros _. apply returns_Return.
  - intros H. destruct (returns_Raise _ H).
  - intros [v Hv]. discriminate.
Qed.

Lemma getitem_None_raises key : ¬ returns (getitem None key).
Proof. apply returns_Raise. Qed.

Lemma attr_if_found_returns event name attrs key :
  returns (attr_if_found event name attrs key)
  ↔ ∀ t, Bs4.find name attrs event = Some t → has_attr key t.
Proof.
  unfold attr_if_found. destruct (Bs4.find name attrs event) as [t|].
  - rewrite returns_fmap, getitem_returns. split; [intros H t' [= <-]; exact H | eauto].
  - split; [intros _ t [=] | intros _; apply returns_Return].
Qed.

Lemma index_returns {A} (l : list A) i : returns (index l i) ↔ (i < length l)%nat.
Proof.
  unfold index. destruct (l !! i) as [x|] eqn:Hl; split.
  - intros _. eapply lookup_lt_Some, Hl.
  - intros _. apply returns_Return.
  - intros H. destruct (returns_Raise _ H).
  - intros Hlt. apply lookup_lt_is_Some_2 in Hlt as [x Hx]. congruence.
Qed.

(** *** Event rows *)

Lemma artist_step_returns (artist_tag : option Bs4.node) :
  returns (match artist_tag with
           | Some _ =>
               strong ← find_on artist_tag "strong" [];
               PStr <$> text_of strong
           | None => Return PNone
           end)
  ↔ ∀ p, artist_tag = Some p → is_Some (Bs4.find "strong" [] p).
Proof.
  destruct artist_tag as [p|]; simpl.
  - destruct (Bs4.find "strong" [] p) as [s|] eqn:Hs; simpl; split.
    + intros _ p' [= <-]. rewrite Hs. eauto.
    + intros _. apply returns_Return.
    + intros H. destruct (returns_Raise _ H).
    + intros H. destruct (H p eq_refl) as [s Hs']. congruence.
  - split; [intros _ p [=] | intros _; apply returns_Return].
Qed.

Lemma venue_name_step_returns (venue_tag : option Bs4.node) :
  returns (match venue_tag with
           | Some _ =>
               span ← find_on venue_tag "span" (Bs4.class_ "venue-name");
               t ← text_of span;
               Return (PStr (PyStr.strip t))
           | None => Return PNone
           end)
  ↔ ∀ v, venue_tag = Some v → is_Some (Bs4.find "span" (Bs4.class_ "venue-name") v).
Proof.
  destruct venue_tag as [v|]; simpl.
  - destruct (Bs4.find "span" (Bs4.class_ "venue-name") v) as [s|] eqn:Hs; simpl; split.
    + intros _ v' [= <-]. rewrite Hs. eauto.
    + intros _. apply returns_Return.
    + intros H. destruct (returns_Raise _ H).
    + intros H. destruct (H v eq_refl) as [s Hs']. congruence.
  - split; [intros _ v [=] | intros _; apply returns_Return].
Qed.

Lemma city_state_step_returns (venue_tag : option Bs4.node) :
  returns (match venue_tag with
           | Some v =>
               span ← index (Bs4.find_all "span" [] v) 1;
               Return (PStr (PyStr.strip (Bs4.text span)))
           | None => Return PNone
           end)
  ↔ ∀ v, venue_tag = Some v → (2 ≤ length (Bs4.find_all "span" [] v))%nat.
Proof.
  destruct venue_tag as [v|].
  - rewrite (returns_last _ _ _ (index_returns _ _)).
    split; [intros H v' [= <-]; exact H | intros H; apply H; reflexivity].
  - split; [intros _ v [=] | intros _; apply returns_Return].
Qed.

Lemma event_record_returns event : returns (event_record event) ↔ row_complete event.
Proof.
  unfold event_record, row_complete.
  apply returns_step; [apply attr_if_found_returns | intros date_time].
  apply returns_step; [apply artist_step_returns | intros artist_name].
  apply returns_step; [apply venue_name_step_returns | intros venue_name].
  apply returns_step; [apply city_state_step_returns | intros city_state].
  apply returns_step; [apply attr_if_found_returns | intros event_url].
  apply returns_step; [apply attr_if_found_returns | intros image_url].
  apply returns_last, attr_if_found_returns.
Qed.

(** *** Result items *)

Lemma getitem_opt_returns t key :
  returns (getitem t key) ↔ ∃ n, t = Some n ∧ has_attr key n.
Proof.
  destruct t as [n|].
  - rewrite getitem_returns. split; [eauto | intros (n' & [= <-] & H); exact H].
  - split; [intros H; destruct (getitem_None_raises _ H) | intros (n & [=] & _)].
Qed.

Lemma input_value_returns form name :
  returns (input_value (Some form) name)
  ↔ ∃ input, Bs4.find "input" [("name", Bs4.MatchStr name)] form = Some input
             ∧ has_attr "value" input.
Proof.
  unfold input_value. simpl. rewrite returns_fmap. apply getitem_opt_returns.
Qed.

Lemma form_complete_unfold form :
  form_complete form
  ↔ has_attr "action" form
    ∧ (∃ input, Bs4.find "input" [("name", Bs4.MatchStr "authenticity_token")] form = Some input
                ∧ has_attr "value" input)
    ∧ (∃ input, Bs4.find "input" [("name", Bs4.MatchStr "relationship_type")] form = Some input
                ∧ has_attr "value" input)
    ∧ (∃ input, Bs4.find "input" [("name", Bs4.MatchStr "subject_type")] form = Some input
                ∧ has_attr "value" input)
    ∧ (∃ input, Bs4.find "input" [("name", Bs4.MatchStr "success_url")] form = Some input
                ∧ has_attr "value" input).
Proof.
  unfold form_complete. split.
  - intros (Haction & Hinputs).
    repeat split; try exact Haction; apply Hinputs; set_solver.
  - intros (Haction & H1 & H2 & H3 & H4). split; [exact Haction |].
    intros name Hin.
    repeat (apply elem_of_cons in Hin as [-> | Hin]; [assumption |]).
    apply elem_of_nil in Hin. destruct Hin.
Qed.

Lemma read_track_form_returns li :
  returns (read_track_form li)
  ↔ ∀ form,
      Bs4.find "form" [("data-analytics-category", Bs4.MatchStr "track_metro_area_button")] li
      = Some form →
      form_complete form.
Proof.
  unfold read_track_form.
  destruct (Bs4.find "form" _ li) as [form|].
  - transitivity (form_complete form);
      [| split; [intros H f [= <-]; exact H | intros H; apply H; reflexivity]].
    rewrite form_complete_unfold.
    apply returns_step; [apply getitem_returns | intros action].
    apply returns_step; [apply input_value_returns | intros authenticity_token].
    apply returns_step; [apply input_value_returns | intros relationship_type].
    apply returns_step; [apply input_value_returns | intros subject_type].
    apply returns_last, input_value_returns.
  - split; [intros _ f [=] | intros _; apply returns_Return].
Qed.

Lemma location_record_returns li : returns (location_record li) ↔ item_complete li.
Proof.
  unfold location_record, item_complete.
  destruct (Bs4.find "p" (Bs4.class_ "summary") li) as [summary|]; simpl;
    [destruct (Bs4.find "a" (Bs4.class_ "search-link") summary) as [summary_link|] eqn:Hsl;
     simpl |].
  - transitivity
      ((∃ n, Bs4.find "a" (Bs4.class_ "search-link") li = Some n ∧ has_attr "data-id" n)
       ∧ (∃ n, Bs4.find "a" (Bs4.class_ "search-link") li = Some n ∧ has_attr "href" n)
       ∧ ∀ form,
           Bs4.find "form"
             [("data-analytics-category", Bs4.MatchStr "track_metro_area_button")] li
           = Some form →
           form_complete form).
    + apply returns_step; [apply getitem_opt_returns | intros metro_id].
      apply returns_step; [apply getitem_opt_returns | intros href].
      apply returns_last, read_track_form_returns.
    + split.
      * intros ((n & Hn & Hid) & (n' & Hn' & Hhref) & Hform).
        split; [exists summary, summary_link; split; [reflexivity | exact Hsl] |].
        split; [| exact Hform].
        exists n. rewrite Hn in Hn'. injection Hn' as <-. eauto.
      * intros (_ & (n & Hn & Hid & Hhref) & Hform). eauto 10.
  - split; [intros H; destruct (returns_Raise _ H) |].
    intros ((summary' & summary_link & [= <-] & Hsl') & _). congruence.
  - split; [intros H; destruct (returns_Raise _ H) |].
    intros ((summary' & summary_link & [=] & _) & _).
Qed.

(** *** Whole pages *)

Lemma get_events_loop_returns rows events :
  returns (for_each rows get_events_body events) ↔ Forall row_complete rows.
Proof.
  revert events. induction rows as [|event rows IH]; intros events; simpl.
  - split; [intros _; constructor | intros _; apply returns_Return].
  - rewrite Forall_cons, <- event_record_returns. unfold get_events_body.
    destruct (event_record event) as [record|e]; simpl.
    + rewrite IH.
      split; [intros H; split; [apply returns_Return | exact H] | intros [_ H]; exact H].
    + split; [intros H; destruct (returns_Raise _ H) | intros [H _]; destruct (returns_Raise _ H)].
Qed.

Lemma parse_events_returns html_parser page :
  returns (parse_events html_parser page)
  ↔ ∃ rows, event_rows html_parser page = Some rows ∧ Forall row_complete rows.
Proof.
  unfold parse_events, event_rows, BeautifulSoup.
  destruct (html_parser page) as [soup|]; simpl.
  - rewrite returns_bind. split.
    + intros (st & Hst & _). eexists. split; [reflexivity |].
      apply (get_events_loop_returns _ []). exists st. exact Hst.
    + intros (rows & [= <-] & Hrows).
      apply (get_events_loop_returns _ []) in Hrows as [st Hst].
      exists st. split; [exact Hst |]. destruct st; apply returns_Return.
  - split; [intros H; destruct (returns_Raise _ H) | intros (rows & [=] & _)].
Qed.

Lemma search_loop_returns items :
  returns (st ← for_each items search_location_body [];
           match st with
           | Returned v => Return v
           | Next _ => Return PNone
           end)
  ↔ ∀ li rest, items = li :: rest → item_complete li.
Proof.
  destruct items as [|li rest]; simpl.
  - split; [intros _ li rest [=] | intros _; apply returns_Return].
  - unfold search_location_body.
    transitivity (returns (location_record li)).
    + destruct (location_record li) as [record|e]; simpl;
        split; intros H; first [apply returns_Return | destruct (returns_Raise _ H)].
    + rewrite location_record_returns.
      split; [intros H li' rest' [= <- <-]; exact H | intros H; apply (H li rest); reflexivity].
Qed.

Lemma search_loop_raises items :
  raises_only extraction_error
    (st ← for_each items search_location_body [];
     match st with
     | Returned v => Return v
     | Next _ => Return PNone
     end).
Proof.
  apply raises_only_bind.
  - apply for_each_raises. intros li results. unfold search_location_body.
    apply raises_only_bind; [apply location_record_raises | intros ?; apply raises_only_Return].
  - intros [results|v]; apply raises_only_Return.
Qed.

Lemma search_extraction_raises html_parser text :
  raises_only page_error
    (soup ← BeautifulSoup html_parser text;
     st ← for_each (Bs4.find_all "li" (Bs4.class_ "small-city") soup) search_location_body [];
     match st with
     | Returned v => Return v
     | Next _ => Return PNone
     end).
Proof.
  apply raises_only_bind.
  - eapply raises_only_weaken; [| apply BeautifulSoup_raises]. intros e ->. left. reflexivity.
  - intros soup. eapply raises_only_weaken; [| apply search_loop_raises].
    intros e He. right. exact He.
Qed.

(** The loop over a non-empty list of items ends in its first round. *)
Lemma search_loop_first li rest :
  (st ← for_each (li :: rest) search_location_body [];
   match st with
   | Returned v => Return v
   | Next _ => Return PNone
   end)
  = (record ← location_record li; Return (PDict {[ "locations" := PList [record] ]})).
Proof.
  simpl. unfold search_location_body. destruct (location_record li); reflexivity.
Qed.

(** ** The first result item *)

Section FirstItem.

Variable html_parser : string → option Bs4.node.
Variable self : SongkickIntegration.
Variable location_name : string.

(** C6 (amended): on a search page that was fetched, passed
    [raise_for_status] and holds at least one small-city item, a page with
    the no-results marker raises the 404 exception; on a page without it the
    outcome is that of the first item alone, whatever items follow: when the
    first item carries everything that is read from it, [search_location]
    returns a [locations] list of exactly one record, the first item's;
    otherwise it raises the [AttributeError], [TypeError] or [KeyError] of
    reading the first item, and nothing is returned. *)
Theorem C6_only_first_item_is_processed response li rest :
  locations_answer self location_name = Return response →
  Requests.raise_for_status response = Return tt →
  small_city_items html_parser response = Some (li :: rest) →
  (PyStr.contains no_results_marker (Requests.text response) = true →
   search_location html_parser self location_name
   = Raise (HTTPException 404 ("No results found for " +:+ location_name)))
  ∧ (PyStr.contains no_results_marker (Requests.text response) = false →
     search_location html_parser self location_name
     = (record ← location_record li; Return (PDict {[ "locations" := PList [record] ]}))
     ∧ (item_complete li →
        ∃ record,
          location_record li = Return record
          ∧ search_location html_parser self location_name
            = Return (PDict {[ "locations" := PList [record] ]}))
     ∧ (¬ item_complete li →
        ∃ e,
          lookup_error e
          ∧ location_record li = Raise e
          ∧ search_location html_parser self location_name = Raise e)).
Proof.
  intros Hget Hrs Hitems. split.
  - intros Hmark.
    rewrite (search_location_after_fetch html_parser self location_name response Hget Hrs).
    rewrite Hmark. reflexivity.
  - intros Hmark.
    rewrite (search_location_extracts html_parser self location_name response (li :: rest)
               Hget Hrs Hmark Hitems).
    rewrite search_loop_first. split; [reflexivity |].
    destruct (location_record li) as [record|e] eqn:Hrecord; simpl.
    + split.
      * intros _. exists record. split; reflexivity.
      * intros Hbad. destruct Hbad. apply location_record_returns. exists record. exact Hrecord.
    + split.
      * intros Hok. apply location_record_returns in Hok as [record Hrec]. congruence.
      * intros _. exists e. split; [| split; reflexivity].
        exact (location_record_raises_lookup li e Hrecord).
Qed.

End FirstItem.

Lemma C6_only_first_item_is_processed_witness :
  ∃ record,
    location_record (Samples.city_item "24426" "London, UK") = Return record
    ∧ search_location Samples.parser
        (Samples.integration (Samples.serving (Samples.page 200 Samples.two_cities_text)))
        "London"
      = Return (PDict {[ "locations" := PList [record] ]}).
Proof.
  destruct (C6_only_first_item_is_processed Samples.parser
              (Samples.integration (Samples.serving (Samples.page 200 Samples.two_cities_text)))
              "London" (Samples.page 200 Samples.two_cities_text)
              (Samples.city_item "24426" "London, UK")
              [Samples.city_item "27837" "London, Canada"]
              eq_refl eq_refl eq_refl) as (_ & Hfirst).
  destruct (Hfirst eq_refl) as (_ & Hcomplete & _).
  apply Hcomplete. apply location_record_returns. eexists. vm_compute. reflexivity.
Defined.

(** C6 as stated fails: a page with one small-city item that has no summary
    paragraph makes [search_location] raise [AttributeError]; no list of one
    record is returned. *)
Lemma C6_counterexample :
  ¬ (∀ html_parser self location_name response li rest,
       locations_answer self location_name = Return response →
       Requests.raise_for_status response = Return tt →
       small_city_items html_parser response = Some (li :: rest) →
       ∃ record,
         search_location html_parser self location_name
         = Return (PDict {[ "locations" := PList [record] ]})).
Proof.
  intros H.
  destruct (H Samples.parser
              (Samples.integration (Samples.serving (Samples.page 200 Samples.bare_item_text)))
              "London" (Samples.page 200 Samples.bare_item_text)
              (Samples.elem "li" [("class", "small-city")] []) []
              eq_refl eq_refl eq_refl) as (record & Hret).
  assert (search_location Samples.parser
            (Samples.integration (Samples.serving (Samples.page 200 Samples.bare_item_text)))
            "London" = Raise AttributeError) as Hraise by (vm_compute; reflexivity).
  rewrite Hraise in Hret. discriminate Hret.
Qed.

(** ** The extractors and missing elements *)

Section Extractors.

Variable html_parser : string → option Bs4.node.
Variable self : SongkickIntegration.

Lemma search_location_returns location_name response :
  locations_answer self location_name = Return response →
  Requests.raise_for_status response = Return tt →
  returns (search_location html_parser self location_name)
  ↔ PyStr.contains no_results_marker (Requests.text response) = false
    ∧ ∃ items, small_city_items html_parser response = Some items
               ∧ ∀ li rest, items = li :: rest → item_complete li.
Proof.
  intros Hget Hrs.
  destruct (PyStr.contains no_results_marker (Requests.text response)) eqn:Hmark.
  - rewrite (search_location_after_fetch html_parser self location_name response Hget Hrs).
    rewrite Hmark. split; [intros H; destruct (returns_Raise _ H) | intros [[=] _]].
  - destruct (small_city_items html_parser response) as [items|] eqn:Hitems.
    + rewrite (search_location_extracts html_parser self location_name response items
                 Hget Hrs Hmark Hitems).
      rewrite search_loop_returns. split.
      * intros H. split; [reflexivity |]. exists items. split; [reflexivity | exact H].
      * intros (_ & items' & [= <-] & H). exact H.
    + rewrite (search_location_rejected html_parser self location_name response Hget Hrs Hmark).
      * split; [intros H; destruct (returns_Raise _ H) | intros (_ & items & [=] & _)].
      * unfold small_city_items in Hitems.
        destruct (html_parser (Requests.text response)); [discriminate | reflexivity].
Qed.

Lemma search_location_raises location_name response :
  locations_answer self location_name = Return response →
  Requests.raise_for_status response = Return tt →
  raises_only
    (λ e, e = HTTPException 404 ("No results found for " +:+ location_name) ∨ page_error e)
    (search_location html_parser self location_name).
Proof.
  intros Hget Hrs.
  rewrite (search_location_after_fetch html_parser self location_name response Hget Hrs).
  destruct (PyStr.contains no_results_marker (Requests.text response)).
  - intros e [= <-]. left. reflexivity.
  - eapply raises_only_weaken; [| apply search_extraction_raises].
    intros e He. right. exact He.
Qed.

Lemma get_events_returns response :
  calendar_answer self = Return response →
  Requests.raise_for_status response = Return tt →
  returns (get_events html_parser self)
  ↔ (Requests.status_code response = 200
     ∨ PyStr.contains tracked_banner (Requests.text response) = true)
    ∧ ∃ rows, event_rows html_parser (Requests.text response) = Some rows
              ∧ Forall row_complete rows.
Proof.
  intros Hget Hrs.
  rewrite (get_events_after_fetch html_parser self response Hget Hrs).
  destruct (Requests.status_code response =? 200) eqn:Hst;
    [apply Z.eqb_eq in Hst | apply Z.eqb_neq in Hst];
    destruct (PyStr.contains tracked_banner (Requests.text response)); simpl.
  1-3: rewrite parse_events_returns;
    split; [intros H; split; [auto | exact H] | intros [_ H]; exact H].
  split; [intros H; destruct (returns_Raise _ H) |].
  intros [[H | [=]] _]. contradiction.
Qed.

Lemma get_events_raises response :
  calendar_answer self = Return response →
  Requests.raise_for_status response = Return tt →
  raises_only
    (λ e, e = HTTPException (Requests.status_code response) "Failed to fetch concert events"
          ∨ page_error e)
    (get_events html_parser self).
Proof.
  intros Hget Hrs.
  rewrite (get_events_after_fetch html_parser self response Hget Hrs).
  destruct (negb _ && negb _).
  - intros e [= <-]. left. reflexivity.
  - eapply raises_only_weaken; [| apply parse_events_raises]. intros e He. right. exact He.
Qed.

Lemma get_event_details_returns_iff event_url response :
  event_answer self event_url = Return response →
  Requests.raise_for_status response = Return tt →
  returns (get_event_details html_parser self event_url)
  ↔ ∃ soup, html_parser (Requests.text response) = Some soup ∧ labels_spaced soup.
Proof.
  intros Hget Hrs. destruct (html_parser (Requests.text response)) as [soup|] eqn:Hparse.
  - rewrite (get_event_details_returns html_parser self event_url response soup
               Hget Hrs Hparse), read_additional_details_returns_iff.
    split; [intros H; exists soup; auto | intros (soup' & [= <-] & H); exact H].
  - rewrite (get_event_details_rejected html_parser self event_url response Hget Hrs Hparse).
    split; [intros H; destruct (returns_Raise _ H) | intros (soup & [=] & _)].
Qed.

(** C4 (amended): on a page that was fetched, passed [raise_for_status] and
    is accepted by the parser, an extractor returns when the only elements
    missing are those the code probes before use, and raises for what it
    reads without a probe. [search_location] returns exactly when the marker
    is absent and the first small-city item, if any, is complete.
    [get_events] returns exactly when the status is 200 or the banner is
    present, and every event row is complete. [get_event_details] returns
    exactly when each label of the additional-details block is absent or
    followed by a space. What they raise otherwise is one of the two banner
    exceptions, the parser's rejection of the markup, or an
    [AttributeError], [TypeError], [KeyError] or [IndexError]. *)
Theorem C4_extractors_raise_only_for_unprobed_reads :
  (∀ location_name response,
     locations_answer self location_name = Return response →
     Requests.raise_for_status response = Return tt →
     (returns (search_location html_parser self location_name)
      ↔ PyStr.contains no_results_marker (Requests.text response) = false
        ∧ ∃ items, small_city_items html_parser response = Some items
                   ∧ ∀ li rest, items = li :: rest → item_complete li)
     ∧ ∀ e, search_location html_parser self location_name = Raise e →
            e = HTTPException 404 ("No results found for " +:+ location_name)
            ∨ e = ParserRejectedMarkup
            ∨ extraction_error e)
  ∧ (∀ response,
       calendar_answer self = Return response →
       Requests.raise_for_status response = Return tt →
       (returns (get_events html_parser self)
        ↔ (Requests.status_code response = 200
           ∨ PyStr.contains tracked_banner (Requests.text response) = true)
          ∧ ∃ rows, event_rows html_parser (Requests.text response) = Some rows
                    ∧ Forall row_complete rows)
       ∧ ∀ e, get_events html_parser self = Raise e →
              e = HTTPException (Requests.status_code response)
                    "Failed to fetch concert events"
              ∨ e = ParserRejectedMarkup
              ∨ extraction_error e)
  ∧ (∀ event_url response,
       event_answer self event_url = Return response →
       Requests.raise_for_status response = Return tt →
       (returns (get_event_details html_parser self event_url)
        ↔ ∃ soup, html_parser (Requests.text response) = Some soup ∧ labels_spaced soup)
       ∧ ∀ e, get_event_details html_parser self event_url = Raise e →
              e = ParserRejectedMarkup ∨ e = IndexError).
Proof.
  split; [| split].
  - intros location_name response Hget Hrs.
    split; [apply (search_location_returns location_name response Hget Hrs) |].
    exact (search_location_raises location_name response Hget Hrs).
  - intros response Hget Hrs.
    split; [apply (get_events_returns response Hget Hrs) |].
    exact (get_events_raises response Hget Hrs).
  - intros event_url response Hget Hrs.
    split; [apply (get_event_details_returns_iff event_url response Hget Hrs) |].
    exact (get_event_details_raises html_parser self event_url response Hget Hrs).
Qed.

End Extractors.

(** C4 as stated fails: a result item without a summary paragraph makes
    [search_location] raise [AttributeError] on a page that the parser
    accepts and that has no no-results marker. *)
Lemma C4_counterexample :
  ¬ (∀ html_parser self location_name response,
       locations_answer self location_name = Return response →
       Requests.raise_for_status response = Return tt →
       is_Some (html_parser (Requests.text response)) →
       PyStr.contains no_results_marker (Requests.text response) = false →
       returns (search_location html_parser self location_name)).
Proof.
  intros H.
  destruct (H Samples.parser
              (Samples.integration (Samples.serving (Samples.page 200 Samples.bare_item_text)))
              "London" (Samples.page 200 Samples.bare_item_text) eq_refl eq_refl
              (mk_is_Some _ _ eq_refl) eq_refl)
    as [v Hv].
  vm_compute in Hv. discriminate Hv.
Qed.

Example bare_item_raises :
  search_location Samples.parser
    (Samples.integration (Samples.serving (Samples.page 200 Samples.bare_item_text))) "London"
  = Raise AttributeError.
Proof. reflexivity. Qed.

Example price_without_space_raises :
  get_event_details Samples.parser
    (Samples.integration (Samples.serving (Samples.page 200 Samples.price_text)))
    "https://www.songkick.com/concerts/3"
  = Raise IndexError.
Proof. reflexivity. Qed.

Lemma C4_extractors_raise_only_for_unprobed_reads_witness :
  (PyStr.contains no_results_marker Samples.two_cities_text = false
   ∧ ∃ items,
       small_city_items Samples.parser (Samples.page 200 Samples.two_cities_text) = Some items
       ∧ ∀ li rest, items = li :: rest → item_complete li)
  ∧ (∃ rows, event_rows Samples.parser Samples.calendar_text = Some rows
             ∧ Forall row_complete rows)
  ∧ returns (get_event_details Samples.parser
               (Samples.integration (Samples.serving (Samples.page 200 Samples.plain_event_text)))
               "https://www.songkick.com/concerts/2").
Proof.
  split; [| split].
  - destruct (C4_extractors_raise_only_for_unprobed_reads Samples.parser
                (Samples.integration (Samples.serving (Samples.page 200 Samples.two_cities_text))))
      as (Hsearch & _ & _).
    destruct (Hsearch "London" (Samples.page 200 Samples.two_cities_text) eq_refl eq_refl)
      as [Hiff _].
    apply Hiff. eexists. vm_compute. reflexivity.
  - destruct (C4_extractors_raise_only_for_unprobed_reads Samples.parser
                (Samples.integration (Samples.serving (Samples.page 200 Samples.calendar_text))))
      as (_ & Hevents & _).
    destruct (Hevents (Samples.page 200 Samples.calendar_text) eq_refl eq_refl) as [Hiff _].
    apply Hiff. eexists. vm_compute. reflexivity.
  - destruct (C4_extractors_raise_only_for_unprobed_reads Samples.parser
                (Samples.integration
                   (Samples.serving (Samples.page 200 Samples.plain_event_text))))
      as (_ & _ & Hdetails).
    destruct (Hdetails "https://www.songkick.com/concerts/2"
                (Samples.page 200 Samples.plain_event_text) eq_refl eq_refl) as [Hret _].
    apply Hret. exists Samples.plain_event. split; [reflexivity |].
    apply plain_pages_have_no_labels. reflexivity.
Defined.

Example two_cities_first_only :
  search_location Samples.parser
    (Samples.integration (Samples.serving (Samples.page 200 Samples.two_cities_text))) "London"
  = Return (PDict {[ "locations" := PList [
      PDict {[ "name" := PStr "London, UK";
               "subject_id" := PStr "24426";
               "url" := PStr "https://www.songkick.com/metro-areas/24426";
               "track_url" := PNone;
               "authenticity_token" := PNone;
               "relationship_type" := PNone;
               "subject_type" := PNone;
               "success_url" := PNone ]} ] ]}).
Proof. vm_compute. reflexivity. Qed.

Example untrack_targets_subpath :
  trackings_url
    {| Models.authenticity_token := "tok"; Models.relationship_type := "tracking";
       Models.subject_id := "24426"; Models.subject_type := "MetroArea";
       Models.success_url := "/"; Models.untrack := Some true |}
  = "https://www.songkick.com/trackings/untrack"
  ∧ trackings_url Samples.request = "https://www.songkick.com/trackings".
Proof. split; reflexivity. Qed.

Example not_found_is_classified :
  _handle_response Samples.repr_of (Samples.integration Samples.offline)
    (Samples.json_response 400 (Return Samples.not_found_body))
  = Raise (IntegrationAPIError "songkick" "Resource not found." 400 (PInt 7)).
Proof. reflexivity. Qed.

Example undecodable_500_is_translated :
  _handle_response Samples.repr_of (Samples.integration Samples.offline)
    (Samples.json_response 500 (Raise JSONDecodeError))
  = Raise (IntegrationAPIError "songkick"
             "Downstream server error (translated to HTTP 501): Unknown error" 501
             (PStr "500")).
Proof. reflexivity. Qed.

(** * Further properties *)

(** ** The classifier on every response *)

Section ClassifierOutcomes.

Variable py_repr : pyval → string.
Variable self : SongkickIntegration.

Lemma readable_dec body :
  (∃ msg code, readable body msg code) ∨ (∀ msg code, ¬ readable body msg code).
Proof.
  destruct body as [| b | z | s | l | m]; try solve [right; intros msg code H; inversion H].
  destruct (m !! "error") as [v|] eqn:Hm.
  - destruct v as [| b | z | s | l | e];
      try solve [right; intros msg code H; inversion H; congruence].
    left. eexists _, _. apply readable_error, Hm.
  - left. eexists _, _. apply readable_no_error, Hm.
Qed.

Lemma outside_range status :
  ¬ in_success_range status → (200 <=? status) && (status <? 204) = false.
Proof.
  unfold in_success_range. intros H.
  destruct (200 <=? status) eqn:Hlo; [apply Z.leb_le in Hlo | reflexivity].
  destruct (status <? 204) eqn:Hhi; [apply Z.ltb_lt in Hhi; lia | reflexivity].
Qed.

Lemma inside_range status :
  in_success_range status → (200 <=? status) && (status <? 204) = true.
Proof.
  unfold in_success_range. intros [Hlo Hhi].
  apply Z.leb_le in Hlo. apply Z.ltb_lt in Hhi. rewrite Hlo, Hhi. reflexivity.
Qed.

Lemma in_success_range_dec status : in_success_range status ∨ ¬ in_success_range status.
Proof. unfold in_success_range. lia. Qed.

Lemma unreadable_raises status body :
  ¬ in_success_range status →
  (∀ msg code, ¬ readable body msg code) →
  _handle_response py_repr self (Samples.json_response status (Return body))
  = Raise AttributeError.
Proof.
  intros Hout Hbody. unfold _handle_response. simpl. rewrite (outside_range _ Hout).
  destruct body as [| b | z | s | l | m]; try reflexivity.
  simpl. destruct (m !! "error") as [v|] eqn:Hm.
  - destruct v as [| b | z | s | l | e]; try reflexivity.
    destruct (Hbody _ _ (readable_error m e Hm)).
  - destruct (Hbody _ _ (readable_no_error m Hm)).
Qed.

(** What is raised for a body the classifier can read. *)
Lemma readable_raises status body msg code :
  ¬ in_success_range status →
  readable body msg code →
  ∃ e,
    _handle_response py_repr self (Samples.json_response status (Return body)) = Raise e
    ∧ match e with
      | IntegrationAuthError _ reported downstream =>
          status = 401 ∧ reported = 401
          ∧ downstream = default (PStr (pretty status)) code
      | IntegrationAPIError name _ reported downstream =>
          name = integration_name self ∧ status ≠ 401
          ∧ reported = (if decide (status = 500) then 501 else status)
          ∧ downstream = default (PStr (pretty status)) code
      | _ => False
      end.
Proof.
  intros Hout Hbody. unfold _handle_response. simpl. rewrite (outside_range _ Hout).
  assert (dict_get body "error" (PDict ∅) ≫= (λ error, dict_get error "message" (PStr "Unknown error"))
          = Return msg
          ∧ dict_get body "error" (PDict ∅) ≫= (λ error, dict_get error "code" (PStr (pretty status)))
            = Return (default (PStr (pretty status)) code)) as [Hmsg Hcode].
  { destruct Hbody as [m Hm | m e Hm]; simpl; rewrite Hm; simpl; split; reflexivity. }
  destruct (dict_get body "error" (PDict ∅)) as [error|e0]; [| discriminate Hmsg].
  simpl in Hmsg, Hcode. simpl. rewrite Hmsg. simpl. rewrite Hcode. simpl.
  destruct (status =? 401) eqn:H401; [apply Z.eqb_eq in H401 | apply Z.eqb_neq in H401].
  { eexists. split; [reflexivity |]. simpl. auto. }
  destruct (status =? 400) eqn:H400; [apply Z.eqb_eq in H400 | apply Z.eqb_neq in H400].
  { destruct (eq_str msg "Resource not found."); eexists; (split; [reflexivity |]); simpl;
      repeat split; auto; case_decide; lia. }
  destruct (status =? 500) eqn:H500; [apply Z.eqb_eq in H500 | apply Z.eqb_neq in H500];
    eexists; (split; [reflexivity |]); simpl; repeat split; auto; case_decide; lia.
Qed.

(** The body the classifier works on. *)
Lemma handle_response_on_effective_body (response : Aiohttp.ClientResponse) :
  _handle_response py_repr self response
  = _handle_response py_repr self
      (Samples.json_response (Aiohttp.status response)
         (Return (match Aiohttp.json response with
                  | Return body => body
                  | Raise _ => synthesized (Aiohttp.status response)
                  end))).
Proof. destruct response as [status [body|e]]; reflexivity. Qed.

(** X1: the classifier returns exactly when the status is 200, 201, 202 or
    203 (204 and every other 2xx status are errors), and what it returns is
    the decoded body, or, when the body cannot be decoded, the synthesized
    error dictionary. *)
Theorem X1_returns_exactly_in_success_range (response : Aiohttp.ClientResponse) :
  (returns (_handle_response py_repr self response)
   ↔ in_success_range (Aiohttp.status response))
  ∧ ∀ v, _handle_response py_repr self response = Return v →
         v = match Aiohttp.json response with
             | Return body => body
             | Raise _ => synthesized (Aiohttp.status response)
             end.
Proof.
  rewrite handle_response_on_effective_body.
  set (body := match Aiohttp.json response with
               | Return body => body
               | Raise _ => synthesized (Aiohttp.status response)
               end).
  destruct (in_success_range_dec (Aiohttp.status response)) as [Hin | Hout].
  - rewrite (success_returns_body py_repr self _ body Hin).
    split; [split; [intros _; exact Hin | intros _; apply returns_Return] |].
    intros v [= <-]. reflexivity.
  - assert (∃ e, _handle_response py_repr self
                   (Samples.json_response (Aiohttp.status response) (Return body))
                 = Raise e) as [e He].
    { destruct (readable_dec body) as [(msg & code & Hr) | Hnr].
      - destruct (readable_raises _ _ _ _ Hout Hr) as (e & He & _). eauto.
      - rewrite (unreadable_raises _ _ Hout Hnr). eauto. }
    rewrite He. split; [| discriminate].
    split; [intros H; destruct (returns_Raise _ H) | contradiction].
Qed.

(** X2: whatever the classifier raises is an authentication error (only at
    status 401, reported as 401), an API error (never at status 401; it
    carries the integration's name and reports the original status, except
    that 500 is reported as 501, so that 500 is never reported), or an
    [AttributeError] (only for a body that was decoded). *)
Theorem X2_raises_typed_or_attribute_error (response : Aiohttp.ClientResponse) e :
  _handle_response py_repr self response = Raise e →
  match e with
  | IntegrationAuthError _ reported _ =>
      Aiohttp.status response = 401 ∧ reported = 401
  | IntegrationAPIError name _ reported _ =>
      name = integration_name self
      ∧ Aiohttp.status response ≠ 401
      ∧ reported ≠ 500
      ∧ reported = (if decide (Aiohttp.status response = 500) then 501
                    else Aiohttp.status response)
  | AttributeError => ∃ body, Aiohttp.json response = Return body
  | _ => False
  end.
Proof.
  rewrite handle_response_on_effective_body.
  destruct (in_success_range_dec (Aiohttp.status response)) as [Hin | Hout].
  { rewrite (success_returns_body py_repr self _ _ Hin). discriminate. }
  destruct (Aiohttp.json response) as [body|e0] eqn:Hjson.
  - destruct (readable_dec body) as [(msg & code & Hr) | Hnr].
    + destruct (readable_raises _ _ _ _ Hout Hr) as (e' & -> & He'). intros [= <-].
      destruct e'; try solve [destruct He'].
      * destruct He' as (H1 & H2 & _). auto.
      * destruct He' as (H1 & H2 & H3 & _). repeat split; auto.
        rewrite H3. case_decide; lia.
    + rewrite (unreadable_raises _ _ Hout Hnr). intros [= <-]. eauto.
  - destruct (readable_raises _ _ _ _ Hout (synthesized_readable (Aiohttp.status response)))
      as (e' & -> & He'). intros [= <-].
    destruct e'; try solve [destruct He'].
    + destruct He' as (H1 & H2 & _). auto.
    + destruct He' as (H1 & H2 & H3 & _). repeat split; auto.
      rewrite H3. case_decide; lia.
Qed.

(** X3: the classifier raises [AttributeError] exactly when the status is
    outside [200, 204) and the body was decoded to something other than an
    object whose [error] member is absent or an object. *)
Theorem X3_attribute_error_exactly_when (response : Aiohttp.ClientResponse) :
  _handle_response py_repr self response = Raise AttributeError
  ↔ ¬ in_success_range (Aiohttp.status response)
    ∧ ∃ body, Aiohttp.json response = Return body
              ∧ ∀ msg code, ¬ readable body msg code.
Proof.
  rewrite handle_response_on_effective_body. split.
  - intros Hraise.
    destruct (in_success_range_dec (Aiohttp.status response)) as [Hin | Hout].
    { rewrite (success_returns_body py_repr self _ _ Hin) in Hraise. discriminate. }
    split; [exact Hout |].
    destruct (Aiohttp.json response) as [body|e0].
    + exists body. split; [reflexivity |]. intros msg code Hr.
      destruct (readable_raises _ _ _ _ Hout Hr) as (e' & He' & Hkind).
      rewrite He' in Hraise. injection Hraise as ->. exact Hkind.
    + destruct (readable_raises _ _ _ _ Hout
                  (synthesized_readable (Aiohttp.status response))) as (e' & He' & Hkind).
      rewrite He' in Hraise. injection Hraise as ->. destruct Hkind.
  - intros (Hout & body & -> & Hnr). apply (unreadable_raises _ _ Hout Hnr).
Qed.

(** X4: a body that cannot be decoded never makes the classifier fail
    internally. With a status in [200, 204) the synthesized error dictionary
    is returned as the payload of a success; otherwise a typed error is
    raised whose message is built from "Unknown error" and whose downstream
    code is the status as a string. In particular 204 No Content is an API
    error. *)
Theorem X4_undecodable_body_outcome (response : Aiohttp.ClientResponse) e0 :
  Aiohttp.json response = Raise e0 →
  let status := Aiohttp.status response in
  let name := integration_name self in
  let code := PStr (pretty status) in
  (in_success_range status →
   _handle_response py_repr self response = Return (synthesized status))
  ∧ (status = 401 →
     _handle_response py_repr self response
     = Raise (IntegrationAuthError (name +:+ ": Unknown error") 401 code))
  ∧ (status = 400 →
     _handle_response py_repr self response
     = Raise (IntegrationAPIError name "Bad request: Unknown error" 400 code))
  ∧ (status = 500 →
     _handle_response py_repr self response
     = Raise (IntegrationAPIError name
                "Downstream server error (translated to HTTP 501): Unknown error" 501 code))
  ∧ (¬ in_success_range status → status ≠ 401 → status ≠ 400 → status ≠ 500 →
     _handle_response py_repr self response
     = Raise (IntegrationAPIError name
                ("Unknown error (HTTP " +:+ pretty status +:+ ")") status code)).
Proof.
  destruct response as [status json]. simpl. intros ->.
  unfold _handle_response. simpl.
  repeat split.
  - intros Hin. rewrite (inside_range _ Hin). reflexivity.
  - intros ->. reflexivity.
  - intros ->. reflexivity.
  - intros ->. reflexivity.
  - intros Hout H401 H400 H500. rewrite (outside_range _ Hout). simpl.
    apply Z.eqb_neq in H401, H400, H500. rewrite H401, H400, H500. reflexivity.
Qed.

End ClassifierOutcomes.

Lemma X2_raises_typed_or_attribute_error_witness :
  Aiohttp.status (Samples.json_response 500 (Return MoreSamples.expired_body)) ≠ 401
  ∧ (501 : Z) ≠ 500.
Proof.
  destruct (X2_raises_typed_or_attribute_error Samples.repr_of
              (Samples.integration Samples.offline)
              (Samples.json_response 500 (Return MoreSamples.expired_body))
              (IntegrationAPIError "songkick"
                 "Downstream server error (translated to HTTP 501): Token expired" 501
                 (PStr "500"))
              eq_refl) as (_ & Hstatus & Hreported & _).
  split; [exact Hstatus | exact Hreported].
Defined.

Lemma X4_undecodable_body_outcome_witness :
  _handle_response Samples.repr_of (Samples.integration Samples.offline)
    (Samples.json_response 204 (Raise JSONDecodeError))
  = Raise (IntegrationAPIError "songkick" "Unknown error (HTTP 204)" 204 (PStr "204"))
  ∧ _handle_response Samples.repr_of (Samples.integration Samples.offline)
      (Samples.json_response 200 (Raise JSONDecodeError))
    = Return (synthesized 200).
Proof.
  destruct (X4_undecodable_body_outcome Samples.repr_of
              (Samples.integration Samples.offline)
              (Samples.json_response 204 (Raise JSONDecodeError)) JSONDecodeError eq_refl)
    as (_ & _ & _ & _ & Hother).
  destruct (X4_undecodable_body_outcome Samples.repr_of
              (Samples.integration Samples.offline)
              (Samples.json_response 200 (Raise JSONDecodeError)) JSONDecodeError eq_refl)
    as (Hsuccess & _).
  split.
  - apply Hother; unfold in_success_range; simpl; lia.
  - apply Hsuccess. unfold in_success_range. simpl. lia.
Defined.

(** ** The JSON call path *)

Section JsonCalls.

Context {R : Type}.
Variable py_repr : pyval → string.
Variable client : AiohttpClient.
Variable self : Created R.
Variables method url response_key : string.


(** X6: without a requester, [generic_make_request] asks the default client
    and classifies the answer: the client's exception propagates; an answer
    with a status in [200, 204) gives a dictionary with the one key and the
    decoded (or synthesized) body as payload; any other answer raises what
    the classifier raises. *)
Theorem X6_default_client_is_classified :
  network_requester self = None →
  let asked := client method url {[ "headers" := _setup_headers (instance self) ]} in
  (∀ e, asked = Raise e →
        generic_make_request py_repr client self method url response_key = Raise e)
  ∧ (∀ response,
       asked = Return response →
       (in_success_range (Aiohttp.status response) →
        generic_make_request py_repr client self method url response_key
        = Return {[ response_key :=
                      Payload (match Aiohttp.json response with
                               | Return body => body
                               | Raise _ => synthesized (Aiohttp.status response)
                               end) ]})
       ∧ (¬ in_success_range (Aiohttp.status response) →
          ∃ e, _handle_response py_repr (instance self) response = Raise e
               ∧ generic_make_request py_repr client self method url response_key
                 = Raise e)).
Proof.
  intros Hrq. unfold generic_make_request, _make_request. rewrite Hrq. simpl.
  split.
  - intros e ->. reflexivity.
  - intros response ->. simpl. split.
    + intros Hin.
      rewrite handle_response_on_effective_body,
        (success_returns_body py_repr (instance self) _ _ Hin).
      reflexivity.
    + intros Hout.
      destruct (_handle_response py_repr (instance self) response) as [v|e] eqn:Hh.
      * assert (returns (_handle_response py_repr (instance self) response)) as Hret
          by (rewrite Hh; apply returns_Return).
        rewrite handle_response_on_effective_body in Hret.
        destruct (readable_dec
                    (match Aiohttp.json response with
                     | Return body => body
                     | Raise _ => synthesized (Aiohttp.status response)
                     end)) as [(msg & code & Hr) | Hnr].
        -- destruct (readable_raises py_repr (instance self) _ _ _ _ Hout Hr)
             as (e' & He' & _).
           rewrite He' in Hret. destruct (returns_Raise _ Hret).
        -- rewrite (unreadable_raises py_repr (instance self) _ _ Hout Hnr) in Hret.
           destruct (returns_Raise _ Hret).
      * exists e. split; reflexivity.
Qed.

End JsonCalls.


Lemma X6_default_client_is_classified_witness :
  generic_make_request Samples.repr_of
    (MoreSamples.answering (Samples.json_response 201 (Return MoreSamples.expired_body)))
    (MoreSamples.created None)
    "GET" "https://www.songkick.com/api" "data"
  = Return {[ "data" := Payload MoreSamples.expired_body ]}.
Proof.
  destruct (X6_default_client_is_classified Samples.repr_of
              (MoreSamples.answering
                 (Samples.json_response 201 (Return MoreSamples.expired_body)))
              (MoreSamples.created None)
              "GET" "https://www.songkick.com/api" "data" eq_refl) as (_ & Hanswer).
  destruct (Hanswer (Samples.json_response 201 (Return MoreSamples.expired_body)) eq_refl)
    as (Hin & _).
  apply Hin. unfold in_success_range. simpl. lia.
Defined.

(** ** Failures before a page is read *)

Lemma raise_for_status_error response :
  400 ≤ Requests.status_code response < 600 →
  Requests.raise_for_status response = Raise (HTTPError (Requests.status_code response)).
Proof.
  intros [Hlo Hhi]. unfold Requests.raise_for_status.
  apply Z.leb_le in Hlo. apply Z.ltb_lt in Hhi. rewrite Hlo, Hhi. reflexivity.
Qed.

(** X7: the three GET operations let the exception of the session through
    unchanged, and on an answer with status 400 to 599 raise the HTTP
    client's [HTTPError] with that status whatever the page holds (the
    no-results marker or the banner included). *)
Theorem X7_get_operations_fail_before_reading html_parser self location_name event_url :
  (∀ e, locations_answer self location_name = Raise e →
        search_location html_parser self location_name = Raise e)
  ∧ (∀ e, calendar_answer self = Raise e → get_events html_parser self = Raise e)
  ∧ (∀ e, event_answer self event_url = Raise e →
          get_event_details html_parser self event_url = Raise e)
  ∧ (∀ response,
       400 ≤ Requests.status_code response < 600 →
       (locations_answer self location_name = Return response →
        search_location html_parser self location_name
        = Raise (HTTPError (Requests.status_code response)))
       ∧ (calendar_answer self = Return response →
          get_events html_parser self = Raise (HTTPError (Requests.status_code response)))
       ∧ (event_answer self event_url = Return response →
          get_event_details html_parser self event_url
          = Raise (HTTPError (Requests.status_code response)))).
Proof.
  unfold locations_answer, calendar_answer, event_answer.
  split; [| split; [| split]].
  - intros e He. unfold search_location. rewrite He. reflexivity.
  - intros e He. unfold get_events. rewrite He. reflexivity.
  - intros e He. unfold get_event_details. rewrite He. reflexivity.
  - intros response Hstatus. apply raise_for_status_error in Hstatus.
    split; [| split]; intros Hget.
    + unfold search_location. rewrite Hget. simpl. rewrite Hstatus. reflexivity.
    + unfold get_events. rewrite Hget. simpl. rewrite Hstatus. reflexivity.
    + unfold get_event_details. rewrite Hget. simpl. rewrite Hstatus. reflexivity.
Qed.

(** X8: the two [HTTPException]s are raised only for answers whose own status
    is not an error status. [search_location] raises one only with status
    code 404, only when the marker is in the text, and never for an answer
    with status 400 to 599; [get_events] raises one only with the status of
    the answer, which is then neither 200 nor in 400 to 599, and only when
    the banner is absent. *)
Theorem X8_http_exception_provenance html_parser self location_name :
  (∀ response status detail,
     locations_answer self location_name = Return response →
     search_location html_parser self location_name = Raise (HTTPException status detail) →
     status = 404
     ∧ detail = "No results found for " +:+ location_name
     ∧ PyStr.contains no_results_marker (Requests.text response) = true
     ∧ ¬ (400 ≤ Requests.status_code response < 600))
  ∧ (∀ response status detail,
       calendar_answer self = Return response →
       get_events html_parser self = Raise (HTTPException status detail) →
       status = Requests.status_code response
       ∧ detail = "Failed to fetch concert events"
       ∧ PyStr.contains tracked_banner (Requests.text response) = false
       ∧ status ≠ 200
       ∧ ¬ (400 ≤ status < 600)).
Proof.
  split.
  - intros response status detail Hget Hraise.
    destruct (Requests.raise_for_status response) as [[]|e] eqn:Hrs.
    + rewrite (search_location_after_fetch html_parser self location_name response Hget Hrs)
        in Hraise.
      destruct (PyStr.contains no_results_marker (Requests.text response)).
      * injection Hraise as <- <-. repeat split. apply raise_for_status_passes, Hrs.
      * apply search_extraction_raises, page_error_not_http in Hraise. destruct Hraise.
    + exfalso. unfold locations_answer in Hget. unfold search_location in Hraise.
      rewrite Hget in Hraise. simpl in Hraise. rewrite Hrs in Hraise. simpl in Hraise.
      unfold Requests.raise_for_status in Hrs.
      destruct ((400 <=? Requests.status_code response)
                && (Requests.status_code response <? 600)); congruence.
  - intros response status detail Hget Hraise.
    destruct (Requests.raise_for_status response) as [[]|e] eqn:Hrs.
    + rewrite (get_events_after_fetch html_parser self response Hget Hrs) in Hraise.
      destruct (Requests.status_code response =? 200) eqn:Hst;
        [apply Z.eqb_eq in Hst | apply Z.eqb_neq in Hst];
        destruct (PyStr.contains tracked_banner (Requests.text response));
        simpl in Hraise;
        try solve [apply parse_events_raises, page_error_not_http in Hraise; destruct Hraise].
      injection Hraise as <- <-. repeat split; [exact Hst |].
      apply raise_for_status_passes, Hrs.
    + exfalso. unfold calendar_answer in Hget. unfold get_events in Hraise.
      rewrite Hget in Hraise. simpl in Hraise. rewrite Hrs in Hraise. simpl in Hraise.
      unfold Requests.raise_for_status in Hrs.
      destruct ((400 <=? Requests.status_code response)
                && (Requests.status_code response <? 600)); congruence.
Qed.

(** ** Track / untrack, once the request has been answered *)

(** X9: when the POST has answered, [track_untrack_location] raises nothing,
    and what it returns is [{status: ok}], [{status: failed}] or the decoded
    JSON body of the answer. *)
Theorem X9_track_untrack_results self request response :
  trackings_answer self request = Return response →
  track_untrack_location self request = Return status_ok
  ∨ track_untrack_location self request = Return status_failed
  ∨ ∃ body, Requests.json response = Return body
            ∧ track_untrack_location self request = Return body.
Proof.
  unfold trackings_answer, track_untrack_location. intros ->. simpl.
  destruct (Requests.raise_for_status response) as [[]|e]; simpl; [| auto].
  destruct (Requests.status_code response =? 200); simpl; [| auto].
  destruct (PyStr.contains status_ok_fragment (Requests.text response)); simpl; [| auto].
  destruct (Requests.json response) as [body|e]; simpl; eauto.
Qed.

(** X10: every answer with a status other than 200 gives [{status: failed}]:
    201, 204 and redirects as well as the error statuses, which
    [raise_for_status] turns into an exception that is absorbed. The body is
    not looked at. *)
Theorem X10_only_status_200_can_succeed self request response :
  trackings_answer self request = Return response →
  Requests.status_code response ≠ 200 →
  track_untrack_location self request = Return status_failed.
Proof.
  unfold trackings_answer, track_untrack_location. intros -> Hne. simpl.
  destruct (Requests.raise_for_status response) as [[]|e]; simpl; [| reflexivity].
  apply Z.eqb_neq in Hne. rewrite Hne. reflexivity.
Qed.

Lemma X8_http_exception_provenance_witness :
  ¬ (400 ≤ Requests.status_code (Samples.page 200 Samples.no_results_text) < 600)
  ∧ (204 : Z) ≠ 200.
Proof.
  destruct (X8_http_exception_provenance Samples.parser
              (Samples.integration (Samples.serving (Samples.page 200 Samples.no_results_text)))
              "Atlantis") as (Hsearch & _).
  destruct (X8_http_exception_provenance Samples.parser
              (Samples.integration
                 (Samples.serving (Samples.page 204 Samples.empty_results_text)))
              "Atlantis") as (_ & Hevents).
  split.
  - exact (proj2 (proj2 (proj2
             (Hsearch (Samples.page 200 Samples.no_results_text) 404
                "No results found for Atlantis" eq_refl eq_refl)))).
  - exact (proj1 (proj2 (proj2 (proj2
             (Hevents (Samples.page 204 Samples.empty_results_text) 204
                "Failed to fetch concert events" eq_refl eq_refl))))).
Defined.

Lemma X9_track_untrack_results_witness :
  track_untrack_location (Samples.integration (Samples.serving Samples.ack_json_ok))
    Samples.request = Return status_ok
  ∨ track_untrack_location (Samples.integration (Samples.serving Samples.ack_json_ok))
      Samples.request = Return status_failed
  ∨ ∃ body, Requests.json Samples.ack_json_ok = Return body
            ∧ track_untrack_location
                (Samples.integration (Samples.serving Samples.ack_json_ok)) Samples.request
              = Return body.
Proof.
  exact (X9_track_untrack_results
           (Samples.integration (Samples.serving Samples.ack_json_ok)) Samples.request
           Samples.ack_json_ok eq_refl).
Defined.

Lemma X10_only_status_200_can_succeed_witness :
  track_untrack_location
    (Samples.integration (Samples.serving (Samples.page 404 Samples.no_results_text)))
    Samples.request
  = Return status_failed.
Proof.
  apply (X10_only_status_200_can_succeed
           (Samples.integration (Samples.serving (Samples.page 404 Samples.no_results_text)))
           Samples.request (Samples.page 404 Samples.no_results_text) eq_refl).
  simpl. lia.
Defined.

(** ** Result items *)

Lemma read_track_form_fields li tf :
  read_track_form li = Return tf →
  match tracking_form li with
  | None =>
      track_url tf = PNone ∧ tf_authenticity_token tf = PNone
      ∧ tf_relationship_type tf = PNone ∧ tf_subject_type tf = PNone
      ∧ tf_success_url tf = PNone
  | Some form =>
      (∃ action, Bs4.get "action" form = Some action
                 ∧ track_url tf = PStr (site +:+ action))
      ∧ (∃ value, input_value (Some form) "authenticity_token" = Return (PStr value)
                  ∧ tf_authenticity_token tf = PStr value)
      ∧ (∃ value, input_value (Some form) "relationship_type" = Return (PStr value)
                  ∧ tf_relationship_type tf = PStr value)
      ∧ (∃ value, input_value (Some form) "subject_type" = Return (PStr value)
                  ∧ tf_subject_type tf = PStr value)
      ∧ (∃ value, input_value (Some form) "success_url" = Return (PStr value)
                  ∧ tf_success_url tf = PStr value)
  end.
Proof.
  unfold read_track_form, tracking_form.
  destruct (Bs4.find "form" _ li) as [form|].
  - intros H.
    apply bind_Return_inv in H as (action & Haction & H).
    apply bind_Return_inv in H as (v1 & H1 & H).
    apply bind_Return_inv in H as (v2 & H2 & H).
    apply bind_Return_inv in H as (v3 & H3 & H).
    apply bind_Return_inv in H as (v4 & H4 & H).
    injection H as <-. simpl.
    assert (∀ name v, input_value (Some form) name = Return v → ∃ value, v = PStr value)
      as Hstr.
    { intros name v Hv. unfold input_value in Hv. simpl in Hv.
      destruct (getitem _ "value") as [value|e]; [| discriminate].
      injection Hv as <-. eauto. }
    destruct (Hstr _ _ H1) as [s1 ->], (Hstr _ _ H2) as [s2 ->],
      (Hstr _ _ H3) as [s3 ->], (Hstr _ _ H4) as [s4 ->].
    unfold getitem in Haction. destruct (Bs4.get "action" form) as [a|]; [| discriminate].
    injection Haction as <-.
    split; [exists a; split; reflexivity |].
    repeat split; eexists; (split; [eassumption | reflexivity]).
  - intros [= <-]. simpl. auto.
Qed.

Lemma input_value_reads form name value :
  input_value (Some form) name = Return (PStr value) →
  ∃ input, Bs4.find "input" [("name", Bs4.MatchStr name)] form = Some input
           ∧ Bs4.get "value" input = Some value.
Proof.
  unfold input_value, find_on, getitem. simpl.
  destruct (Bs4.find "input" _ form) as [input|]; simpl; [| discriminate].
  destruct (Bs4.get "value" input) as [v|] eqn:Hv; simpl; [| discriminate].
  intros [= <-]. exists input. split; [reflexivity | exact Hv].
Qed.

(** X11: in the record of a result item the five tracking entries go
    together. Without a tracking form all five are [None]; with one all five
    are strings: [track_url] is the site origin followed by the form's
    action, and each of the other four is the value of the form's input of
    that name. *)
Theorem X11_tracking_entries_all_or_none li record :
  location_record li = Return record →
  ∃ m, record = PDict m
       ∧ match tracking_form li with
         | None =>
             ∀ key, key ∈ ["track_url"; "authenticity_token"; "relationship_type";
                           "subject_type"; "success_url"] →
                    m !! key = Some PNone
         | Some form =>
             (∃ action, Bs4.get "action" form = Some action
                        ∧ m !! "track_url" = Some (PStr (site +:+ action)))
             ∧ ∀ name, name ∈ ["authenticity_token"; "relationship_type";
                               "subject_type"; "success_url"] →
                       ∃ input value,
                         Bs4.find "input" [("name", Bs4.MatchStr name)] form = Some input
                         ∧ Bs4.get "value" input = Some value
                         ∧ m !! name = Some (PStr value)
         end.
Proof.
  unfold location_record. intros H.
  apply bind_Return_inv in H as (summary_link & _ & H).
  apply bind_Return_inv in H as (summary_text & _ & H).
  apply bind_Return_inv in H as (metro_id & _ & H).
  apply bind_Return_inv in H as (href & _ & H).
  apply bind_Return_inv in H as (tf & Htf & H).
  injection H as <-. eexists. split; [reflexivity |].
  apply read_track_form_fields in Htf.
  destruct (tracking_form li) as [form|].
  - destruct Htf as ((action & Haction & ->) & (v1 & H1 & ->) & (v2 & H2 & ->)
                     & (v3 & H3 & ->) & (v4 & H4 & ->)).
    split; [exists action; split; [exact Haction | reflexivity] |].
    intros name Hin.
    apply input_value_reads in H1 as (i1 & Hi1 & Hv1).
    apply input_value_reads in H2 as (i2 & Hi2 & Hv2).
    apply input_value_reads in H3 as (i3 & Hi3 & Hv3).
    apply input_value_reads in H4 as (i4 & Hi4 & Hv4).
    repeat (apply elem_of_cons in Hin as [-> | Hin];
            [eexists _, _; (split; [eassumption |]); (split; [eassumption |]);
             reflexivity |]).
    apply elem_of_nil in Hin. destruct Hin.
  - destruct Htf as (-> & -> & -> & -> & ->).
    intros key Hin.
    repeat (apply elem_of_cons in Hin as [-> | Hin]; [reflexivity |]).
    apply elem_of_nil in Hin. destruct Hin.
Qed.

Lemma X11_tracking_entries_all_or_none_witness :
  ∃ m, MoreSamples.trackable_record = PDict m
       ∧ match tracking_form MoreSamples.trackable_item with
         | None =>
             ∀ key, key ∈ ["track_url"; "authenticity_token"; "relationship_type";
                           "subject_type"; "success_url"] →
                    m !! key = Some PNone
         | Some form =>
             (∃ action, Bs4.get "action" form = Some action
                        ∧ m !! "track_url" = Some (PStr (site +:+ action)))
             ∧ ∀ name, name ∈ ["authenticity_token"; "relationship_type";
                               "subject_type"; "success_url"] →
                       ∃ input value,
                         Bs4.find "input" [("name", Bs4.MatchStr name)] form = Some input
                         ∧ Bs4.get "value" input = Some value
                         ∧ m !! name = Some (PStr value)
         end.
Proof.
  apply (X11_tracking_entries_all_or_none MoreSamples.trackable_item).
  vm_compute. reflexivity.
Defined.

(** ** The search URL *)

Lemma replace_space_by_plus s : PyStr.replace " " "+" s = plus_for_space s.
Proof.
  unfold PyStr.replace. induction s as [|c s IH]; [reflexivity |].
  cbn [PyStr.replace_from plus_for_space PyStr.startswith].
  change (Ascii.ascii_of_nat 32) with (Ascii.Ascii false false false false false true false false).
  destruct (decide (Ascii.Ascii false false false false false true false false = c))
    as [<- | Hne].
  - rewrite decide_True by reflexivity. cbn. rewrite IH. reflexivity.
  - rewrite IH. rewrite decide_False by congruence. reflexivity.
Qed.

(** X12: the search URL carries the location name with every space turned
    into a plus sign and no other character changed or escaped; a name
    without a space is inserted as it is. *)
Theorem X12_search_url_only_replaces_spaces location_name :
  get_locations_url location_name
  = "https://www.songkick.com/search?utf8=%E2%9C%93&type=locations&query="
    +:+ plus_for_space location_name +:+ "&commit=Search"
  ∧ String.length (plus_for_space location_name) = String.length location_name
  ∧ (PyStr.contains " " location_name = false → plus_for_space location_name = location_name).
Proof.
  unfold get_locations_url. rewrite replace_space_by_plus.
  split; [reflexivity |]. split.
  - induction location_name as [|c s IH]; simpl; [reflexivity | rewrite IH; reflexivity].
  - induction location_name as [|c s IH]; [reflexivity |].
    cbn [PyStr.contains PyStr.startswith plus_for_space].
    change (Ascii.ascii_of_nat 32)
      with (Ascii.Ascii false false false false false true false false).
    destruct (decide (Ascii.Ascii false false false false false true false false = c))
      as [<- | Hne].
    + cbn. discriminate.
    + intros Hc. rewrite orb_false_l in Hc. rewrite (IH Hc).
      rewrite decide_False by congruence. reflexivity.
Qed.

(** ** Event rows and the list of events *)

Lemma get_events_loop_records rows events st :
  for_each rows get_events_body events = Return st →
  ∃ records, st = Next (events ++ records)
             ∧ Forall2 (λ row record, event_record row = Return record) rows records.
Proof.
  revert events. induction rows as [|row rows IH]; intros events; simpl.
  - intros [= <-]. exists []. rewrite List.app_nil_r. split; [reflexivity | constructor].
  - intros Hrest.
    apply bind_Return_inv in Hrest as (st' & Hbody & Hrest).
    unfold get_events_body in Hbody.
    apply bind_Return_inv in Hbody as (record & Hrow & Hbody).
    injection Hbody as <-.
    apply IH in Hrest as (records & -> & Hall).
    exists (record :: records). rewrite <- app_assoc. split; [reflexivity |].
    constructor; assumption.
Qed.

(** X13: when [get_events] returns, it returns a dictionary with the one
    key [events] whose list holds exactly one record per title-carrying list
    item of the page, in page order: the record [event_record] builds for
    that row. *)
Theorem X13_one_record_per_row html_parser self response v :
  calendar_answer self = Return response →
  get_events html_parser self = Return v →
  ∃ rows records,
    event_rows html_parser (Requests.text response) = Some rows
    ∧ v = PDict {[ "events" := PList records ]}
    ∧ length records = length rows
    ∧ Forall2 (λ row record, event_record row = Return record) rows records.
Proof.
  intros Hget Hv.
  destruct (Requests.raise_for_status response) as [[]|e] eqn:Hrs.
  - rewrite (get_events_after_fetch html_parser self response Hget Hrs) in Hv.
    destruct (negb (Requests.status_code response =? 200)
              && negb (PyStr.contains tracked_banner (Requests.text response)));
      [discriminate |].
    unfold parse_events in Hv.
    apply bind_Return_inv in Hv as (soup & Hsoup & Hv).
    apply BeautifulSoup_returns in Hsoup.
    apply bind_Return_inv in Hv as (st & Hloop & Hv).
    apply get_events_loop_records in Hloop as (records & -> & Hall).
    injection Hv as <-. eexists _, records.
    split; [unfold event_rows; rewrite Hsoup; reflexivity |].
    split; [reflexivity |]. split; [symmetry; eapply Forall2_length, Hall | exact Hall].
  - unfold calendar_answer in Hget. unfold get_events in Hv.
    rewrite Hget in Hv. simpl in Hv. rewrite Hrs in Hv. discriminate.
Qed.

Lemma attr_if_found_entry prefix event name attrs key o :
  attr_if_found event name attrs key = Return o →
  url_entry prefix (Bs4.find name attrs event) key (Some (prefixed_if prefix o)).
Proof.
  unfold attr_if_found, getitem, url_entry.
  destruct (Bs4.find name attrs event) as [t|]; simpl.
  - destruct (Bs4.get key t) as [value|]; simpl; [| discriminate].
    intros [= <-]. exists value. split; reflexivity.
  - intros [= <-]. reflexivity.
Qed.

Lemma incomplete_row_raises event :
  ¬ row_complete event → ∃ e, event_record event = Raise e ∧ extraction_error e.
Proof.
  intros Hbad. destruct (event_record event) as [record|e] eqn:Hrow.
  - destruct Hbad. apply event_record_returns. exists record. exact Hrow.
  - exists e. split; [reflexivity | exact (event_record_raises event e Hrow)].
Qed.

(** X14: in the record of an event row, [event_url] and [ticket_url] are
    the site origin followed by the [href] of the row's first link and of its
    buy-tickets link, and [image_url] is [https:] followed by the [src] of
    its first image; each is [None] when the row has no such element, and
    when the attribute is empty (never the bare prefix). A row in which one
    of the three elements is there without its attribute has no record:
    [event_record] raises. *)
Theorem X14_row_urls_absolute_or_none event :
  (∀ record,
     event_record event = Return record →
     ∃ m, record = PDict m
          ∧ url_entry site (Bs4.find "a" [] event) "href" (m !! "event_url")
          ∧ url_entry "https:" (Bs4.find "img" [] event) "src" (m !! "image_url")
          ∧ url_entry site (Bs4.find "a" (Bs4.class_ "button buy-tickets") event) "href"
              (m !! "ticket_url"))
  ∧ (∀ found key t,
       (found, key) ∈ url_sources event →
       found = Some t →
       Bs4.get key t = None →
       ∃ e, event_record event = Raise e ∧ extraction_error e).
Proof.
  split.
  - unfold event_record. intros record H.
    apply bind_Return_inv in H as (date_time & _ & H).
    apply bind_Return_inv in H as (artist_name & _ & H).
    apply bind_Return_inv in H as (venue_name & _ & H).
    apply bind_Return_inv in H as (city_state & _ & H).
    apply bind_Return_inv in H as (event_url & Hurl & H).
    apply bind_Return_inv in H as (image_url & Himg & H).
    apply bind_Return_inv in H as (ticket_url & Hticket & H).
    injection H as <-. eexists. split; [reflexivity |].
    split; [| split]; eapply attr_if_found_entry; eassumption.
  - intros found key t Hin Hfound Hattr. apply incomplete_row_raises.
    intros (_ & _ & _ & _ & Ha & Himg & Hticket).
    unfold url_sources in Hin.
    apply elem_of_cons in Hin as [[= -> ->] | Hin];
      [apply Ha in Hfound as [value Hvalue]; congruence |].
    apply elem_of_cons in Hin as [[= -> ->] | Hin];
      [apply Himg in Hfound as [value Hvalue]; congruence |].
    apply elem_of_cons in Hin as [[= -> ->] | Hin];
      [apply Hticket in Hfound as [value Hvalue]; congruence |].
    apply elem_of_nil in Hin. destruct Hin.
Qed.

Lemma X13_one_record_per_row_witness :
  ∃ records,
    length records = 2%nat
    ∧ get_events MoreSamples.parser
        (Samples.integration (Samples.serving (Samples.page 200 MoreSamples.two_rows_text)))
      = Return (PDict {[ "events" := PList records ]}).
Proof.
  destruct (get_events MoreSamples.parser
              (Samples.integration
                 (Samples.serving (Samples.page 200 MoreSamples.two_rows_text))))
    as [v|e] eqn:Hv; [| vm_compute in Hv; discriminate Hv].
  destruct (X13_one_record_per_row MoreSamples.parser
              (Samples.integration
                 (Samples.serving (Samples.page 200 MoreSamples.two_rows_text)))
              (Samples.page 200 MoreSamples.two_rows_text) v eq_refl Hv)
    as (rows & records & Hrows & -> & Hlen & _).
  exists records. split; [| reflexivity].
  vm_compute in Hrows. injection Hrows as <-. exact Hlen.
Defined.

Lemma X14_row_urls_absolute_or_none_witness :
  (∃ m,
     event_record MoreSamples.row_with_empty_href = Return (PDict m)
     ∧ m !! "event_url" = Some PNone
     ∧ m !! "image_url" = Some (PStr "https://images.sk-static.com/x.jpg")
     ∧ m !! "ticket_url" = Some PNone)
  ∧ ∃ e, event_record MoreSamples.row_without_href = Raise e ∧ extraction_error e.
Proof.
  split.
  - destruct (event_record MoreSamples.row_with_empty_href) as [record|e] eqn:Hrow;
      [| vm_compute in Hrow; discriminate Hrow].
    destruct (X14_row_urls_absolute_or_none MoreSamples.row_with_empty_href) as [Hentries _].
    destruct (Hentries record Hrow) as (m & -> & Hurl & Himg & Hticket).
    exists m. split; [reflexivity |]. split; [| split].
    + destruct (Bs4.find "a" [] MoreSamples.row_with_empty_href) as [a|] eqn:Ha;
        [| vm_compute in Ha; discriminate Ha].
      vm_compute in Ha. injection Ha as <-.
      destruct Hurl as (value & Hattr & Hentry).
      vm_compute in Hattr. injection Hattr as <-. exact Hentry.
    + destruct (Bs4.find "img" [] MoreSamples.row_with_empty_href) as [i|] eqn:Hi;
        [| vm_compute in Hi; discriminate Hi].
      vm_compute in Hi. injection Hi as <-.
      destruct Himg as (value & Hattr & Hentry).
      vm_compute in Hattr. injection Hattr as <-. exact Hentry.
    + destruct (Bs4.find "a" (Bs4.class_ "button buy-tickets") MoreSamples.row_with_empty_href)
        as [a|] eqn:Ha; [vm_compute in Ha; discriminate Ha |].
      exact Hticket.
  - destruct (X14_row_urls_absolute_or_none MoreSamples.row_without_href) as [_ Hraise].
    apply (Hraise (Bs4.find "a" [] MoreSamples.row_without_href) "href"
             (Samples.elem "a" [] [])).
    + apply elem_of_cons. left. reflexivity.
    + vm_compute. reflexivity.
    + reflexivity.
Defined.

Example row_without_href_raises :
  event_record MoreSamples.row_without_href = Raise (KeyError "href").
Proof. vm_compute. reflexivity. Qed.

(** ** What an event page can make the extractor raise *)

(** X15: on a page that was fetched and passed [raise_for_status],
    [get_event_details] returns exactly when the parser accepts the page
    and, in the text of the additional-details block if there is one, each
    of the labels [Price:] and [Doors open:] is absent or somewhere followed
    by a space. It raises the parser's exception exactly when the parser
    rejects the page, and [IndexError] exactly when the parser accepts the
    page and one of the labels occurs but never followed by a space. It
    raises nothing else: no other missing element makes it raise. *)
Theorem X15_event_details_raise_exactly_when html_parser self event_url response :
  event_answer self event_url = Return response →
  Requests.raise_for_status response = Return tt →
  (returns (get_event_details html_parser self event_url)
   ↔ ∃ soup, html_parser (Requests.text response) = Some soup ∧ labels_spaced soup)
  ∧ (get_event_details html_parser self event_url = Raise ParserRejectedMarkup
     ↔ html_parser (Requests.text response) = None)
  ∧ (get_event_details html_parser self event_url = Raise IndexError
     ↔ ∃ soup, html_parser (Requests.text response) = Some soup ∧ ¬ labels_spaced soup)
  ∧ ∀ e, get_event_details html_parser self event_url = Raise e →
         e = ParserRejectedMarkup ∨ e = IndexError.
Proof.
  intros Hget Hrs.
  split; [apply (get_event_details_returns_iff html_parser self event_url response Hget Hrs) |].
  split; [| split;
    [| exact (get_event_details_raises html_parser self event_url response Hget Hrs)]].
  - destruct (html_parser (Requests.text response)) as [soup|] eqn:Hparse.
    + split; [| discriminate]. intros Hraise. exfalso.
      destruct (get_event_details_outcome html_parser self event_url response soup
                  Hget Hrs Hparse) as [Hret Hidx].
      destruct (read_additional_details soup) as [ad|e] eqn:Had.
      * destruct Hret as [v Hv]; [| congruence].
        apply read_additional_details_returns_iff. exists ad. exact Had.
      * rewrite (get_event_details_raise html_parser self event_url response soup e
                   Hget Hrs Hparse Had) in Hraise.
        pose proof (read_additional_details_raises_IndexError soup e Had). congruence.
    + split; [reflexivity |]. intros _.
      exact (get_event_details_rejected html_parser self event_url response Hget Hrs Hparse).
  - destruct (html_parser (Requests.text response)) as [soup|] eqn:Hparse.
    + destruct (get_event_details_outcome html_parser self event_url response soup
                  Hget Hrs Hparse) as [Hret Hidx].
      split.
      * intros Hraise. exists soup. split; [reflexivity |].
        intros Hlabels. destruct (Hret Hlabels) as [v Hv]. congruence.
      * intros (soup' & [= <-] & Hlabels). exact (Hidx Hlabels).
    + rewrite (get_event_details_rejected html_parser self event_url response Hget Hrs Hparse).
      split; [discriminate | intros (soup & [=] & _)].
Qed.

(** ** The values of the additional details *)

(** X16: the [price] read from the additional details is [None] when the
    text lacks the label [Price:]; otherwise it is the one token that follows
    the first [Price: ] in the text: it holds no space, and it ends at the
    next space, at the next [Price: ], or at the end of the text. *)
Theorem X16_price_is_the_token_after_the_label soup price doors_open :
  read_additional_details soup = Return (price, doors_open) →
  match price with
  | PNone => ∀ t, details_text soup = Some t → PyStr.contains "Price:" t = false
  | PStr token =>
      ∃ t before rest,
        details_text soup = Some t
        ∧ t = before +:+ "Price: " +:+ token +:+ rest
        ∧ PyStr.contains "Price: " before = false
        ∧ PyStr.contains " " token = false
        ∧ (rest = EmptyString
           ∨ PyStr.startswith " " rest = true
           ∨ PyStr.startswith "Price: " rest = true)
  | _ => False
  end.
Proof.
  unfold read_additional_details, details_text.
  destruct (Bs4.select_one _ soup) as [c|]; simpl.
  - set (t := Bs4.get_text_strip " " c). intros H.
    apply bind_Return_inv in H as (price' & Hprice & H).
    apply bind_Return_inv in H as (doors' & _ & H).
    injection H as <- _.
    destruct (PyStr.contains "Price:" t) eqn:Hlabel.
    + apply bind_Return_inv in Hprice as (after & Hafter & Hprice).
      apply bind_Return_inv in Hprice as (first & Hfirst & Hprice).
      injection Hprice as <-.
      apply second_piece in Hafter as (before & rest1 & Ht & Hbefore & _ & Hrest1);
        [| discriminate].
      apply first_piece in Hfirst as (rest2 & Hafter & Hfirst & Hrest2); [| discriminate].
      exists t, before, (rest2 +:+ rest1).
      split; [reflexivity |]. split; [| split; [exact Hbefore | split; [exact Hfirst |]]].
      * rewrite Ht, Hafter, append_assoc. reflexivity.
      * destruct Hrest2 as [-> | Hsp].
        -- rewrite append_nil_l. destruct Hrest1; auto.
        -- right. left. exact (startswith_longer " " rest2 rest1 Hsp).
    + injection Hprice as <-. intros t' [= <-]. exact Hlabel.
  - intros [= <- _]. intros t [=].
Qed.

(** X17: the [doors_open] read from the additional details is [None] when
    the text lacks the label [Doors open:]; otherwise it is everything that
    follows the first [Doors open: ], up to the next [Doors open: ] or the
    end of the block: it is not cut at a space, so text after the time
    belongs to it. *)
Theorem X17_doors_open_runs_to_the_end soup price doors_open :
  read_additional_details soup = Return (price, doors_open) →
  match doors_open with
  | PNone => ∀ t, details_text soup = Some t → PyStr.contains "Doors open:" t = false
  | PStr value =>
      ∃ t before rest,
        details_text soup = Some t
        ∧ t = before +:+ "Doors open: " +:+ value +:+ rest
        ∧ PyStr.contains "Doors open: " before = false
        ∧ (rest = EmptyString ∨ PyStr.startswith "Doors open: " rest = true)
  | _ => False
  end.
Proof.
  unfold read_additional_details, details_text.
  destruct (Bs4.select_one _ soup) as [c|]; simpl.
  - set (t := Bs4.get_text_strip " " c). intros H.
    apply bind_Return_inv in H as (price' & _ & H).
    apply bind_Return_inv in H as (doors' & Hdoors & H).
    injection H as _ <-.
    destruct (PyStr.contains "Doors open:" t) eqn:Hlabel.
    + destruct (index (PyStr.split "Doors open: " t) 1) as [value|e] eqn:Hvalue;
        [| discriminate].
      injection Hdoors as <-.
      apply second_piece in Hvalue as (before & rest & Ht & Hbefore & _ & Hrest);
        [| discriminate].
      exists t, before, rest. auto.
    + injection Hdoors as <-. intros t' [= <-]. exact Hlabel.
  - intros [= _ <-]. intros t [=].
Qed.

Lemma X15_event_details_raise_exactly_when_witness :
  returns (get_event_details MoreSamples.parser
             (Samples.integration
                (Samples.serving (Samples.page 200 MoreSamples.full_event_text)))
             "https://www.songkick.com/concerts/4")
  ∧ get_event_details MoreSamples.parser
      (Samples.integration (Samples.serving (Samples.page 200 MoreSamples.doors_nbsp_text)))
      "https://www.songkick.com/concerts/6"
    = Raise IndexError
  ∧ get_event_details MoreSamples.parser
      (Samples.integration (Samples.serving (Samples.page 200 Samples.rejected_text)))
      "https://www.songkick.com/concerts/7"
    = Raise ParserRejectedMarkup.
Proof.
  split; [| split].
  - destruct (X15_event_details_raise_exactly_when MoreSamples.parser
                (Samples.integration
                   (Samples.serving (Samples.page 200 MoreSamples.full_event_text)))
                "https://www.songkick.com/concerts/4"
                (Samples.page 200 MoreSamples.full_event_text) eq_refl eq_refl) as [Hiff _].
    apply Hiff. exists MoreSamples.full_event. split; [reflexivity |].
    intros t Ht. vm_compute in Ht. injection Ht as <-.
    split; intros [_ H]; vm_compute in H; discriminate H.
  - destruct (X15_event_details_raise_exactly_when MoreSamples.parser
                (Samples.integration
                   (Samples.serving (Samples.page 200 MoreSamples.doors_nbsp_text)))
                "https://www.songkick.com/concerts/6"
                (Samples.page 200 MoreSamples.doors_nbsp_text) eq_refl eq_refl)
      as (_ & _ & Hiff & _).
    apply Hiff. exists MoreSamples.doors_nbsp_page. split; [reflexivity |].
    intros Hlabels. destruct (Hlabels "Doors open:") as [_ Hdoors]; [vm_compute; reflexivity |].
    apply Hdoors. split; vm_compute; reflexivity.
  - destruct (X15_event_details_raise_exactly_when MoreSamples.parser
                (Samples.integration
                   (Samples.serving (Samples.page 200 Samples.rejected_text)))
                "https://www.songkick.com/concerts/7"
                (Samples.page 200 Samples.rejected_text) eq_refl eq_refl)
      as (_ & Hiff & _).
    apply Hiff. reflexivity.
Defined.

Lemma X16_price_is_the_token_after_the_label_witness :
  ∃ t before rest,
    details_text MoreSamples.full_event = Some t
    ∧ t = before +:+ "Price: " +:+ "$10" +:+ rest
    ∧ PyStr.contains "Price: " before = false
    ∧ PyStr.contains " " "$10" = false
    ∧ (rest = EmptyString
       ∨ PyStr.startswith " " rest = true
       ∨ PyStr.startswith "Price: " rest = true).
Proof.
  exact (X16_price_is_the_token_after_the_label MoreSamples.full_event
           (PStr "$10") (PStr "19:00") eq_refl).
Defined.

Lemma X17_doors_open_runs_to_the_end_witness :
  ∃ t before rest,
    details_text MoreSamples.full_event = Some t
    ∧ t = before +:+ "Doors open: " +:+ "19:00" +:+ rest
    ∧ PyStr.contains "Doors open: " before = false
    ∧ (rest = EmptyString ∨ PyStr.startswith "Doors open: " rest = true).
Proof.
  exact (X17_doors_open_runs_to_the_end MoreSamples.full_event
           (PStr "$10") (PStr "19:00") eq_refl).
Defined.

(** ** Ticket links *)

(** X18: when [get_event_details] returns, [ticketing_information] holds
    exactly one record per [buy-ticket-link] element of the page, in page
    order. Its [link] is always a string: the site origin followed by the
    element's [href], or by the word [None] when the element has no [href];
    its [vendor] is "Unknown Vendor" when the element has no vendor label. *)
Theorem X18_one_ticket_per_link html_parser self event_url response v :
  event_answer self event_url = Return response →
  get_event_details html_parser self event_url = Return v →
  ∃ soup details tickets,
    html_parser (Requests.text response) = Some soup
    ∧ v = PDict {[ "event_details" := PDict details ]}
    ∧ details !! "ticketing_information" = Some (PList tickets)
    ∧ Forall2
        (λ link ticket,
           ∃ vendor,
             (Bs4.select_one [Bs4.SelClass "vendor"] link = None → vendor = "Unknown Vendor")
             ∧ ticket = PDict {[ "vendor" := PStr vendor;
                                 "link" := PStr (site +:+ default "None" (Bs4.get "href" link)) ]})
        (Bs4.select [Bs4.SelClass "buy-ticket-link"] soup)
        tickets.
Proof.
  unfold event_answer, get_event_details. intros -> Hv. simpl in Hv.
  apply bind_Return_inv in Hv as ([] & _ & Hv). simpl in Hv.
  apply bind_Return_inv in Hv as (soup & Hsoup & Hv).
  apply BeautifulSoup_returns in Hsoup.
  apply bind_Return_inv in Hv as (ad & _ & Hv).
  injection Hv as <-. exists soup. eexists _, _.
  split; [exact Hsoup |]. split; [reflexivity |]. split; [reflexivity |].
  apply Forall2_fmap_r, Forall_Forall2_diag, Forall_forall. intros link _.
  exists (match Bs4.select_one [Bs4.SelClass "vendor"] link with
          | Some label => PyStr.strip (Bs4.text label)
          | None => "Unknown Vendor"
          end).
  split; [intros ->; reflexivity |].
  unfold ticket_record. destruct (Bs4.get "href" link); reflexivity.
Qed.

Lemma X18_one_ticket_per_link_witness :
  ∃ details tickets,
    get_event_details MoreSamples.parser
      (Samples.integration (Samples.serving (Samples.page 200 MoreSamples.full_event_text)))
      "https://www.songkick.com/concerts/4"
    = Return (PDict {[ "event_details" := PDict details ]})
    ∧ details !! "ticketing_information" = Some (PList tickets)
    ∧ length tickets = 2%nat.
Proof.
  destruct (get_event_details MoreSamples.parser
              (Samples.integration
                 (Samples.serving (Samples.page 200 MoreSamples.full_event_text)))
              "https://www.songkick.com/concerts/4") as [v|e] eqn:Hv;
    [| vm_compute in Hv; discriminate Hv].
  destruct (X18_one_ticket_per_link MoreSamples.parser
              (Samples.integration
                 (Samples.serving (Samples.page 200 MoreSamples.full_event_text)))
              "https://www.songkick.com/concerts/4"
              (Samples.page 200 MoreSamples.full_event_text) v eq_refl Hv)
    as (soup & details & tickets & Hsoup & -> & Htickets & Hall).
  exists details, tickets. split; [reflexivity |]. split; [exact Htickets |].
  vm_compute in Hsoup. injection Hsoup as <-.
  apply Forall2_length in Hall. rewrite <- Hall. reflexivity.
Defined.

Example full_event_tickets :
  ∃ details,
    get_event_details MoreSamples.parser
      (Samples.integration (Samples.serving (Samples.page 200 MoreSamples.full_event_text)))
      "https://www.songkick.com/concerts/4"
    = Return (PDict {[ "event_details" := PDict details ]})
    ∧ details !! "ticketing_information"
      = Some (PList [ PDict {[ "vendor" := PStr "Ticketmaster";
                               "link" := PStr "https://www.songkick.com/tickets/1" ]};
                      PDict {[ "vendor" := PStr "Unknown Vendor";
                               "link" := PStr "https://www.songkick.comNone" ]} ])
    ∧ details !! "additional_details"
      = Some (PDict {[ "price" := PStr "$10"; "doors_open" := PStr "19:00" ]}).
Proof. eexists. split; [reflexivity |]. split; vm_compute; reflexivity. Qed.

(** ** Stripped text *)

Lemma whitespace_nonempty : Forall (λ w, w ≠ EmptyString) PyStr.whitespace.
Proof.
  unfold PyStr.whitespace.
  repeat (apply Forall_cons; split; [intros H; vm_compute in H; discriminate H |]).
  apply Forall_nil. exact I.
Qed.

(** No whitespace character's encoding begins another's, so a string that
    begins with one is recognised as beginning with that one. *)
Lemma whitespace_leading :
  Forall (λ w, ∀ t, PyStr.leading_space (w +:+ t) = Some w) PyStr.whitespace.
Proof.
  unfold PyStr.whitespace.
  repeat (apply Forall_cons; split; [intros t; vm_compute; reflexivity |]).
  apply Forall_nil. exact I.
Qed.

Lemma leading_space_of w t : w ∈ PyStr.whitespace → PyStr.leading_space (w +:+ t) = Some w.
Proof.
  intros Hw. pose proof whitespace_leading as H.
  rewrite Forall_forall in H. apply H, Hw.
Qed.

Lemma append_empty s t : s +:+ t = EmptyString → s = EmptyString.
Proof. destruct s; [reflexivity | rewrite append_cons; discriminate]. Qed.

Lemma starts_with_space_leading s :
  starts_with_space s → is_Some (PyStr.leading_space s).
Proof. intros (w & rest & Hw & ->). rewrite (leading_space_of w rest Hw). eauto. Qed.

Lemma lstrip_from_no_leading skip s :
  PyStr.lstrip_from skip s = EmptyString
  ∨ PyStr.leading_space (PyStr.lstrip_from skip s) = None.
Proof.
  revert skip. induction s as [|c s IH]; intros skip; [left; reflexivity |].
  destruct skip as [|k]; simpl; [| apply IH].
  destruct (PyStr.leading_space (String c s)) as [w|] eqn:Hw; [apply IH |].
  right. exact Hw.
Qed.

Lemma lstrip_no_leading s : ¬ starts_with_space (PyStr.lstrip s).
Proof.
  intros Hsp. pose proof (starts_with_space_leading _ Hsp) as [w Hw].
  destruct (lstrip_from_no_leading O s) as [Hempty | Hnone].
  - unfold PyStr.lstrip in Hw. rewrite Hempty in Hw. discriminate Hw.
  - unfold PyStr.lstrip in Hw. congruence.
Qed.

Lemma lstrip_from_skip a t :
  PyStr.lstrip_from (String.length a) (a +:+ t) = PyStr.lstrip_from O t.
Proof.
  induction a as [|c a IH]; [reflexivity |].
  rewrite append_cons. simpl. exact IH.
Qed.

(** Stripping on the left skips a leading whitespace character. *)
Lemma lstrip_space w t : w ∈ PyStr.whitespace → PyStr.lstrip (w +:+ t) = PyStr.lstrip t.
Proof.
  intros Hw. pose proof (leading_space_of w t Hw) as Hlead.
  pose proof whitespace_nonempty as Hne. rewrite Forall_forall in Hne.
  specialize (Hne w Hw). destruct w as [|c w]; [contradiction |].
  unfold PyStr.lstrip. rewrite append_cons in *. simpl. rewrite Hlead. simpl.
  apply lstrip_from_skip.
Qed.

(** What [rstrip] cuts off holds whitespace only. *)
Lemma rstrip_decomp s : ∃ tail, s = PyStr.rstrip s +:+ tail ∧ PyStr.blank tail = true.
Proof.
  induction s as [|c s (tail & Hs & Htail)]; [exists EmptyString; split; reflexivity |].
  simpl. destruct (PyStr.blank (String c s)) eqn:Hblank.
  - exists (String c s). split; [reflexivity | exact Hblank].
  - exists tail. split; [| exact Htail]. rewrite append_cons, <- Hs. reflexivity.
Qed.

Lemma rstrip_no_trailing s : ¬ ends_with_space (PyStr.rstrip s).
Proof.
  pose proof whitespace_nonempty as Hne. rewrite Forall_forall in Hne.
  induction s as [|c s IH]; intros (before & w & Hw & Heq).
  - simpl in Heq. symmetry in Heq. destruct before; [| rewrite append_cons in Heq; discriminate].
    rewrite append_nil_l in Heq. exact (Hne w Hw Heq).
  - simpl in Heq. destruct (PyStr.blank (String c s)) eqn:Hblank.
    + symmetry in Heq. destruct before; [| rewrite append_cons in Heq; discriminate].
      rewrite append_nil_l in Heq. exact (Hne w Hw Heq).
    + destruct before as [|c' before].
      * rewrite append_nil_l in Heq.
        destruct (rstrip_decomp s) as (tail & Hs & Htail).
        assert (String c s = w +:+ tail) as Hcs
          by (rewrite <- Heq, append_cons, <- Hs; reflexivity).
        unfold PyStr.blank in Hblank, Htail.
        rewrite Hcs, (lstrip_space w tail Hw) in Hblank. congruence.
      * rewrite append_cons in Heq. injection Heq as <- Heq.
        apply IH. exists before, w. split; [exact Hw | exact Heq].
Qed.

Lemma rstrip_keeps_head s : ¬ starts_with_space s → ¬ starts_with_space (PyStr.rstrip s).
Proof.
  intros Hs (w & rest & Hw & Heq). apply Hs.
  destruct (rstrip_decomp s) as (tail & Hdecomp & _).
  exists w, (rest +:+ tail). split; [exact Hw |].
  rewrite Hdecomp at 1. rewrite Heq. apply append_assoc.
Qed.

Lemma strip_trimmed s :
  ¬ starts_with_space (PyStr.strip s) ∧ ¬ ends_with_space (PyStr.strip s).
Proof.
  unfold PyStr.strip. split;
    [apply rstrip_keeps_head, lstrip_no_leading | apply rstrip_no_trailing].
Qed.

(** X19: the [name] in the record of a result item is a string that neither
    begins nor ends with a whitespace character (of those for which
    [str.isspace] holds, the no-break space and the other Unicode spaces
    included), whatever surrounds the text of the summary link in the page. *)
Theorem X19_location_name_is_trimmed li record :
  location_record li = Return record →
  ∃ m name, record = PDict m
            ∧ m !! "name" = Some (PStr name)
            ∧ ¬ starts_with_space name ∧ ¬ ends_with_space name.
Proof.
  unfold location_record. intros H.
  apply bind_Return_inv in H as (summary_link & _ & H).
  apply bind_Return_inv in H as (summary_text & _ & H).
  apply bind_Return_inv in H as (metro_id & _ & H).
  apply bind_Return_inv in H as (href & _ & H).
  apply bind_Return_inv in H as (tf & _ & H).
  injection H as <-. eexists _, _. split; [reflexivity |]. split; [reflexivity |].
  apply strip_trimmed.
Qed.

Lemma X19_location_name_is_trimmed_witness :
  ∃ m name, location_record MoreSamples.padded_item = Return (PDict m)
            ∧ m !! "name" = Some (PStr name)
            ∧ ¬ starts_with_space name ∧ ¬ ends_with_space name.
Proof.
  destruct (location_record MoreSamples.padded_item) as [record|e] eqn:Hrecord;
    [| vm_compute in Hrecord; discriminate Hrecord].
  destruct (X19_location_name_is_trimmed MoreSamples.padded_item record Hrecord)
    as (m & name & -> & Hname & Htrimmed).
  exists m, name. split; [reflexivity |]. split; [exact Hname | exact Htrimmed].
Defined.

(** No-break spaces around the text of the summary link are stripped with
    the spaces; a comment inside the link is no part of its text. *)
Example padded_item_name :
  ∃ m, location_record MoreSamples.padded_item = Return (PDict m)
       ∧ m !! "name" = Some (PStr "London, UK").
Proof. eexists. split; [reflexivity |]. vm_compute. reflexivity. Qed.

Example commented_item_name :
  ∃ m, location_record MoreSamples.commented_item = Return (PDict m)
       ∧ m !! "name" = Some (PStr "London, UK").
Proof. eexists. split; [reflexivity |]. vm_compute. reflexivity. Qed.

Lemma X7_get_operations_fail_before_reading_witness :
  search_location Samples.parser
    (Samples.integration (Samples.serving (Samples.page 404 Samples.no_results_text)))
    "Atlantis"
  = Raise (HTTPError 404)
  ∧ get_event_details Samples.parser (Samples.integration Samples.offline)
      "https://www.songkick.com/concerts/1"
    = Raise ConnectionError.
Proof.
  split.
  - destruct (X7_get_operations_fail_before_reading Samples.parser
                (Samples.integration
                   (Samples.serving (Samples.page 404 Samples.no_results_text)))
                "Atlantis" "https://www.songkick.com/concerts/1") as (_ & _ & _ & Hstatus).
    destruct (Hstatus (Samples.page 404 Samples.no_results_text)) as (Hsearch & _);
      [simpl; lia |].
    exact (Hsearch eq_refl).
  - destruct (X7_get_operations_fail_before_reading Samples.parser
                (Samples.integration Samples.offline)
                "Atlantis" "https://www.songkick.com/concerts/1") as (_ & _ & Hdetails & _).
    exact (Hdetails ConnectionError eq_refl).
Defined.

Lemma X1_returns_exactly_in_success_range_witness :
  returns (_handle_response Samples.repr_of (Samples.integration Samples.offline)
             (Samples.json_response 203 (Return MoreSamples.expired_body)))
  ∧ ¬ returns (_handle_response Samples.repr_of (Samples.integration Samples.offline)
                 (Samples.json_response 204 (Raise JSONDecodeError))).
Proof.
  split.
  - apply (X1_returns_exactly_in_success_range Samples.repr_of
             (Samples.integration Samples.offline)
             (Samples.json_response 203 (Return MoreSamples.expired_body))).
    unfold in_success_range. simpl. lia.
  - intros Hret.
    apply (X1_returns_exactly_in_success_range Samples.repr_of
             (Samples.integration Samples.offline)
             (Samples.json_response 204 (Raise JSONDecodeError))) in Hret.
    unfold in_success_range in Hret. simpl in Hret. lia.
Defined.

Lemma X3_attribute_error_exactly_when_witness :
  _handle_response Samples.repr_of (Samples.integration Samples.offline)
    (Samples.json_response 401 (Return Samples.error_is_string))
  = Raise AttributeError.
Proof.
  apply (X3_attribute_error_exactly_when Samples.repr_of
           (Samples.integration Samples.offline)
           (Samples.json_response 401 (Return Samples.error_is_string))).
  split; [unfold in_success_range; simpl; lia |].
  exists Samples.error_is_string. split; [reflexivity |].
  intros msg code H. inversion H as [m Hm | m e Hm]; vm_compute in Hm; discriminate Hm.
Defined.

Lemma X12_search_url_only_replaces_spaces_witness :
  get_locations_url "New York"
  = "https://www.songkick.com/search?utf8=%E2%9C%93&type=locations&query=New+York&commit=Search"
  ∧ plus_for_space "R&B" = "R&B".
Proof.
  destruct (X12_search_url_only_replaces_spaces "New York") as (Hurl & _).
  destruct (X12_search_url_only_replaces_spaces "R&B") as (_ & _ & Hsame).
  split; [exact Hurl | apply Hsame; reflexivity].
Defined.
